(** * system-monitor-cli: a shallow embedding of the collection core

    The development follows the Go packages of the repository:
    [models] (internal/models/metrics.go), [config]
    (internal/config/config.go), [stats] (internal/stats/mock.go and
    internal/stats/linux.go) and [collector]
    (internal/collector/collector.go).  Module [Go] fixes the meaning of
    the language and standard-library features the code relies on:
    64-bit unsigned arithmetic with wrap-around, IEEE-754 binary64
    numbers, slices that may be nil, the monotonic clock, and the few
    functions of packages strings, strconv, unicode and unicode/utf8
    that the Linux source uses. *)

From Stdlib Require Import ZArith Lia Bool String Ascii List.
From Stdlib Require Import Floats.SpecFloat.
From stdpp Require Import gmap strings list.

Local Open Scope Z_scope.

(* ================================================================== *)
(** * The Go substrate *)
(* ================================================================== *)

Module Go.

(** ** uint64 / int64 *)

(** A [uint64] is a [Z] in [0, 2^64); every arithmetic operation
    reduces its result modulo 2^64, as the Go specification
    prescribes for unsigned integers. *)
Definition two64 : Z := 2 ^ 64.
Definition maxUint64 : Z := two64 - 1.
Definition maxInt64 : Z := 2 ^ 63 - 1.
Definition minInt64 : Z := - 2 ^ 63.

Definition is_uint64 (z : Z) : Prop := 0 <= z < two64.

Definition wrap64 (z : Z) : Z := z mod two64.
Definition add64 (a b : Z) : Z := wrap64 (a + b).
Definition sub64 (a b : Z) : Z := wrap64 (a - b).
Definition mul64 (a b : Z) : Z := wrap64 (a * b).

(** ** error values, multiple results, pointers, slices *)

(** An [error] is represented by its message; the Go value [nil] of
    type error is [None] where an optional error is stored. *)
Definition error : Type := string.

(** The result pair [(v, err)] of a fallible call, as its callers
    inspect it: [err != nil] first, the value only when [err == nil]. *)
Inductive result (A : Type) : Type :=
| Ok (v : A)
| Err (e : error).
Arguments Ok {A} v.
Arguments Err {A} e.

(** A pointer [*T] is [None] when nil. *)
Definition ptr (A : Type) : Type := option A.

(** A slice is either nil or a (possibly empty) sequence. *)
Definition slice (A : Type) : Type := option (list A).

Definition elems {A} (s : slice A) : list A :=
  match s with Some l => l | None => [] end.

Definition len {A} (s : slice A) : nat := length (elems s).

(** [append(s, x)] always yields a non-nil slice. *)
Definition append {A} (s : slice A) (x : A) : slice A :=
  Some (elems s ++ [x]).

(** A run of the program either returns or stops with a run-time
    panic (here: a nil pointer dereference). *)
Inductive outcome (A : Type) : Type :=
| Returned (a : A)
| Panicked.
Arguments Returned {A} a.
Arguments Panicked {A}.

(** ** float64 *)

(** IEEE-754 binary64 through the Standard Library's executable
    specification: 53 bits of precision, [emax = 1024], rounding to
    nearest, ties to even. *)
Definition float64 : Type := spec_float.

Definition f64_of_Z (z : Z) : float64 := binary_normalize 53 1024 z 0 false.
Definition f64_add : float64 -> float64 -> float64 := SFadd 53 1024.
Definition f64_mul : float64 -> float64 -> float64 := SFmul 53 1024.
Definition f64_div : float64 -> float64 -> float64 := SFdiv 53 1024.
Definition f64_eqb : float64 -> float64 -> bool := SFeqb.
Definition f64_ltb : float64 -> float64 -> bool := SFltb.
Definition f64_leb : float64 -> float64 -> bool := SFleb.

(** The literals [0], [100.0] and [1e9]. *)
Definition f64_zero : float64 := S754_zero false.
Definition f64_100 : float64 := Eval vm_compute in f64_of_Z 100.
Definition f64_1e9 : float64 := Eval vm_compute in f64_of_Z 1000000000.

Definition f64_nan : float64 := S754_nan.

(** ** package time *)

(** A [time.Time] obtained from [time.Now()] carries a monotonic clock
    reading; it is represented by that reading, in nanoseconds (an
    int64).  A [time.Duration] is an int64 count of nanoseconds. *)
Definition Time : Type := Z.
Definition Duration : Type := Z.

Definition Second : Duration := 1000000000.
Definition Hour : Duration := 3600 * Second.

(** [t.Sub(u)] on monotonic readings (time.subMono): the difference,
    saturated when it does not fit an int64. *)
Definition Sub (t u : Time) : Duration :=
  let d := t - u in
  if maxInt64 <? d then maxInt64
  else if d <? minInt64 then minInt64
  else d.

(** [time.Since(t)], the clock reading [now] made explicit. *)
Definition Since (now t : Time) : Duration := Sub now t.

(** [d.Seconds()]: [float64(d / Second) + float64(d % Second) / 1e9],
    with Go's truncated integer division. *)
Definition Seconds (d : Duration) : float64 :=
  let sec := Z.quot d Second in
  let nsec := Z.rem d Second in
  f64_add (f64_of_Z sec) (f64_div (f64_of_Z nsec) f64_1e9).

(** ** packages unicode/utf8, unicode, strings and strconv

    A string is a sequence of bytes.  Where the library looks at
    characters it decodes UTF-8, as modelled here; the functions keep
    the fast paths that package strings takes on ASCII input. *)

Definition RuneError : Z := 65533.
Definition RuneSelf : Z := 128.

(** [s[i]], a byte, as a number. *)
Definition byte (c : ascii) : Z := Z.of_N (N_of_ascii c).

(** [utf8.DecodeRuneInString]: the first character of [s] and its
    width in bytes.  The table [first] gives the width that the first
    byte announces (one for ASCII, two for C2..DF, three for E0..EF,
    four for F0..F4, none for the other bytes) and [acceptRanges] the
    range of the second byte ([lo], [hi]); every further byte is in
    80..BF.  An encoding that is cut short or out of range decodes to
    [(RuneError, 1)]. *)
Definition DecodeRuneInString (s : string) : Z * nat :=
  match s with
  | EmptyString => (RuneError, 0%nat)
  | String c0 r =>
      let s0 := byte c0 in
      if s0 <? RuneSelf then (s0, 1%nat)
      else if (s0 <? 194) || (244 <? s0) then (RuneError, 1%nat)
      else
        let lo := if s0 =? 224 then 160 else if s0 =? 240 then 144 else 128 in
        let hi := if s0 =? 237 then 159 else if s0 =? 244 then 143 else 191 in
        let maskx b := Z.land (byte b) 63 in
        let cont b := (128 <=? byte b) && (byte b <=? 191) in
        if s0 <? 224 then
          match r with
          | String c1 _ =>
              if (byte c1 <? lo) || (hi <? byte c1) then (RuneError, 1%nat)
              else (Z.lor (Z.shiftl (Z.land s0 31) 6) (maskx c1), 2%nat)
          | _ => (RuneError, 1%nat)
          end
        else if s0 <? 240 then
          match r with
          | String c1 (String c2 _) =>
              if (byte c1 <? lo) || (hi <? byte c1) then (RuneError, 1%nat)
              else if negb (cont c2) then (RuneError, 1%nat)
              else (Z.lor (Z.lor (Z.shiftl (Z.land s0 15) 12)
                                 (Z.shiftl (maskx c1) 6)) (maskx c2), 3%nat)
          | _ => (RuneError, 1%nat)
          end
        else
          match r with
          | String c1 (String c2 (String c3 _)) =>
              if (byte c1 <? lo) || (hi <? byte c1) then (RuneError, 1%nat)
              else if negb (cont c2) then (RuneError, 1%nat)
              else if negb (cont c3) then (RuneError, 1%nat)
              else (Z.lor (Z.lor (Z.lor (Z.shiftl (Z.land s0 7) 18)
                                        (Z.shiftl (maskx c1) 12))
                                 (Z.shiftl (maskx c2) 6)) (maskx c3), 4%nat)
          | _ => (RuneError, 1%nat)
          end
  end.

(** [utf8.RuneStart]: the byte is not a continuation byte. *)
Definition RuneStart (c : ascii) : bool := negb (Z.land (byte c) 192 =? 128).

(** [utf8.DecodeLastRuneInString], on the bytes of the string in
    reverse order ([rs] starts with the last byte).  The search for
    the start of the last character looks at the up to three bytes
    before the last one; the character decoded from there must end
    with the string. *)
Definition DecodeLastRuneInString (rs : list ascii) : Z * nat :=
  match rs with
  | [] => (RuneError, 0%nat)
  | c :: before =>
      if byte c <? RuneSelf then (byte c, 1%nat)
      else
        let decodeFrom (k : nat) :=
          let '(r, size) :=
            DecodeRuneInString (string_of_list_ascii (rev (take (S k) rs))) in
          if Nat.eqb size (S k) then (r, size) else (RuneError, 1%nat) in
        match before with
        | [] => decodeFrom 0%nat
        | b1 :: before1 =>
            if RuneStart b1 then decodeFrom 1%nat
            else
              match before1 with
              | [] => decodeFrom 1%nat
              | b2 :: before2 =>
                  if RuneStart b2 then decodeFrom 2%nat
                  else
                    match before2 with
                    | [] => decodeFrom 2%nat
                    | b3 :: before3 =>
                        if RuneStart b3 then decodeFrom 3%nat
                        else
                          match before3 with
                          | [] => decodeFrom 3%nat
                          | _ :: _ => decodeFrom 4%nat
                          end
                    end
              end
        end
  end.

(** [unicode.IsSpace]: the Latin-1 cases, then the table
    [White_Space]. *)
Definition IsSpace (r : Z) : bool :=
  if r <=? 255 then
    ((9 <=? r) && (r <=? 13)) || (r =? 32) || (r =? 133) || (r =? 160)
  else
    (r =? 5760) || ((8192 <=? r) && (r <=? 8202)) || (r =? 8232) ||
    (r =? 8233) || (r =? 8239) || (r =? 8287) || (r =? 12288).

(** The table [asciiSpace] of package strings. *)
Definition isSpace (c : ascii) : bool :=
  let n := N_of_ascii c in
  ((9 <=? n) && (n <=? 13))%N || (n =? 32)%N.

Definition isEmpty (s : string) : bool :=
  match s with EmptyString => true | _ => false end.

(** No byte of [s] has its high bit set ([setBits < utf8.RuneSelf]). *)
Definition isASCII (s : string) : bool :=
  forallb (fun c => byte c <? RuneSelf) (list_ascii_of_string s).

(** The ASCII path of [strings.Fields]: the maximal runs of bytes
    that are not in [asciiSpace]. *)
Fixpoint FieldsFrom (tok : string) (s : string) : list string :=
  match s with
  | EmptyString => if isEmpty tok then [] else [tok]
  | String c r =>
      if isSpace c then
        if isEmpty tok then FieldsFrom EmptyString r
        else tok :: FieldsFrom EmptyString r
      else FieldsFrom (tok +:+ String c EmptyString) r
  end.

(** [strings.FieldsFunc]: the loop [for end, rune := range s].  [tok]
    is the field that is open (none when empty), [pending] the number
    of bytes of the current character still to come, which are
    dropped ([dropping]) or belong to the field. *)
Fixpoint FieldsFuncFrom (f : Z -> bool) (tok : string) (dropping : bool)
    (pending : nat) (s : string) : list string :=
  match s with
  | EmptyString => if isEmpty tok then [] else [tok]
  | String c r =>
      match pending with
      | S k =>
          if dropping then FieldsFuncFrom f tok true k r
          else FieldsFuncFrom f (tok +:+ String c EmptyString) false k r
      | O =>
          let '(rune, size) := DecodeRuneInString s in
          if f rune then
            if isEmpty tok then FieldsFuncFrom f EmptyString true (size - 1) r
            else tok :: FieldsFuncFrom f EmptyString true (size - 1) r
          else FieldsFuncFrom f (tok +:+ String c EmptyString) false (size - 1) r
      end
  end.

Definition FieldsFunc (s : string) (f : Z -> bool) : list string :=
  FieldsFuncFrom f EmptyString false 0 s.

(** [strings.Fields]: the fields of [s] between white space as
    [unicode.IsSpace] defines it; an ASCII string takes the fast
    path. *)
Definition Fields (s : string) : list string :=
  if isASCII s then FieldsFrom EmptyString s else FieldsFunc s IsSpace.

(** [strings.Split(s, sep)] for a one-byte separator: the pieces
    between consecutive separators, one more than there are
    separators. *)
Fixpoint SplitFrom (sep : ascii) (tok : string) (s : string) : list string :=
  match s with
  | EmptyString => [tok]
  | String c r =>
      if Ascii.eqb c sep then tok :: SplitFrom sep EmptyString r
      else SplitFrom sep (tok +:+ String c EmptyString) r
  end.

Definition Split (s : string) (sep : ascii) : list string :=
  SplitFrom sep EmptyString s.

(** [strings.TrimLeftFunc]: [s] from the first character on that does
    not satisfy [f] ([indexFunc(s, f, false)]), empty when there is
    none. *)
Fixpoint TrimLeftFuncFrom (f : Z -> bool) (pending : nat) (s : string) : string :=
  match s with
  | EmptyString => EmptyString
  | String c r =>
      match pending with
      | S k => TrimLeftFuncFrom f k r
      | O =>
          let '(rune, size) := DecodeRuneInString s in
          if f rune then TrimLeftFuncFrom f (size - 1) r else s
      end
  end.

Definition TrimLeftFunc (s : string) (f : Z -> bool) : string :=
  TrimLeftFuncFrom f 0 s.

(** [lastIndexFunc(s, f, false)] on the reversed bytes: the index at
    which the last character that does not satisfy [f] starts, going
    back from the end one character at a time; [None] is -1. *)
Fixpoint lastIndexFuncFrom (f : Z -> bool) (pending : nat) (rs : list ascii)
  : option nat :=
  match rs with
  | [] => None
  | _ :: before =>
      match pending with
      | S k => lastIndexFuncFrom f k before
      | O =>
          let '(rune, size) := DecodeLastRuneInString rs in
          if f rune then lastIndexFuncFrom f (size - 1) before
          else Some (length rs - size)%nat
      end
  end.

(** [strings.TrimRightFunc] *)
Definition TrimRightFunc (s : string) (f : Z -> bool) : string :=
  let bytes := list_ascii_of_string s in
  let stop :=
    match lastIndexFuncFrom f 0 (rev bytes) with
    | Some i =>
        match drop i bytes with
        | c :: _ =>
            if RuneSelf <=? byte c
            then (i + snd (DecodeRuneInString
                             (string_of_list_ascii (drop i bytes))))%nat
            else S i
        | [] => S i
        end
    | None => 0%nat
    end in
  string_of_list_ascii (take stop bytes).

(** [strings.TrimFunc] *)
Definition TrimFunc (s : string) (f : Z -> bool) : string :=
  TrimRightFunc (TrimLeftFunc s f) f.

(** The second loop of [strings.TrimSpace], on the reversed bytes of
    [s[start:]]: ASCII white space is dropped from the end; at a byte
    that is not ASCII the rest is left to [TrimRightFunc]. *)
Fixpoint trimStop (rs : list ascii) : string :=
  match rs with
  | [] => EmptyString
  | c :: before =>
      if RuneSelf <=? byte c
      then TrimRightFunc (string_of_list_ascii (rev rs)) IsSpace
      else if isSpace c then trimStop before
      else string_of_list_ascii (rev rs)
  end.

(** [strings.TrimSpace]: ASCII white space is dropped from the
    start; at a byte that is not ASCII the rest is left to
    [TrimFunc]. *)
Fixpoint TrimSpace (s : string) : string :=
  match s with
  | EmptyString => EmptyString
  | String c r =>
      if RuneSelf <=? byte c then TrimFunc s IsSpace
      else if isSpace c then TrimSpace r
      else trimStop (rev (list_ascii_of_string s))
  end.

(** [strings.HasPrefix(s, prefix)] *)
Definition HasPrefix (s prefix : string) : bool := String.prefix prefix s.

(** [strings.TrimSuffix(s, suffix)] for a one-byte suffix. *)
Fixpoint TrimSuffix (s : string) (suffix : ascii) : string :=
  match s with
  | EmptyString => EmptyString
  | String c EmptyString => if Ascii.eqb c suffix then EmptyString else s
  | String c r => String c (TrimSuffix r suffix)
  end.

(** [strconv.ParseUint(s, 10, 64)], the value it returns whatever the
    error: 0 on a syntax error (an empty string, a byte that is not a
    decimal digit), the largest uint64 as soon as the digits read so
    far overflow. *)
Definition digit (c : ascii) : option Z :=
  let n := Z.of_N (N_of_ascii c) in
  if (48 <=? n) && (n <=? 57) then Some (n - 48) else None.

Definition cutoff : Z := maxUint64 / 10 + 1.

Fixpoint ParseUintFrom (n : Z) (s : string) : Z :=
  match s with
  | EmptyString => n
  | String c r =>
      match digit c with
      | None => 0
      | Some d =>
          if cutoff <=? n then maxUint64
          else
            let n1 := n * 10 + d in
            if maxUint64 <? n1 then maxUint64 else ParseUintFrom n1 r
      end
  end.

Definition ParseUint (s : string) : Z :=
  match s with
  | EmptyString => 0
  | _ => ParseUintFrom 0 s
  end.

End Go.

(* ================================================================== *)
(** * package models (internal/models/metrics.go) *)
(* ================================================================== *)

Module models.

Module CPUStats.
Record t : Type := mk {
  Overall : Go.float64;
  PerCore : Go.slice Go.float64 }.
(** The zero value of the struct. *)
Definition zero : t := {| Overall := Go.f64_zero; PerCore := None |}.
End CPUStats.

Module MemoryStats.
Record t : Type := mk {
  Total : Z;
  Used : Z;
  Available : Z;
  Percent : Go.float64 }.
Definition zero : t :=
  {| Total := 0; Used := 0; Available := 0; Percent := Go.f64_zero |}.
End MemoryStats.

Module DiskStats.
Record t : Type := mk {
  Mountpoint : string;
  Total : Z;
  Used : Z;
  Available : Z;
  Percent : Go.float64 }.
End DiskStats.

Module NetworkStats.
Record t : Type := mk {
  Interface : string;
  BytesSent : Z;
  BytesRecv : Z;
  SendRate : Go.float64;
  RecvRate : Go.float64 }.
End NetworkStats.

Module Metrics.
Record t : Type := mk {
  Timestamp : Go.Time;
  CPU : CPUStats.t;
  Memory : MemoryStats.t;
  Disk : Go.slice DiskStats.t;
  Network : Go.slice NetworkStats.t }.
End Metrics.

(** [CalculatePercentage] *)
Definition CalculatePercentage (used total : Z) : Go.float64 :=
  if total =? 0 then Go.f64_zero
  else Go.f64_mul (Go.f64_div (Go.f64_of_Z used) (Go.f64_of_Z total)) Go.f64_100.

End models.

(* ================================================================== *)
(** * package config (internal/config/config.go) *)
(* ================================================================== *)

Module config.

Module Thresholds.
Record t : Type := mk {
  CPU : Go.float64;
  Memory : Go.float64;
  Disk : Go.float64 }.
End Thresholds.

Module Config.
Record t : Type := mk {
  Interval : Go.Duration;
  JSONMode : bool;
  LogFile : string;
  ConfigFile : string;
  Thresholds : Thresholds.t }.
End Config.

(** The kinds of error [ValidateConfig] builds with [fmt.Errorf]; the
    formatted value is kept, the prose of the message is not. *)
Inductive ValidationError : Type :=
| IntervalNotPositive (got : Go.Duration)
| IntervalTooLarge (got : Go.Duration)
| ThresholdOutOfRange (name : string) (got : Go.float64).

(** The floating-point literals 80.0, 85.0 and 90.0. *)
Definition lit_80 : Go.float64 := Eval vm_compute in Go.f64_of_Z 80.
Definition lit_85 : Go.float64 := Eval vm_compute in Go.f64_of_Z 85.
Definition lit_90 : Go.float64 := Eval vm_compute in Go.f64_of_Z 90.

(** [NewDefaultConfig] *)
Definition NewDefaultConfig : Config.t :=
  {| Config.Interval := 1 * Go.Second;
     Config.JSONMode := false;
     Config.LogFile := "";
     Config.ConfigFile := "";
     Config.Thresholds :=
       {| Thresholds.CPU := lit_80;
          Thresholds.Memory := lit_85;
          Thresholds.Disk := lit_90 |} |}.

(** [validateThreshold]: [None] is the nil error. *)
Definition validateThreshold (name : string) (value : Go.float64)
  : option ValidationError :=
  if Go.f64_ltb value Go.f64_zero || Go.f64_ltb Go.f64_100 value
  then Some (ThresholdOutOfRange name value)
  else None.

(** [ValidateConfig] *)
Definition ValidateConfig (config : Config.t) : option ValidationError :=
  if Config.Interval config <=? 0 then
    Some (IntervalNotPositive (Config.Interval config))
  else if 1 * Go.Hour <? Config.Interval config then
    Some (IntervalTooLarge (Config.Interval config))
  else
    match validateThreshold "CPU" (Thresholds.CPU (Config.Thresholds config)) with
    | Some err => Some err
    | None =>
    match validateThreshold "Memory" (Thresholds.Memory (Config.Thresholds config)) with
    | Some err => Some err
    | None =>
    match validateThreshold "Disk" (Thresholds.Disk (Config.Thresholds config)) with
    | Some err => Some err
    | None => None
    end end end.

(** [MergeWithFlags]: [merged] starts as a copy of [config], the flags
    that are set replace its fields, and the copy is returned when it
    validates ([inl]), the error of [ValidateConfig] otherwise
    ([inr]). *)
Definition MergeWithFlags (config : Config.t) (interval : Go.Duration)
    (jsonMode : bool) (logFile : string)
    (cpuThreshold memThreshold diskThreshold : Go.float64)
  : Config.t + ValidationError :=
  let merged :=
    {| Config.Interval :=
         if 0 <? interval then interval else Config.Interval config;
       Config.JSONMode := jsonMode;
       Config.LogFile :=
         if Go.isEmpty logFile then Config.LogFile config else logFile;
       Config.ConfigFile := Config.ConfigFile config;
       Config.Thresholds :=
         {| Thresholds.CPU :=
              if Go.f64_ltb Go.f64_zero cpuThreshold then cpuThreshold
              else Thresholds.CPU (Config.Thresholds config);
            Thresholds.Memory :=
              if Go.f64_ltb Go.f64_zero memThreshold then memThreshold
              else Thresholds.Memory (Config.Thresholds config);
            Thresholds.Disk :=
              if Go.f64_ltb Go.f64_zero diskThreshold then diskThreshold
              else Thresholds.Disk (Config.Thresholds config) |} |} in
  match ValidateConfig merged with
  | Some err => inr err
  | None => inl merged
  end.


End config.

(* ================================================================== *)
(** * package stats (internal/stats/mock.go, internal/stats/linux.go) *)
(* ================================================================== *)

Module stats.

(** ** The deterministic test source (mock.go) *)

Module MockStatsProvider.
Record t : Type := mk {
  CPUStats : Go.ptr models.CPUStats.t;
  MemStats : Go.ptr models.MemoryStats.t;
  DiskStats : Go.slice models.DiskStats.t;
  NetStats : Go.slice models.NetworkStats.t;
  CPUError : option Go.error;
  MemError : option Go.error;
  DiskError : option Go.error;
  NetError : option Go.error }.
End MockStatsProvider.

Definition GiB : Z := 1024 * 1024 * 1024.

(** The floating-point literals of [NewMockStatsProvider]: 25.5, 20.0,
    30.0, 25.0, 28.0, 50.0, 60.0, 1024 * 100 and 1024 * 200. *)
Definition lit_25_5 : Go.float64 :=
  Eval vm_compute in Go.f64_div (Go.f64_of_Z 51) (Go.f64_of_Z 2).
Definition lit_20 : Go.float64 := Eval vm_compute in Go.f64_of_Z 20.
Definition lit_30 : Go.float64 := Eval vm_compute in Go.f64_of_Z 30.
Definition lit_25 : Go.float64 := Eval vm_compute in Go.f64_of_Z 25.
Definition lit_28 : Go.float64 := Eval vm_compute in Go.f64_of_Z 28.
Definition lit_50 : Go.float64 := Eval vm_compute in Go.f64_of_Z 50.
Definition lit_60 : Go.float64 := Eval vm_compute in Go.f64_of_Z 60.
Definition lit_102400 : Go.float64 := Eval vm_compute in Go.f64_of_Z (1024 * 100).
Definition lit_204800 : Go.float64 := Eval vm_compute in Go.f64_of_Z (1024 * 200).

(** [NewMockStatsProvider] *)
Definition NewMockStatsProvider : MockStatsProvider.t :=
  {| MockStatsProvider.CPUStats := Some
       {| models.CPUStats.Overall :=
            lit_25_5;
          models.CPUStats.PerCore := Some
            [ lit_20;
              lit_30;
              lit_25;
              lit_28 ] |};
     MockStatsProvider.MemStats := Some
       {| models.MemoryStats.Total := 16 * GiB;
          models.MemoryStats.Used := 8 * GiB;
          models.MemoryStats.Available := 8 * GiB;
          models.MemoryStats.Percent := lit_50 |};
     MockStatsProvider.DiskStats := Some
       [ {| models.DiskStats.Mountpoint := "/";
            models.DiskStats.Total := 500 * GiB;
            models.DiskStats.Used := 300 * GiB;
            models.DiskStats.Available := 200 * GiB;
            models.DiskStats.Percent := lit_60 |} ];
     MockStatsProvider.NetStats := Some
       [ {| models.NetworkStats.Interface := "eth0";
            models.NetworkStats.BytesSent := 1024 * 1024 * 100;
            models.NetworkStats.BytesRecv := 1024 * 1024 * 200;
            models.NetworkStats.SendRate :=
              lit_102400;
            models.NetworkStats.RecvRate :=
              lit_204800 |} ];
     MockStatsProvider.CPUError := None;
     MockStatsProvider.MemError := None;
     MockStatsProvider.DiskError := None;
     MockStatsProvider.NetError := None |}.

(** The four methods of [*MockStatsProvider]: the error when one is
    set, the configured value otherwise. *)
Module Mock.
Import MockStatsProvider.

Definition GetCPUStats (m : t) : Go.result (Go.ptr models.CPUStats.t) :=
  match CPUError m with
  | Some err => Go.Err err
  | None => Go.Ok (CPUStats m)
  end.

Definition GetMemoryStats (m : t) : Go.result (Go.ptr models.MemoryStats.t) :=
  match MemError m with
  | Some err => Go.Err err
  | None => Go.Ok (MemStats m)
  end.

Definition GetDiskStats (m : t) : Go.result (Go.slice models.DiskStats.t) :=
  match DiskError m with
  | Some err => Go.Err err
  | None => Go.Ok (DiskStats m)
  end.

Definition GetNetworkStats (m : t) : Go.result (Go.slice models.NetworkStats.t) :=
  match NetError m with
  | Some err => Go.Err err
  | None => Go.Ok (NetStats m)
  end.
End Mock.

(** ** The Linux source (linux.go)

    What the operating system hands to the code is made explicit: the
    content of a file under /proc as the scanner delivers it, and the
    answer of the statfs system call for a path. *)

Module Linux.

(** [os.Open] fails, or the file opens and [bufio.Scanner] yields
    the given lines, ending at the end of the file ([None]) or on a
    read error ([Some err]). *)
Inductive File : Type :=
| OpenFails (err : Go.error)
| Opened (lines : list string) (scanErr : option Go.error).

(** The fields of [syscall.Statfs_t] that the code reads; [Bsize]
    is an int64, the others are uint64. *)
Record Statfs_t : Type := mkStatfs {
  Bsize : Z;
  Blocks : Z;
  Bfree : Z;
  Bavail : Z }.

(** [parseUint64]: the error of [strconv.ParseUint] is dropped. *)
Definition parseUint64 (s : string) : Z := Go.ParseUint s.

(** *** GetMemoryStats *)

Record meminfo : Type := mkMeminfo {
  memTotal : Z;
  memFree : Z;
  memAvailable : Z;
  buffers : Z;
  cached : Z }.

(** One iteration of the scanning loop over /proc/meminfo. *)
Definition memLine (st : meminfo) (line : string) : meminfo :=
  match Go.Fields line with
  | f0 :: f1 :: _ =>
      let key := Go.TrimSuffix f0 ":" in
      let value := Go.mul64 (parseUint64 f1) 1024 in
      if String.eqb key "MemTotal" then
        mkMeminfo value (memFree st) (memAvailable st) (buffers st) (cached st)
      else if String.eqb key "MemFree" then
        mkMeminfo (memTotal st) value (memAvailable st) (buffers st) (cached st)
      else if String.eqb key "MemAvailable" then
        mkMeminfo (memTotal st) (memFree st) value (buffers st) (cached st)
      else if String.eqb key "Buffers" then
        mkMeminfo (memTotal st) (memFree st) (memAvailable st) value (cached st)
      else if String.eqb key "Cached" then
        mkMeminfo (memTotal st) (memFree st) (memAvailable st) (buffers st) value
      else st
  | _ => st
  end.

Definition GetMemoryStats (meminfoFile : File)
  : Go.result (Go.ptr models.MemoryStats.t) :=
  match meminfoFile with
  | OpenFails err => Go.Err ("failed to open /proc/meminfo: " +:+ err)
  | Opened lines scanErr =>
      let st := fold_left memLine lines (mkMeminfo 0 0 0 0 0) in
      match scanErr with
      | Some err => Go.Err ("error reading /proc/meminfo: " +:+ err)
      | None =>
          let available :=
            if memAvailable st =? 0
            then Go.add64 (Go.add64 (memFree st) (buffers st)) (cached st)
            else memAvailable st in
          let used := Go.sub64 (memTotal st) available in
          Go.Ok (Some
            {| models.MemoryStats.Total := memTotal st;
               models.MemoryStats.Used := used;
               models.MemoryStats.Available := available;
               models.MemoryStats.Percent :=
                 models.CalculatePercentage used (memTotal st) |})
      end
  end.

(** *** GetDiskStats *)

(** The filesystem types the enumeration skips. *)
Definition isSpecialFs (fstype : string) : bool :=
  Go.HasPrefix fstype "tmpfs" || Go.HasPrefix fstype "devtmpfs" ||
  Go.HasPrefix fstype "proc" || Go.HasPrefix fstype "sysfs" ||
  Go.HasPrefix fstype "cgroup" || Go.HasPrefix fstype "devpts".

(** The entry built from the answer of statfs. *)
Definition diskEntry (mountpoint : string) (stat : Statfs_t)
  : models.DiskStats.t :=
  let bsize := Go.wrap64 (Bsize stat) in
  let total := Go.mul64 (Blocks stat) bsize in
  let available := Go.mul64 (Bavail stat) bsize in
  let used := Go.sub64 total (Go.mul64 (Bfree stat) bsize) in
  {| models.DiskStats.Mountpoint := mountpoint;
     models.DiskStats.Total := total;
     models.DiskStats.Used := used;
     models.DiskStats.Available := available;
     models.DiskStats.Percent := models.CalculatePercentage used total |}.

(** One iteration of the loop over /proc/mounts; the state is the
    slice [stats] and the map [seen] (the set of its true keys). *)
Definition diskLine (statfs : string -> option Statfs_t)
    (st : Go.slice models.DiskStats.t * gset string) (line : string)
  : Go.slice models.DiskStats.t * gset string :=
  let '(stats, seen) := st in
  match Go.Fields line with
  | _ :: mountpoint :: fstype :: _ =>
      if isSpecialFs fstype then st
      else if bool_decide (mountpoint ∈ seen) then st
      else
        let seen := {[ mountpoint ]} ∪ seen in
        match statfs mountpoint with
        | None => (stats, seen)
        | Some stat => (Go.append stats (diskEntry mountpoint stat), seen)
        end
  | _ => st
  end.

Definition GetDiskStats (mounts : File) (statfs : string -> option Statfs_t)
  : Go.result (Go.slice models.DiskStats.t) :=
  match mounts with
  | OpenFails err => Go.Err ("failed to open /proc/mounts: " +:+ err)
  | Opened lines scanErr =>
      let '(stats, _) := fold_left (diskLine statfs) lines (None, ∅) in
      match scanErr with
      | Some err => Go.Err ("error reading /proc/mounts: " +:+ err)
      | None => Go.Ok stats
      end
  end.

(** *** GetNetworkStats *)

(** One iteration of the loop over the lines of /proc/net/dev that
    follow the two header lines. *)
Definition netLine (stats : Go.slice models.NetworkStats.t) (line : string)
  : Go.slice models.NetworkStats.t :=
  match Go.Split line ":" with
  | [p0; p1] =>
      let iface := Go.TrimSpace p0 in
      match Go.Fields p1 with
      | f0 :: _ :: _ :: _ :: _ :: _ :: _ :: _ :: f8 :: _ =>
          if String.eqb iface "lo" then stats
          else Go.append stats
            {| models.NetworkStats.Interface := iface;
               models.NetworkStats.BytesSent := parseUint64 f8;
               models.NetworkStats.BytesRecv := parseUint64 f0;
               models.NetworkStats.SendRate := Go.f64_zero;
               models.NetworkStats.RecvRate := Go.f64_zero |}
      | _ => stats
      end
  | _ => stats
  end.

Definition GetNetworkStats (netdev : File)
  : Go.result (Go.slice models.NetworkStats.t) :=
  match netdev with
  | OpenFails err => Go.Err ("failed to open /proc/net/dev: " +:+ err)
  | Opened lines scanErr =>
      let stats := fold_left netLine (drop 2 lines) None in
      match scanErr with
      | Some err => Go.Err ("error reading /proc/net/dev: " +:+ err)
      | None => Go.Ok stats
      end
  end.

(** *** GetCPUStats *)

Record cpuTime : Type := mkCpuTime {
  user : Z;
  nice : Z;
  system : Z;
  idle : Z;
  iowait : Z;
  irq : Z;
  softirq : Z }.

Module LinuxStatsProvider.
Record t : Type := mk { prevCPUTimes : Go.slice cpuTime }.
End LinuxStatsProvider.

(** [NewLinuxStatsProvider] *)
Definition NewLinuxStatsProvider : LinuxStatsProvider.t :=
  {| LinuxStatsProvider.prevCPUTimes := None |}.

(** The sum of the seven counters, and of the two idle ones, in uint64
    arithmetic. *)
Definition totalTime (t : cpuTime) : Z :=
  Go.add64 (Go.add64 (Go.add64 (Go.add64 (Go.add64 (Go.add64
    (user t) (nice t)) (system t)) (idle t)) (iowait t)) (irq t)) (softirq t).

Definition idleTime (t : cpuTime) : Z := Go.add64 (idle t) (iowait t).

(** [calculateCPUPercent] *)
Definition calculateCPUPercent (prev curr : cpuTime) : Go.float64 :=
  let prevTotal := totalTime prev in
  let currTotal := totalTime curr in
  let prevIdle := idleTime prev in
  let currIdle := idleTime curr in
  let totalDelta := Go.sub64 currTotal prevTotal in
  let idleDelta := Go.sub64 currIdle prevIdle in
  if totalDelta =? 0 then Go.f64_zero
  else Go.f64_mul
         (Go.f64_div (Go.f64_of_Z (Go.sub64 totalDelta idleDelta))
                     (Go.f64_of_Z totalDelta))
         Go.f64_100.

(** One iteration of the loop over /proc/stat. *)
Definition cpuLine (currentTimes : Go.slice cpuTime) (line : string)
  : Go.slice cpuTime :=
  if negb (Go.HasPrefix line "cpu") then currentTimes
  else
    match Go.Fields line with
    | _ :: f1 :: f2 :: f3 :: f4 :: f5 :: f6 :: f7 :: _ =>
        Go.append currentTimes
          {| user := parseUint64 f1;
             nice := parseUint64 f2;
             system := parseUint64 f3;
             idle := parseUint64 f4;
             iowait := parseUint64 f5;
             irq := parseUint64 f6;
             softirq := parseUint64 f7 |}
    | _ => currentTimes
    end.

(** [append] of every element of [l], in order. *)
Definition appendAll {A} (s : Go.slice A) (l : list A) : Go.slice A :=
  fold_left Go.append l s.

(** [GetCPUStats].  The first sample is the overall line, the others
    are the cores.  With [c0 :: cs] the samples just read, the test
    [p.prevCPUTimes != nil && len(p.prevCPUTimes) == len(currentTimes)]
    holds exactly when the previous samples are some [p0 :: ps] with
    [ps] as long as [cs]. *)
Definition GetCPUStats (p : LinuxStatsProvider.t) (statFile : File)
  : Go.result (Go.ptr models.CPUStats.t) * LinuxStatsProvider.t :=
  match statFile with
  | OpenFails err => (Go.Err ("failed to open /proc/stat: " +:+ err), p)
  | Opened lines scanErr =>
      let currentTimes := fold_left cpuLine lines None in
      match scanErr with
      | Some err => (Go.Err ("error reading /proc/stat: " +:+ err), p)
      | None =>
          match Go.elems currentTimes with
          | [] => (Go.Err "no CPU data found in /proc/stat", p)
          | c0 :: cs =>
              let firstRun :=
                {| models.CPUStats.Overall := Go.f64_zero;
                   models.CPUStats.PerCore :=
                     appendAll None (map (fun _ => Go.f64_zero) cs) |} in
              let stats :=
                match LinuxStatsProvider.prevCPUTimes p with
                | Some (p0 :: ps) =>
                    if Nat.eqb (length ps) (length cs) then
                      {| models.CPUStats.Overall := calculateCPUPercent p0 c0;
                         models.CPUStats.PerCore :=
                           appendAll None (zip_with calculateCPUPercent ps cs) |}
                    else firstRun
                | _ => firstRun
                end in
              (Go.Ok (Some stats),
               {| LinuxStatsProvider.prevCPUTimes := currentTimes |})
          end
      end
  end.

(** *** The source on a machine

    What the four queries of one cycle read: the four files, each read
    by one query only, and statfs. *)
Record OS : Type := mkOS {
  procStat : File;
  procMeminfo : File;
  procMounts : File;
  procNetDev : File;
  statfsCall : string -> option Statfs_t }.

(** A [*LinuxStatsProvider] together with the machine it runs on. *)
Record Host : Type := mkHost {
  os : OS;
  self : LinuxStatsProvider.t }.


End Linux.

(** ** The macOS source (darwin.go), disk and network queries *)

Module Darwin.

(** [GetDiskStats]: the two fixed mount points, those statfs fails on
    skipped; each entry is computed as in linux.go. *)
Definition mountpoints : list string := ["/"; "/System/Volumes/Data"]%string.

Definition diskMount (statfs : string -> option Linux.Statfs_t)
    (stats : Go.slice models.DiskStats.t) (mountpoint : string)
  : Go.slice models.DiskStats.t :=
  match statfs mountpoint with
  | None => stats
  | Some stat => Go.append stats (Linux.diskEntry mountpoint stat)
  end.

Definition GetDiskStats (statfs : string -> option Linux.Statfs_t)
  : Go.result (Go.slice models.DiskStats.t) :=
  let stats := fold_left (diskMount statfs) mountpoints None in
  if Nat.eqb (Go.len stats) 0 then Go.Err "no disk stats available"
  else Go.Ok stats.

(** [GetNetworkStats]: an empty, non-nil slice. *)
Definition GetNetworkStats : Go.result (Go.slice models.NetworkStats.t) :=
  Go.Ok (Some []).

End Darwin.


End stats.

(* ================================================================== *)
(** * package collector (internal/collector/collector.go) *)
(* ================================================================== *)

Module collector.

(** The interface [SystemStatsProvider].  A source may keep a state
    of its own (the Linux source keeps the previous CPU counters), so
    every query returns the source after the call as well. *)
Class SystemStatsProvider (P : Type) : Type := {
  GetCPUStats : P -> Go.result (Go.ptr models.CPUStats.t) * P;
  GetMemoryStats : P -> Go.result (Go.ptr models.MemoryStats.t) * P;
  GetDiskStats : P -> Go.result (Go.slice models.DiskStats.t) * P;
  GetNetworkStats : P -> Go.result (Go.slice models.NetworkStats.t) * P }.

(** [*stats.MockStatsProvider] implements the interface; its methods
    leave it unchanged. *)
#[export] Instance MockProvider : SystemStatsProvider stats.MockStatsProvider.t := {
  GetCPUStats m := (stats.Mock.GetCPUStats m, m);
  GetMemoryStats m := (stats.Mock.GetMemoryStats m, m);
  GetDiskStats m := (stats.Mock.GetDiskStats m, m);
  GetNetworkStats m := (stats.Mock.GetNetworkStats m, m) }.

Section Collector.
Context {P : Type} `{SystemStatsProvider P}.

Record Collector : Type := mkCollector {
  provider : P;
  prevNet : Go.slice models.NetworkStats.t;
  prevTime : Go.Time }.

(** [NewCollector]; [now] is the reading of [time.Now()]. *)
Definition NewCollector (provider : P) (now : Go.Time) : Collector :=
  {| provider := provider; prevNet := None; prevTime := now |}.

(** The map [prevMap] of [calculateNetworkRates]: a later entry of
    [prevNet] replaces an earlier one with the same interface. *)
Definition buildPrevMap (prev : list models.NetworkStats.t)
  : gmap string models.NetworkStats.t :=
  fold_left (fun m p => <[ models.NetworkStats.Interface p := p ]> m) prev ∅.

(** The body of the loop over [current]. *)
Definition rateEntry (prevMap : gmap string models.NetworkStats.t)
    (timeDelta : Go.float64) (curr : models.NetworkStats.t)
  : models.NetworkStats.t :=
  match prevMap !! models.NetworkStats.Interface curr with
  | Some prev =>
      let bytesSentDelta := Go.f64_of_Z
        (Go.sub64 (models.NetworkStats.BytesSent curr)
                  (models.NetworkStats.BytesSent prev)) in
      let bytesRecvDelta := Go.f64_of_Z
        (Go.sub64 (models.NetworkStats.BytesRecv curr)
                  (models.NetworkStats.BytesRecv prev)) in
      let sendRate := Go.f64_div bytesSentDelta timeDelta in
      let recvRate := Go.f64_div bytesRecvDelta timeDelta in
      {| models.NetworkStats.Interface := models.NetworkStats.Interface curr;
         models.NetworkStats.BytesSent := models.NetworkStats.BytesSent curr;
         models.NetworkStats.BytesRecv := models.NetworkStats.BytesRecv curr;
         models.NetworkStats.SendRate :=
           if Go.f64_ltb sendRate Go.f64_zero then Go.f64_zero else sendRate;
         models.NetworkStats.RecvRate :=
           if Go.f64_ltb recvRate Go.f64_zero then Go.f64_zero else recvRate |}
  | None => curr
  end.

(** [calculateNetworkRates]; [now] is the clock reading that
    [time.Since(c.prevTime)] makes. *)
Definition calculateNetworkRates (c : Collector) (now : Go.Time)
    (current : Go.slice models.NetworkStats.t)
  : Go.slice models.NetworkStats.t :=
  match prevNet c with
  | None => current
  | Some [] => current
  | Some prev =>
      let timeDelta := Go.Seconds (Go.Since now (prevTime c)) in
      if Go.f64_eqb timeDelta Go.f64_zero then current
      else
        let prevMap := buildPrevMap prev in
        Some (map (rateEntry prevMap timeDelta) (Go.elems current))
  end.

(** What one call of [Collect] leaves behind: the returned pair
    [(metrics, err)], the collector after the call, and the lines
    written with [log.Printf]. *)
Record Collected : Type := mkCollected {
  metrics : models.Metrics.t;
  err : option Go.error;
  after : Collector;
  logged : list string }.

(** [*p] *)
Definition deref {A} (p : Go.ptr A) : Go.outcome A :=
  match p with
  | Some v => Go.Returned v
  | None => Go.Panicked
  end.

Definition andThen {A B} (o : Go.outcome A) (k : A -> Go.outcome B)
  : Go.outcome B :=
  match o with
  | Go.Returned a => k a
  | Go.Panicked => Go.Panicked
  end.

(** [Collect]; [start] is the reading of [time.Now()] for the
    timestamp, [now] the later reading made by
    [calculateNetworkRates]. *)
Definition Collect (c : Collector) (start now : Go.Time)
  : Go.outcome Collected :=
  let '(rcpu, p) := GetCPUStats (provider c) in
  andThen
    match rcpu with
    | Go.Err e =>
        Go.Returned (models.CPUStats.zero,
                     ["Warning: CPU collection failed: " +:+ e])
    | Go.Ok cpu => andThen (deref cpu) (fun v => Go.Returned (v, []))
    end
    (fun '(cpu, log) =>
  let '(rmem, p) := GetMemoryStats p in
  andThen
    match rmem with
    | Go.Err e =>
        Go.Returned (models.MemoryStats.zero,
                     log ++ ["Warning: Memory collection failed: " +:+ e])
    | Go.Ok mem => andThen (deref mem) (fun v => Go.Returned (v, log))
    end
    (fun '(mem, log) =>
  let '(rdisk, p) := GetDiskStats p in
  let '(disk, log) :=
    match rdisk with
    | Go.Err e => (None, log ++ ["Warning: Disk collection failed: " +:+ e])
    | Go.Ok disk => (disk, log)
    end in
  let '(rnet, p) := GetNetworkStats p in
  match rnet with
  | Go.Err e =>
      Go.Returned
        {| metrics := models.Metrics.mk start cpu mem disk None;
           err := None;
           after := mkCollector p (prevNet c) (prevTime c);
           logged := log ++ ["Warning: Network collection failed: " +:+ e] |}
  | Go.Ok net =>
      let net :=
        match prevNet c with
        | Some _ => calculateNetworkRates c now net
        | None => net
        end in
      Go.Returned
        {| metrics := models.Metrics.mk start cpu mem disk net;
           err := None;
           after := mkCollector p net start;
           logged := log |}
  end)).

End Collector.

Arguments Collector P : clear implicits.
Arguments Collected P : clear implicits.

(** [*stats.LinuxStatsProvider] implements the interface; only the CPU
    query changes it. *)
#[export] Instance LinuxProvider : SystemStatsProvider stats.Linux.Host := {
  GetCPUStats h :=
    let '(r, p) := stats.Linux.GetCPUStats (stats.Linux.self h)
                     (stats.Linux.procStat (stats.Linux.os h)) in
    (r, stats.Linux.mkHost (stats.Linux.os h) p);
  GetMemoryStats h :=
    (stats.Linux.GetMemoryStats (stats.Linux.procMeminfo (stats.Linux.os h)), h);
  GetDiskStats h :=
    (stats.Linux.GetDiskStats (stats.Linux.procMounts (stats.Linux.os h))
       (stats.Linux.statfsCall (stats.Linux.os h)), h);
  GetNetworkStats h :=
    (stats.Linux.GetNetworkStats (stats.Linux.procNetDev (stats.Linux.os h)), h) }.


End collector.

(* ================================================================== *)
(** * package render (internal/render/terminal.go), formatBytes *)
(* ================================================================== *)

Module render.

(** What [formatBytes] hands to [fmt.Sprintf]: the byte count for
    ["%d B"], or the scaled value and the unit letter for
    ["%.2f %cB"]. *)
Inductive humanSize : Type :=
| Bytes (n : Z)
| Scaled (value : Go.float64) (letter : ascii).

Definition unit : Z := 1024.

(** The loop [for n := bytes / unit; n >= unit; n /= unit], with its
    variables [div] and [exp]; [None] when [fuel] iterations do not
    end it. *)
Fixpoint scaleLoop (fuel : nat) (n div exp : Z) : option (Z * Z) :=
  match fuel with
  | O => None
  | S fuel =>
      if unit <=? n then scaleLoop fuel (n / unit) (Go.mul64 div unit) (exp + 1)
      else Some (div, exp)
  end.

(** [formatBytes]; the index expression ["KMGTPE"[exp]] panics when
    [exp] is out of range.  Seven iterations are more than a uint64
    can take. *)
Definition formatBytes (bytes : Z) : option (Go.outcome humanSize) :=
  if bytes <? unit then Some (Go.Returned (Bytes bytes))
  else
    match scaleLoop 7 (bytes / unit) unit 0 with
    | None => None
    | Some (div, exp) =>
        Some match (if exp <? 0 then None else String.get (Z.to_nat exp) "KMGTPE") with
             | None => Go.Panicked
             | Some letter =>
                 Go.Returned
                   (Scaled (Go.f64_div (Go.f64_of_Z bytes) (Go.f64_of_Z div)) letter)
             end
    end.

End render.


(* ================================================================== *)
(** * Vocabulary of the statements, and sample data *)
(* ================================================================== *)

Import collector.

Section FloatVocabulary.

(** A float that is not negative: its sign bit is clear, or it is
    not a number at all. *)
Definition signClear (x : Go.float64) : Prop :=
  match x with
  | S754_zero s | S754_infinity s | S754_finite s _ _ => s = false
  | S754_nan => True
  end.

(** A threshold lies in [0, 100]. *)
Definition thresholdInRange (v : Go.float64) : Prop :=
  Go.f64_leb Go.f64_zero v = true /\ Go.f64_leb v Go.f64_100 = true.

Definition isNaN (v : Go.float64) : Prop := v = S754_nan.

End FloatVocabulary.

(** ** Rounding to binary64, in integers

    The vocabulary of the proof that a percentage stays within
    [0, 100]: what [binary_round_aux] of the Standard Library computes
    on the mantissas that occur, stated on integers. *)

(** [M / 2^k] rounded to nearest, ties to even. *)
Definition rne (M k : Z) : Z :=
  let q := M / 2 ^ k in
  let t := 2 * (M mod 2 ^ k) in
  if t <? 2 ^ k then q
  else if 2 ^ k <? t then q + 1
  else if Z.even q then q else q + 1.

(** The record that [k] right shifts of [M] leave: the quotient, the
    round bit (the remainder is at least one half) and the sticky bit
    (the remainder is neither zero nor one half). *)
Definition shrInv (M k : Z) (mrs : shr_record) : Prop :=
  shr_m mrs = M / 2 ^ k /\
  shr_r mrs = (2 ^ k <=? 2 * (M mod 2 ^ k)) /\
  shr_s mrs = negb (M mod 2 ^ k =? 0) && negb (2 * (M mod 2 ^ k) =? 2 ^ k).

(** The result of rounding, once the mantissa [m1] at exponent [e1]
    is known: [m1] itself, or [2^52] one exponent up when rounding
    carried into a 54th bit. *)
Definition pack (m1 e1 : Z) : spec_float :=
  if m1 <? 2 ^ 53 then S754_finite false (Z.to_pos m1) e1
  else S754_finite false (Z.to_pos (2 ^ 52)) (e1 + 1).

(** A positive normal number below or equal to another, on mantissas
    of 53 bits. *)
Definition fle (m1 e1 m2 e2 : Z) : Prop := e1 < e2 \/ (e1 = e2 /\ m1 <= m2).


(** The mantissa (before the carry of [pack]) and the exponent of
    [float64(n)] for a positive integer [n]. *)
Definition convM (n : Z) : Z :=
  let d := Zdigits2 n in
  if d <=? 53 then n * 2 ^ (53 - d) else rne n (d - 53).

Definition convE (n : Z) : Z := Zdigits2 n - 53.


Section RateVocabulary.

Import models.NetworkStats.

(** Two samples that agree on everything but the rates. *)
Definition sameCounters (a b : models.NetworkStats.t) : Prop :=
  Interface a = Interface b /\
  BytesSent a = BytesSent b /\
  BytesRecv a = BytesRecv b.

(** Both rates of a sample are (positive) zero. *)
Definition zeroRates (n : models.NetworkStats.t) : Prop :=
  SendRate n = Go.f64_zero /\ RecvRate n = Go.f64_zero.

End RateVocabulary.

Section CollectVocabulary.
Context {P : Type} `{SystemStatsProvider P}.

(** The time difference, in seconds, that a call of
    [calculateNetworkRates] at clock reading [now] works with. *)
Definition timeDelta (c : Collector P) (now : Go.Time) : Go.float64 :=
  Go.Seconds (Go.Since now (prevTime c)).

(** The source as the network query of a cycle finds it, after the
    CPU, memory and disk queries, and the answer it gives. *)
Definition providerAtNetwork (c : Collector P) : P :=
  (GetDiskStats (GetMemoryStats (GetCPUStats (provider c)).2).2).2.

Definition networkQuery (c : Collector P)
  : Go.result (Go.slice models.NetworkStats.t) :=
  (GetNetworkStats (providerAtNetwork c)).1.

End CollectVocabulary.

(** Runs [Collect] symbolically: one case for every way the four
    queries can answer. *)
Ltac run_Collect Hrun :=
  unfold Collect, networkQuery, providerAtNetwork, andThen, deref in *;
  destruct (GetCPUStats _) as [[[?cpu|]|?e] ?p]; simpl in *;
  try discriminate Hrun;
  destruct (GetMemoryStats _) as [[[?mem|]|?e] ?p]; simpl in *;
  try discriminate Hrun;
  destruct (GetDiskStats _) as [[?disk|?e] ?p]; simpl in *;
  destruct (GetNetworkStats _) as [[?net|?e] ?p]; simpl in *.

Section LinuxVocabulary.

Import stats.Linux.

(** The lines a file yields to the scanner. *)
Definition linesOf (f : File) : list string :=
  match f with
  | Opened lines _ => lines
  | OpenFails _ => []
  end.

(** [d] was built from a line of /proc/mounts whose filesystem type
    is not one of the skipped ones. *)
Definition fromRealFs (lines : list string) (d : models.DiskStats.t) : Prop :=
  exists line dev fstype rest,
    line ∈ lines /\
    Go.Fields line = dev :: models.DiskStats.Mountpoint d :: fstype :: rest /\
    isSpecialFs fstype = false.

(** The mount point of [d] is the second field of a line of
    /proc/mounts that has three fields or more. *)
Definition fromMountLine (lines : list string) (d : models.DiskStats.t) : Prop :=
  exists line dev fstype rest,
    line ∈ lines /\
    Go.Fields line = dev :: models.DiskStats.Mountpoint d :: fstype :: rest.

(** The interface name for which a line of /proc/net/dev gets an
    entry: the line has exactly one colon and nine fields or more
    after it, and the name before the colon, white space trimmed, is
    not lo. *)
Definition acceptedName (line : string) : option string :=
  match Go.Split line ":" with
  | [p0; p1] =>
      if (length (Go.Fields p1) <? 9)%nat then None
      else if String.eqb (Go.TrimSpace p0) "lo" then None
      else Some (Go.TrimSpace p0)
  | _ => None
  end.

(** The invariants of the scanning loops. *)
Definition meminfoInRange (st : meminfo) : Prop :=
  Go.is_uint64 (memTotal st) /\ Go.is_uint64 (memFree st) /\
  Go.is_uint64 (memAvailable st) /\ Go.is_uint64 (buffers st) /\
  Go.is_uint64 (cached st).

Definition diskInv (lines : list string)
    (st : Go.slice models.DiskStats.t * gset string) : Prop :=
  NoDup (map models.DiskStats.Mountpoint (Go.elems st.1)) /\
  Forall (fun d => models.DiskStats.Mountpoint d ∈ st.2 /\ fromRealFs lines d)
         (Go.elems st.1).

End LinuxVocabulary.

(** ** Sample data *)

Module Sample.

Definition eth0 (sent recv : Z) (sendRate recvRate : Go.float64)
  : models.NetworkStats.t :=
  {| models.NetworkStats.Interface := "eth0";
     models.NetworkStats.BytesSent := sent;
     models.NetworkStats.BytesRecv := recv;
     models.NetworkStats.SendRate := sendRate;
     models.NetworkStats.RecvRate := recvRate |}.

(** A collector over the default mock source whose rate state holds
    one sample of eth0, taken at clock reading [at]. *)
Definition sampled (sent recv : Z) (at_ : Go.Time)
  : Collector stats.MockStatsProvider.t :=
  {| provider := stats.NewMockStatsProvider;
     prevNet := Some [eth0 sent recv Go.f64_zero Go.f64_zero];
     prevTime := at_ |}.

(** One second, in nanoseconds. *)
Definition oneSecond : Go.Time := 1000000000.

(** The float64 values 2^64, 500 and 100000. *)
Definition f64_two64 : Go.float64 := S754_finite false 4503599627370496 12.
Definition f64_500 : Go.float64 := Eval vm_compute in Go.f64_of_Z 500.
Definition f64_100000 : Go.float64 := Eval vm_compute in Go.f64_of_Z 100000.

End Sample.

Module SampleCycles.

(** The default mock source with the CPU query forced to fail. *)
Definition cpuFails : stats.MockStatsProvider.t :=
  let m := stats.NewMockStatsProvider in
  {| stats.MockStatsProvider.CPUStats := stats.MockStatsProvider.CPUStats m;
     stats.MockStatsProvider.MemStats := stats.MockStatsProvider.MemStats m;
     stats.MockStatsProvider.DiskStats := stats.MockStatsProvider.DiskStats m;
     stats.MockStatsProvider.NetStats := stats.MockStatsProvider.NetStats m;
     stats.MockStatsProvider.CPUError := Some "cpu unavailable"%string;
     stats.MockStatsProvider.MemError := None;
     stats.MockStatsProvider.DiskError := None;
     stats.MockStatsProvider.NetError := None |}.

(** A fresh collector over the default mock source, constructed at
    clock reading 0. *)
Definition fresh : Collector stats.MockStatsProvider.t :=
  NewCollector stats.NewMockStatsProvider 0.

(** A collector over [cpuFails] that has completed one cycle at
    clock reading 0: its rate state holds the mock's sample. *)
Definition secondCycle : Collector stats.MockStatsProvider.t :=
  {| provider := cpuFails;
     prevNet := stats.MockStatsProvider.NetStats cpuFails;
     prevTime := 0 |}.

End SampleCycles.

Module SampleOS.

Import stats.Linux.

(** /proc/mounts of a machine with one ext4 root filesystem (listed
    twice) next to proc and tmpfs. *)
Definition mounts : File :=
  Opened [ "proc /proc proc rw,nosuid,nodev,noexec,relatime 0 0";
           "/dev/sda1 / ext4 rw,relatime 0 0";
           "tmpfs /run tmpfs rw,nosuid,nodev 0 0";
           "/dev/sda1 / ext4 rw,relatime 0 0" ]%string None.

(** statfs on an ext4 filesystem of 100 blocks of 4096 bytes, 50 of
    them free, 5 of the free ones reserved for the superuser. *)
Definition statfs (path : string) : option Statfs_t :=
  Some {| Bsize := 4096; Blocks := 100; Bfree := 50; Bavail := 45 |}.

(** /proc/mounts with the kernel's debug filesystem. *)
Definition mountsDebugfs : File :=
  Opened [ "debugfs /sys/kernel/debug debugfs rw,nosuid,nodev,noexec,relatime 0 0" ]%string
         None.

Definition rootEntry : models.DiskStats.t :=
  {| models.DiskStats.Mountpoint := "/";
     models.DiskStats.Total := 409600;
     models.DiskStats.Used := 204800;
     models.DiskStats.Available := 184320;
     models.DiskStats.Percent := stats.lit_50 |}.

Definition header : list string :=
  [ "Inter-|   Receive                                                |  Transmit";
    " face |bytes    packets errs drop fifo frame compressed multicast|bytes    packets errs drop fifo colls carrier compressed" ]%string.

(** /proc/net/dev with the loopback interface and eth0. *)
Definition netdev : File :=
  Opened (header ++
    [ "    lo: 1000 10 0 0 0 0 0 0 1000 10 0 0 0 0 0 0";
      "  eth0: 5000 20 0 0 0 0 0 0 7000 30 0 0 0 0 0 0" ]%string) None.

(** The same with the line of eth0 repeated. *)
Definition netdevRepeated : File :=
  Opened (header ++
    [ "  eth0: 5000 20 0 0 0 0 0 0 7000 30 0 0 0 0 0 0";
      "  eth0: 5000 20 0 0 0 0 0 0 7000 30 0 0 0 0 0 0" ]%string) None.

Definition eth0Entry : models.NetworkStats.t := Sample.eth0 7000 5000 Go.f64_zero Go.f64_zero.

(** U+00A0 (no-break space) and U+2003 (em space) in UTF-8. *)
Definition noBreakSpace : string := String "194" (String "160" EmptyString).
Definition emSpace : string :=
  String "226" (String "128" (String "131" EmptyString)).

(** /proc/mounts with a mount point whose name holds a no-break
    space, which the kernel prints as it is. *)
Definition mountsNoBreakSpace : File :=
  Opened [ "/dev/sdb1 /mnt/a" +:+ noBreakSpace +:+ "b ext4 rw,relatime 0 0" ]%string
         None.

(** /proc/net/dev with names followed by an em space. *)
Definition netdevEmSpace : File :=
  Opened (header ++
    [ "    lo" +:+ emSpace +:+ ": 1000 10 0 0 0 0 0 0 1000 10 0 0 0 0 0 0";
      "  eth0" +:+ emSpace +:+ ": 5000 20 0 0 0 0 0 0 7000 30 0 0 0 0 0 0" ]%string)
    None.

End SampleOS.

Section ConfigVocabulary.

Import config.

(** The configuration of [sysmon --cpu-threshold NaN]: the defaults
    with a CPU threshold that is not a number. *)
Definition nanConfig : Config.t :=
  {| Config.Interval := Config.Interval NewDefaultConfig;
     Config.JSONMode := false;
     Config.LogFile := "";
     Config.ConfigFile := "";
     Config.Thresholds :=
       {| Thresholds.CPU := Go.f64_nan;
          Thresholds.Memory := lit_85;
          Thresholds.Disk := lit_90 |} |}.

End ConfigVocabulary.

(** ** Vocabulary and sample data of the further properties *)

Section MergeVocabulary.

(** A threshold flag that is not above 100: a value up to 100, of any
    sign, or not a number. *)
Definition flagAtMost100 (flag : Go.float64) : Prop :=
  Go.f64_ltb Go.f64_100 flag = false.

(** The value [MergeWithFlags] keeps for a threshold. *)
Definition mergedThreshold (flag old : Go.float64) : Go.float64 :=
  if Go.f64_ltb Go.f64_zero flag then flag else old.

End MergeVocabulary.

Section CycleVocabulary.
Context {P : Type} `{SystemStatsProvider P}.

(** Neither rate of a sample is below zero. *)
Definition ratesNotNegative (n : models.NetworkStats.t) : Prop :=
  Go.f64_ltb (models.NetworkStats.SendRate n) Go.f64_zero = false /\
  Go.f64_ltb (models.NetworkStats.RecvRate n) Go.f64_zero = false.

(** [if rate < 0 { rate = 0 }] *)
Definition clampRate (rate : Go.float64) : Go.float64 :=
  if Go.f64_ltb rate Go.f64_zero then Go.f64_zero else rate.

(** [calculateNetworkRates] gets as far as its loop: the collector
    holds at least one earlier sample and the time difference is not
    equal to zero. *)
Definition computesRates (c : Collector P) (now : Go.Time) : bool :=
  match prevNet c with
  | Some (_ :: _) => negb (Go.f64_eqb (timeDelta c now) Go.f64_zero)
  | _ => false
  end.

(** [out] is [curr] with both rates computed against the earlier
    sample [prev]: the quotient of the uint64 difference of the
    counters and the time difference or, when that is below zero,
    0. *)
Definition ratedAgainst (timeDelta : Go.float64)
    (prev curr out : models.NetworkStats.t) : Prop :=
  sameCounters curr out /\
  models.NetworkStats.SendRate out =
    clampRate (Go.f64_div
                 (Go.f64_of_Z (Go.sub64 (models.NetworkStats.BytesSent curr)
                                        (models.NetworkStats.BytesSent prev)))
                 timeDelta) /\
  models.NetworkStats.RecvRate out =
    clampRate (Go.f64_div
                 (Go.f64_of_Z (Go.sub64 (models.NetworkStats.BytesRecv curr)
                                        (models.NetworkStats.BytesRecv prev)))
                 timeDelta).

(** The source as the memory and the disk query of a cycle find it. *)
Definition providerAtMemory (c : Collector P) : P :=
  (GetCPUStats (provider c)).2.

Definition providerAtDisk (c : Collector P) : P :=
  (GetMemoryStats (providerAtMemory c)).2.

(** The line [Collect] logs for a failed query, none for a successful
    one. *)
Definition warningOf {A} (what : string) (r : Go.result A) : list string :=
  match r with
  | Go.Err e => ["Warning: " +:+ what +:+ " collection failed: " +:+ e]
  | Go.Ok _ => []
  end.

(** Every value of the sequence is (positive) zero. *)
Definition allZero (s : Go.slice Go.float64) : Prop :=
  Forall (fun v => v = Go.f64_zero) (Go.elems s).

End CycleVocabulary.

Module SampleFailures.

(** The default mock source with the network query forced to fail. *)
Definition netFails : stats.MockStatsProvider.t :=
  let m := stats.NewMockStatsProvider in
  {| stats.MockStatsProvider.CPUStats := stats.MockStatsProvider.CPUStats m;
     stats.MockStatsProvider.MemStats := stats.MockStatsProvider.MemStats m;
     stats.MockStatsProvider.DiskStats := stats.MockStatsProvider.DiskStats m;
     stats.MockStatsProvider.NetStats := stats.MockStatsProvider.NetStats m;
     stats.MockStatsProvider.CPUError := None;
     stats.MockStatsProvider.MemError := None;
     stats.MockStatsProvider.DiskError := None;
     stats.MockStatsProvider.NetError := Some "network unavailable"%string |}.

(** A collector over [netFails] holding a sample of eth0 taken at
    clock reading 0, 2 MiB and 4 MiB below the mock's counters. *)
Definition sampled : Collector stats.MockStatsProvider.t :=
  {| provider := netFails;
     prevNet := Some [Sample.eth0 (1024 * 1024 * 98) (1024 * 1024 * 196)
                        Go.f64_zero Go.f64_zero];
     prevTime := 0 |}.

(** The float64 values 1048576 and 2097152: 2 MiB and 4 MiB in two
    seconds. *)
Definition f64_MiB : Go.float64 := Eval vm_compute in Go.f64_of_Z (1024 * 1024).
Definition f64_2MiB : Go.float64 := Eval vm_compute in Go.f64_of_Z (2 * 1024 * 1024).

End SampleFailures.

Section LinuxSourceVocabulary.

Import stats.Linux.

(** The key and the value, in bytes, that a line of /proc/meminfo
    carries; none for a line of fewer than two fields. *)
Definition memEntry (line : string) : option (string * Z) :=
  match Go.Fields line with
  | f0 :: f1 :: _ => Some (Go.TrimSuffix f0 ":", Go.mul64 (parseUint64 f1) 1024)
  | _ => None
  end.

(** The value of [line] when its key is [key]. *)
Definition memValueOf (key : string) (line : string) : option Z :=
  match memEntry line with
  | Some (k, v) => if String.eqb k key then Some v else None
  | None => None
  end.

(** The value on the last line that carries [key], 0 when no line
    does. *)
Definition memValue (key : string) (lines : list string) : Z :=
  default 0 (last (omap (memValueOf key) lines)).

(** The mount point that a line of /proc/mounts offers to the
    enumeration: none for a line of fewer than three fields or of a
    skipped filesystem type. *)
Definition mountOf (line : string) : option string :=
  match Go.Fields line with
  | _ :: mountpoint :: fstype :: _ =>
      if isSpecialFs fstype then None else Some mountpoint
  | _ => None
  end.

(** [d] is the entry computed from the answer of statfs for its own
    mount point. *)
Definition fromStatfs (statfs : string -> option Statfs_t)
    (d : models.DiskStats.t) : Prop :=
  exists stat,
    statfs (models.DiskStats.Mountpoint d) = Some stat /\
    d = diskEntry (models.DiskStats.Mountpoint d) stat.

(** The invariant of the loop over /proc/mounts with respect to
    statfs: every entry comes from statfs, and every mount point seen
    that statfs answers for has its entry. *)
Definition diskComplete (statfs : string -> option Statfs_t)
    (st : Go.slice models.DiskStats.t * gset string) : Prop :=
  Forall (fromStatfs statfs) (Go.elems st.1) /\
  forall mp stat, mp ∈ st.2 -> statfs mp = Some stat ->
    diskEntry mp stat ∈ Go.elems st.1.

(** An answer of statfs as a filesystem gives it: a block size that
    is not negative, no more free blocks than blocks, and a size in
    bytes that fits a uint64. *)
Definition plausible (stat : Statfs_t) : Prop :=
  0 <= Bsize stat <= Go.maxInt64 /\ 0 <= Bfree stat <= Blocks stat /\
  Blocks stat * Bsize stat < Go.two64.

(** Between two samples no counter went back, and the later counters
    add up without overflow. *)
Definition countersAdvance (prev curr : cpuTime) : Prop :=
  (0 <= user prev <= user curr /\ 0 <= nice prev <= nice curr /\
   0 <= system prev <= system curr /\ 0 <= idle prev <= idle curr /\
   0 <= iowait prev <= iowait curr /\ 0 <= irq prev <= irq curr /\
   0 <= softirq prev <= softirq curr) /\
  user curr + nice curr + system curr + idle curr + iowait curr +
    irq curr + softirq curr < Go.two64.

End LinuxSourceVocabulary.

Module SampleCPU.

Import stats.Linux.

(** Two samples of one core, 100 ticks apart, 80 of them idle. *)
Definition before : cpuTime :=
  {| user := 100; nice := 0; system := 50; idle := 800; iowait := 50;
     irq := 0; softirq := 0 |}.

Definition later : cpuTime :=
  {| user := 115; nice := 0; system := 55; idle := 870; iowait := 60;
     irq := 0; softirq := 0 |}.

Definition f64_20 : Go.float64 := Eval vm_compute in Go.f64_of_Z 20.

(** /proc/meminfo that lists MemTotal twice and has no MemAvailable
    line. *)
Definition meminfoOld : File :=
  Opened [ "MemTotal:       8000000 kB";
           "MemFree:        1000000 kB";
           "Buffers:         500000 kB";
           "Cached:         2500000 kB";
           "MemTotal:      16000000 kB" ]%string None.

(** /proc/meminfo of a machine with 16 GB, a quarter available. *)
Definition meminfo : File :=
  Opened [ "MemTotal:       16000000 kB";
           "MemFree:         1000000 kB";
           "MemAvailable:    4000000 kB";
           "Buffers:          500000 kB";
           "Cached:          2500000 kB" ]%string None.

Definition lit_75 : Go.float64 := Eval vm_compute in Go.f64_of_Z 75.

End SampleCPU.

Module SampleSizes.

(** One and a half MiB, and what [formatBytes] makes of it. *)
Definition bytes : Z := 1536 * 1024.
Definition f64_1_5 : Go.float64 :=
  Eval vm_compute in Go.f64_div (Go.f64_of_Z 3) (Go.f64_of_Z 2).

(** statfs of a Mac on which only the root volume answers. *)
Definition statfsRootOnly (path : string) : option stats.Linux.Statfs_t :=
  if String.eqb path "/"
  then Some {| stats.Linux.Bsize := 4096; stats.Linux.Blocks := 100;
               stats.Linux.Bfree := 50; stats.Linux.Bavail := 45 |}
  else None.

End SampleSizes.

(* ================================================================== *)
(** * Properties *)
(* ================================================================== *)

(** ** Facts about the substrate *)

Section Uint64Facts.

Lemma two64_pos : 0 < Go.two64.
Proof. reflexivity. Qed.

Lemma wrap64_range (z : Z) : Go.is_uint64 (Go.wrap64 z).
Proof. unfold Go.is_uint64, Go.wrap64. apply Z.mod_pos_bound, two64_pos. Qed.

Lemma wrap64_small (z : Z) : Go.is_uint64 z -> Go.wrap64 z = z.
Proof. unfold Go.is_uint64, Go.wrap64. intros Hz. apply Z.mod_small, Hz. Qed.

(** Subtraction is exact when nothing is borrowed ... *)
Lemma sub64_exact (a b : Z) :
  Go.is_uint64 a -> Go.is_uint64 b -> b <= a -> Go.sub64 a b = a - b.
Proof.
  unfold Go.is_uint64, Go.sub64. intros Ha Hb Hle.
  apply wrap64_small. unfold Go.is_uint64. lia.
Qed.

(** ... and wraps to a large positive number otherwise. *)
Lemma sub64_borrow (a b : Z) :
  Go.is_uint64 a -> Go.is_uint64 b -> a < b ->
  Go.sub64 a b = Go.two64 + a - b /\ 0 < Go.sub64 a b.
Proof.
  unfold Go.is_uint64, Go.sub64, Go.wrap64. intros Ha Hb Hlt.
  assert (E : (a - b) mod Go.two64 = Go.two64 + a - b).
  { symmetry. apply (Z.mod_unique_pos _ _ (-1)); lia. }
  rewrite E. lia.
Qed.

Lemma sub64_add64 (a b : Z) :
  Go.is_uint64 a -> Go.add64 (Go.sub64 a b) b = a.
Proof.
  unfold Go.add64, Go.sub64, Go.wrap64, Go.is_uint64. intros Ha.
  rewrite Zplus_mod_idemp_l.
  replace (a - b + b) with a by lia. apply Z.mod_small, Ha.
Qed.

End Uint64Facts.

Section StringFacts.

(** On a byte below 128 [unicode.IsSpace] and the table [asciiSpace]
    agree. *)
Lemma IsSpace_ascii (c : ascii) :
  Go.byte c < Go.RuneSelf -> Go.IsSpace (Go.byte c) = Go.isSpace c.
Proof.
  destruct c as [[] [] [] [] [] [] [] []]; intros Hlt;
    try reflexivity; vm_compute in Hlt; discriminate Hlt.
Qed.

(** The two paths of [strings.Fields] agree where both apply: on an
    ASCII string the loop over the characters yields the fields of
    the fast path. *)
Lemma FieldsFuncFrom_ascii (s tok : string) (dropping : bool) :
  Go.isASCII s = true ->
  Go.FieldsFuncFrom Go.IsSpace tok dropping 0 s = Go.FieldsFrom tok s.
Proof.
  revert tok dropping. induction s as [|c r IH]; intros tok dropping Hascii;
    [reflexivity|].
  unfold Go.isASCII in Hascii. cbn [list_ascii_of_string forallb] in Hascii.
  apply andb_true_iff in Hascii as [Hc Hr]. fold (Go.isASCII r) in Hr.
  cbn [Go.FieldsFuncFrom Go.FieldsFrom Go.DecodeRuneInString].
  rewrite Hc. apply Z.ltb_lt in Hc. rewrite (IsSpace_ascii c Hc).
  cbn [Nat.sub].
  destruct (Go.isSpace c); [destruct (Go.isEmpty tok)|];
    rewrite IH by exact Hr; reflexivity.
Qed.

Lemma Fields_ascii (s : string) :
  Go.isASCII s = true -> Go.FieldsFunc s Go.IsSpace = Go.Fields s.
Proof.
  intros Hascii. unfold Go.Fields, Go.FieldsFunc. rewrite Hascii.
  apply FieldsFuncFrom_ascii, Hascii.
Qed.

End StringFacts.

Section FloatFacts.

(** Rounding never changes the sign it is given. *)
Lemma binary_round_aux_sign (s : bool) (m e : Z) (l : location) :
  match binary_round_aux 53 1024 s m e l with
  | S754_zero s' | S754_infinity s' | S754_finite s' _ _ => s' = s
  | S754_nan => True
  end.
Proof.
  unfold binary_round_aux.
  destruct (shr_fexp 53 1024 m e l) as [mrs' e'].
  destruct (shr_fexp 53 1024 _ e' loc_Exact) as [mrs'' e''].
  destruct (shr_m mrs''); [reflexivity | | exact I].
  destruct (e'' <=? 1024 - 53); reflexivity.
Qed.

Lemma f64_of_Z_signClear (n : Z) : 0 <= n -> signClear (Go.f64_of_Z n).
Proof.
  intros Hn. unfold Go.f64_of_Z, binary_normalize.
  destruct n as [|p|p]; [reflexivity | | lia].
  unfold binary_round.
  destruct (shl_align p 0 _) as [mz ez].
  apply (binary_round_aux_sign false).
Qed.

Lemma f64_div_signClear (x y : Go.float64) :
  signClear x -> Go.f64_ltb Go.f64_zero y = true -> signClear (Go.f64_div x y).
Proof.
  intros Hx Hy.
  destruct y as [sy|sy| |sy my ey]; try discriminate Hy;
    destruct sy; try discriminate Hy;
    destruct x as [sx|sx| |sx mx ex]; simpl in Hx; subst; try exact I;
    try reflexivity.
  unfold Go.f64_div, SFdiv.
  destruct (SFdiv_core_binary 53 1024 (Z.pos mx) ex (Z.pos my) ey) as [[mz ez] lz].
  apply (binary_round_aux_sign false).
Qed.

Lemma signClear_not_ltb_zero (x : Go.float64) :
  signClear x -> Go.f64_ltb x Go.f64_zero = false.
Proof. destruct x as [s|s| |s m e]; simpl; intros Hs; subst; reflexivity. Qed.

(** With a positive divisor, the quotient of a converted uint64 is
    never below zero: the two clamps of [calculateNetworkRates]
    cannot fire. *)
Lemma rate_not_negative (n : Z) (timeDelta : Go.float64) :
  0 <= n -> Go.f64_ltb Go.f64_zero timeDelta = true ->
  Go.f64_ltb (Go.f64_div (Go.f64_of_Z n) timeDelta) Go.f64_zero = false.
Proof.
  intros Hn Ht. apply signClear_not_ltb_zero, f64_div_signClear; [|exact Ht].
  apply f64_of_Z_signClear, Hn.
Qed.

End FloatFacts.

(** ** Rounding of binary64 arithmetic *)

Section Digits.

Lemma digits2_pos_size (p : positive) : digits2_pos p = Pos.size p.
Proof. induction p as [p IH|p IH|]; simpl; rewrite ?IH; reflexivity. Qed.

Lemma digits2_bounds (p : positive) :
  2 ^ (Z.pos (digits2_pos p) - 1) <= Z.pos p < 2 ^ Z.pos (digits2_pos p).
Proof.
  rewrite digits2_pos_size.
  pose proof (Pos.size_gt p) as Hgt. pose proof (Pos.size_le p) as Hle.
  apply Pos2Z.pos_lt_pos in Hgt. apply Pos2Z.pos_le_pos in Hle.
  rewrite Pos2Z.inj_pow in Hgt, Hle.
  change (Z.pos p~0) with (2 * Z.pos p) in Hle.
  split; [|exact Hgt].
  replace (Z.pos (Pos.size p)) with (Z.pos (Pos.size p) - 1 + 1) in Hle by lia.
  rewrite Z.pow_add_r, Z.pow_1_r in Hle by lia. lia.
Qed.

Lemma digits2_unique (p : positive) (d : Z) :
  2 ^ (d - 1) <= Z.pos p < 2 ^ d -> Z.pos (digits2_pos p) = d.
Proof.
  intros [Hlo Hhi]. pose proof (digits2_bounds p) as [Hlo' Hhi'].
  assert (Hd : 0 < d).
  { destruct (Z.ltb_spec 0 d) as [|Hd]; [assumption|].
    rewrite Z.pow_neg_r in Hlo by lia.
    destruct (Z.eq_dec d 0) as [->|]; [simpl in Hhi; lia|].
    rewrite Z.pow_neg_r in Hhi by lia. lia. }
  destruct (Z.lt_trichotomy (Z.pos (digits2_pos p)) d) as [Hlt|[Heq|Hgt]];
    [|exact Heq|]; exfalso.
  - assert (2 ^ Z.pos (digits2_pos p) <= 2 ^ (d - 1))
      by (apply Z.pow_le_mono_r; lia). lia.
  - assert (2 ^ d <= 2 ^ (Z.pos (digits2_pos p) - 1))
      by (apply Z.pow_le_mono_r; lia). lia.
Qed.

End Digits.

Section Shifts.

Lemma shr_1_m (mrs : shr_record) :
  0 <= shr_m mrs -> shr_m (shr_1 mrs) = shr_m mrs / 2.
Proof.
  destruct mrs as [m r s]. simpl. intros Hm. rewrite <- Z.div2_div.
  destruct m as [|p|p]; [reflexivity | destruct p; reflexivity | lia].
Qed.

Lemma iter_pos_shr_m (p : positive) (mrs : shr_record) :
  0 <= shr_m mrs ->
  shr_m (SpecFloat.iter_pos shr_1 p mrs) = shr_m mrs / 2 ^ Z.pos p.
Proof.
  revert mrs. induction p as [p IH|p IH|]; intros mrs Hm; simpl SpecFloat.iter_pos.
  - assert (H1 : 0 <= shr_m (shr_1 mrs))
      by (rewrite shr_1_m by assumption; apply Z.div_pos; lia).
    assert (H2 : 0 <= shr_m (SpecFloat.iter_pos shr_1 p (shr_1 mrs)))
      by (rewrite IH by assumption; apply Z.div_pos; lia).
    rewrite IH, IH, shr_1_m by assumption.
    rewrite !Z.div_div by lia. f_equal.
    rewrite Pos2Z.inj_xI, <- !Z.pow_add_r, <- Z.pow_succ_r by lia. f_equal. lia.
  - assert (H2 : 0 <= shr_m (SpecFloat.iter_pos shr_1 p mrs))
      by (rewrite IH by assumption; apply Z.div_pos; lia).
    rewrite IH, IH by assumption.
    rewrite !Z.div_div by lia. f_equal.
    rewrite Pos2Z.inj_xO, <- !Z.pow_add_r by lia. f_equal. lia.
  - rewrite shr_1_m by assumption. reflexivity.
Qed.

End Shifts.

Section Rounding.

Lemma shr_1_fields (m : Z) (r s : bool) :
  0 <= m ->
  shr_1 {| shr_m := m; shr_r := r; shr_s := s |} =
    {| shr_m := m / 2; shr_r := Z.odd m; shr_s := r || s |}.
Proof.
  intros Hm. rewrite <- Z.div2_div.
  destruct m as [|p|p]; [reflexivity | destruct p; reflexivity | lia].
Qed.

Lemma shrInv_start (M : Z) :
  shrInv M 0 {| shr_m := M; shr_r := false; shr_s := false |}.
Proof.
  unfold shrInv. simpl. rewrite Z.div_1_r, Z.mod_1_r. auto.
Qed.

Lemma shr_1_inv (M k : Z) (mrs : shr_record) :
  0 <= M -> 0 <= k -> shrInv M k mrs -> shrInv M (k + 1) (shr_1 mrs).
Proof.
  intros HM Hk. destruct mrs as [m r s]. unfold shrInv.
  cbn [shr_m shr_r shr_s]. intros (Hm & Hr & Hs).
  assert (HP : 0 < 2 ^ k) by (apply Z.pow_pos_nonneg; lia).
  rewrite shr_1_fields by (rewrite Hm; apply Z.div_pos; lia).
  cbn [shr_m shr_r shr_s].
  rewrite Z.pow_add_r, Z.pow_1_r by lia.
  rewrite Z.rem_mul_r by lia.
  rewrite <- Z.div_div by lia. rewrite <- Hm.
  pose proof (Z.mod_pos_bound M (2 ^ k) HP) as Hrem.
  rewrite (Zmod_odd m).
  subst r s.
  split; [reflexivity|].
  destruct (Z.odd m); split;
    repeat match goal with
           | |- context [?a <=? ?b] => destruct (Z.leb_spec a b)
           | |- context [?a =? ?b] => destruct (Z.eqb_spec a b)
           end; simpl; try reflexivity; lia.
Qed.

Lemma iter_pos_inv (p : positive) (M k : Z) (mrs : shr_record) :
  0 <= M -> 0 <= k -> shrInv M k mrs ->
  shrInv M (k + Z.pos p) (SpecFloat.iter_pos shr_1 p mrs).
Proof.
  intros HM. revert k mrs.
  induction p as [p IH|p IH|]; intros k mrs Hk Hinv; simpl SpecFloat.iter_pos.
  - replace (k + Z.pos p~1) with (k + 1 + Z.pos p + Z.pos p) by lia.
    apply IH; [lia|]. apply IH; [lia|]. apply shr_1_inv; assumption.
  - replace (k + Z.pos p~0) with (k + Z.pos p + Z.pos p) by lia.
    apply IH; [lia|]. apply IH; assumption.
  - apply shr_1_inv; assumption.
Qed.

Lemma round_nearest_even_bounds (m : Z) (l : location) :
  m <= round_nearest_even m l <= m + 1.
Proof.
  destruct l as [|[| |]]; simpl; try lia. destruct (Z.even m); lia.
Qed.

Lemma round_inv (M k : Z) (mrs : shr_record) :
  0 <= k -> shrInv M k mrs ->
  round_nearest_even (shr_m mrs) (loc_of_shr_record mrs) = rne M k.
Proof.
  intros Hk. destruct mrs as [m r s]. unfold shrInv, rne. simpl.
  intros (-> & -> & ->).
  assert (HP : 0 < 2 ^ k) by (apply Z.pow_pos_nonneg; lia).
  pose proof (Z.mod_pos_bound M (2 ^ k) HP) as Hrem.
  repeat match goal with
         | |- context [?a <=? ?b] => destruct (Z.leb_spec a b)
         | |- context [?a <? ?b] => destruct (Z.ltb_spec a b)
         | |- context [?a =? ?b] => destruct (Z.eqb_spec a b)
         end; simpl; try reflexivity; lia.
Qed.

Lemma rne_bounds (M k : Z) : M / 2 ^ k <= rne M k <= M / 2 ^ k + 1.
Proof.
  unfold rne.
  destruct (_ <? _); [lia|]. destruct (_ <? _); [lia|]. destruct (Z.even _); lia.
Qed.

Lemma rne_exact (M k : Z) : 0 <= k -> M mod 2 ^ k = 0 -> rne M k = M / 2 ^ k.
Proof.
  intros Hk Hz. unfold rne. rewrite Hz.
  assert (HP : 0 < 2 ^ k) by (apply Z.pow_pos_nonneg; lia).
  destruct (Z.ltb_spec (2 * 0) (2 ^ k)); [reflexivity | lia].
Qed.

Lemma rne_mono (a b k : Z) : 0 <= k -> a <= b -> rne a k <= rne b k.
Proof.
  intros Hk Hab.
  assert (HP : 0 < 2 ^ k) by (apply Z.pow_pos_nonneg; lia).
  pose proof (Z.div_le_mono a b (2 ^ k) HP Hab) as Hq.
  destruct (Z.eq_dec (a / 2 ^ k) (b / 2 ^ k)) as [E|N].
  - pose proof (Z.div_mod a (2 ^ k)) as Ha. pose proof (Z.div_mod b (2 ^ k)) as Hb.
    unfold rne. rewrite E in *.
    repeat match goal with
           | |- context [?x <? ?y] => destruct (Z.ltb_spec x y)
           end; destruct (Z.even (b / 2 ^ k)); lia.
  - pose proof (rne_bounds a k). pose proof (rne_bounds b k). lia.
Qed.

End Rounding.

Section NormalRange.

Lemma shr_record_of_loc_m (m : Z) (l : location) : shr_m (shr_record_of_loc m l) = m.
Proof. destruct l as [|[| |]]; reflexivity. Qed.

Lemma loc_of_shr_record_of_loc (m : Z) (l : location) :
  loc_of_shr_record (shr_record_of_loc m l) = l.
Proof. destruct l as [|[| |]]; reflexivity. Qed.

Lemma fexp_normal (e : Z) : -1074 <= e - 53 -> fexp 53 1024 e = e - 53.
Proof. unfold fexp, emin. lia. Qed.

(** The first shift of [binary_round_aux] on a mantissa of [d >= 53]
    digits, above the subnormal range: [d - 53] bits go. *)
Lemma shr_fexp_normal (mx ex : Z) (lx : location) (d : Z) :
  0 < mx -> Zdigits2 mx = d -> 53 <= d -> -1074 <= d + ex - 53 ->
  exists mrs,
    shr_fexp 53 1024 mx ex lx = (mrs, ex + (d - 53)) /\
    shr_m mrs = mx / 2 ^ (d - 53) /\
    (lx = loc_Exact -> shrInv mx (d - 53) mrs) /\
    (d = 53 -> loc_of_shr_record mrs = lx).
Proof.
  intros Hmx Hd H53 Hnorm. unfold shr_fexp. rewrite Hd, fexp_normal by lia.
  replace (d + ex - 53 - ex) with (d - 53) by lia.
  destruct (d - 53) as [|p|p] eqn:Hn; [| |lia]; unfold shr.
  - exists (shr_record_of_loc mx lx). rewrite Z.add_0_r.
    split; [reflexivity|]. rewrite shr_record_of_loc_m, Z.div_1_r.
    split; [reflexivity|]. split.
    + intros ->. apply shrInv_start.
    + intros _. apply loc_of_shr_record_of_loc.
  - exists (SpecFloat.iter_pos shr_1 p (shr_record_of_loc mx lx)).
    split; [reflexivity|].
    split; [rewrite iter_pos_shr_m; rewrite shr_record_of_loc_m; [reflexivity|lia]|].
    split; [|lia].
    intros ->. apply (iter_pos_inv p mx 0); [lia | lia | apply shrInv_start].
Qed.

Lemma normal_quotient (mx d : Z) :
  53 <= d -> 2 ^ (d - 1) <= mx < 2 ^ d ->
  2 ^ 52 <= mx / 2 ^ (d - 53) < 2 ^ 53.
Proof.
  intros Hd [Hlo Hhi].
  assert (HP : 0 < 2 ^ (d - 53)) by (apply Z.pow_pos_nonneg; lia).
  split.
  - apply Z.div_le_lower_bound; [exact HP|].
    rewrite <- Z.pow_add_r by lia. replace (d - 53 + 52) with (d - 1) by lia.
    exact Hlo.
  - apply Z.div_lt_upper_bound; [exact HP|].
    rewrite <- Z.pow_add_r by lia. replace (d - 53 + 53) with d by lia.
    exact Hhi.
Qed.

(** The second shift, on the rounded mantissa. *)
Lemma binary_round_aux_finish (m1 e1 : Z) :
  2 ^ 52 <= m1 <= 2 ^ 53 -> -1074 <= e1 -> e1 + 1 <= 971 ->
  match shr_fexp 53 1024 m1 e1 loc_Exact with
  | (mrs, e) =>
      match shr_m mrs with
      | 0 => S754_zero false
      | Z.pos m => if e <=? 1024 - 53 then S754_finite false m e
                   else S754_infinity false
      | Z.neg _ => S754_nan
      end
  end = pack m1 e1.
Proof.
  intros [Hlo Hhi] He1 Hmax. unfold pack.
  destruct (Z.ltb_spec m1 (2 ^ 53)) as [Hlt|Hge].
  - destruct m1 as [|p|p]; try lia.
    unfold shr_fexp. cbn [Zdigits2].
    rewrite (digits2_unique p 53) by (simpl; lia).
    rewrite fexp_normal by lia.
    replace (53 + e1 - 53 - e1) with 0 by lia. cbn [shr shr_record_of_loc shr_m].
    destruct (Z.leb_spec e1 (1024 - 53)); [reflexivity | lia].
  - assert (m1 = 2 ^ 53) as -> by lia.
    unfold shr_fexp. change (Zdigits2 (2 ^ 53)) with 54.
    rewrite fexp_normal by lia.
    replace (54 + e1 - 53 - e1) with 1 by lia.
    cbn [shr shr_record_of_loc SpecFloat.iter_pos]. simpl shr_m.
    destruct (Z.leb_spec (e1 + 1) (1024 - 53)); [reflexivity | lia].
Qed.

(** [binary_round_aux] on a positive mantissa of [d >= 53] digits, in
    the normal range and away from overflow. *)
Lemma binary_round_aux_normal (mx ex : Z) (lx : location) (d : Z) :
  0 < mx -> Zdigits2 mx = d -> 53 <= d ->
  -1074 <= d + ex - 53 -> ex + (d - 53) + 1 <= 971 ->
  exists m1,
    mx / 2 ^ (d - 53) <= m1 <= mx / 2 ^ (d - 53) + 1 /\
    2 ^ 52 <= m1 <= 2 ^ 53 /\
    (lx = loc_Exact -> m1 = rne mx (d - 53)) /\
    binary_round_aux 53 1024 false mx ex lx = pack m1 (ex + (d - 53)).
Proof.
  intros Hmx Hd H53 Hnorm Hmax.
  destruct (shr_fexp_normal mx ex lx d Hmx Hd H53 Hnorm)
    as (mrs & Hshr & Hm & Hinv & _).
  assert (Hq : 2 ^ 52 <= mx / 2 ^ (d - 53) < 2 ^ 53).
  { apply normal_quotient; [exact H53|].
    destruct mx as [|p|p]; try lia. cbn [Zdigits2] in Hd. subst d.
    apply digits2_bounds. }
  pose proof (round_nearest_even_bounds (shr_m mrs) (loc_of_shr_record mrs)) as Hb.
  rewrite Hm in Hb.
  exists (round_nearest_even (shr_m mrs) (loc_of_shr_record mrs)).
  rewrite Hm. split; [exact Hb|]. split; [lia|]. split.
  - intros Hl. rewrite <- Hm. apply round_inv; [lia | apply Hinv, Hl].
  - unfold binary_round_aux. rewrite Hshr, Hm.
    apply binary_round_aux_finish; lia.
Qed.

End NormalRange.

Section Conversion.

Lemma pos_iter_xO (p k : positive) :
  Z.pos (Pos.iter xO p k) = Z.pos p * 2 ^ Z.pos k.
Proof.
  induction k as [|k IH] using Pos.peano_ind.
  - simpl. rewrite Z.pow_1_r. lia.
  - rewrite Pos.iter_succ, Pos2Z.inj_xO, IH, Pos2Z.inj_succ, Z.pow_succ_r by lia.
    lia.
Qed.

Lemma Zdigits2_bounds (n : Z) :
  0 < n -> 2 ^ (Zdigits2 n - 1) <= n < 2 ^ Zdigits2 n /\ 0 < Zdigits2 n.
Proof.
  destruct n as [|p|p]; try lia. intros _. cbn [Zdigits2].
  split; [apply digits2_bounds | lia].
Qed.

Lemma Zdigits2_unique (n d : Z) :
  0 < n -> 2 ^ (d - 1) <= n < 2 ^ d -> Zdigits2 n = d.
Proof.
  destruct n as [|p|p]; try lia. intros _. apply digits2_unique.
Qed.

Lemma Zdigits2_mono (a b : Z) : 0 < a <= b -> Zdigits2 a <= Zdigits2 b.
Proof.
  intros [Ha Hab].
  destruct (Zdigits2_bounds a Ha) as [[Hlo _] Hda].
  destruct (Zdigits2_bounds b) as [[_ Hhi] Hdb]; [lia|].
  assert (Hlt : 2 ^ (Zdigits2 a - 1) < 2 ^ Zdigits2 b) by lia.
  apply Z.pow_lt_mono_r_iff in Hlt; lia.
Qed.

Lemma Zdigits2_uint64 (n : Z) : 0 < n < 2 ^ 64 -> 0 < Zdigits2 n <= 64.
Proof.
  intros [Hn H64]. destruct (Zdigits2_bounds n Hn) as [[Hlo _] Hd].
  split; [exact Hd|].
  assert (Hlt : 2 ^ (Zdigits2 n - 1) < 2 ^ 64) by lia.
  apply Z.pow_lt_mono_r_iff in Hlt; lia.
Qed.

Lemma convM_range (n : Z) : 0 < n -> 2 ^ 52 <= convM n <= 2 ^ 53.
Proof.
  intros Hn. unfold convM.
  destruct (Zdigits2_bounds n Hn) as [[Hlo Hhi] Hd].
  destruct (Z.leb_spec (Zdigits2 n) 53) as [Hle|Hgt].
  - assert (E52 : 2 ^ 52 = 2 ^ (Zdigits2 n - 1) * 2 ^ (53 - Zdigits2 n))
      by (rewrite <- Z.pow_add_r by lia; f_equal; lia).
    assert (E53 : 2 ^ 53 = 2 ^ Zdigits2 n * 2 ^ (53 - Zdigits2 n))
      by (rewrite <- Z.pow_add_r by lia; f_equal; lia).
    assert (HP : 0 < 2 ^ (53 - Zdigits2 n)) by (apply Z.pow_pos_nonneg; lia).
    rewrite E52, E53. split; apply Z.mul_le_mono_nonneg_r; lia.
  - pose proof (normal_quotient n (Zdigits2 n)) as Hq.
    pose proof (rne_bounds n (Zdigits2 n - 53)). lia.
Qed.

(** [float64(n)] for a positive uint64. *)
Lemma f64_of_Z_pack (n : Z) :
  0 < n < 2 ^ 64 -> Go.f64_of_Z n = pack (convM n) (convE n).
Proof.
  intros Hn. destruct (Zdigits2_uint64 n Hn) as [Hd0 Hd64].
  destruct (Zdigits2_bounds n) as [[Hlo Hhi] _]; [lia|].
  unfold convM, convE.
  destruct n as [|p|p]; try lia.
  unfold Go.f64_of_Z, binary_normalize, binary_round.
  cbn [Zdigits2] in *. set (d := Z.pos (digits2_pos p)) in *.
  rewrite fexp_normal by lia. unfold shl_align.
  replace (d + 0 - 53 - 0) with (d - 53) by lia.
  destruct (Z.leb_spec d 53) as [Hle|Hgt].
  - destruct (d - 53) as [|k|k] eqn:Hk; try lia.
    + (* exactly 53 digits *)
      replace (53 - d) with 0 by lia. rewrite Z.mul_1_r. replace (d + 0 - 53) with 0 by lia.
      destruct (binary_round_aux_normal (Z.pos p) 0 loc_Exact 53)
        as (m1 & _ & _ & Hm1 & ->); try lia.
      { cbn [Zdigits2]. fold d. lia. }
      rewrite (Hm1 eq_refl). f_equal.
      unfold rne. simpl (53 - 53). rewrite Z.pow_0_r, Z.div_1_r, Z.mod_1_r. reflexivity.
    + (* fewer digits: the mantissa is shifted left *)
      assert (Hmz : Z.pos (Pos.iter xO p k) = Z.pos p * 2 ^ (53 - d))
        by (rewrite pos_iter_xO; f_equal; f_equal; lia).
      assert (Hr : 2 ^ 52 <= Z.pos p * 2 ^ (53 - d) < 2 ^ 53).
      { assert (E52 : 2 ^ 52 = 2 ^ (d - 1) * 2 ^ (53 - d))
          by (rewrite <- Z.pow_add_r by lia; f_equal; lia).
        assert (E53 : 2 ^ 53 = 2 ^ d * 2 ^ (53 - d))
          by (rewrite <- Z.pow_add_r by lia; f_equal; lia).
        assert (HP : 0 < 2 ^ (53 - d)) by (apply Z.pow_pos_nonneg; lia).
        rewrite E52, E53. split; [apply Z.mul_le_mono_nonneg_r; lia|].
        apply Z.mul_lt_mono_pos_r; lia. }
      destruct (binary_round_aux_normal (Z.pos (Pos.iter xO p k)) (d + 0 - 53)
                  loc_Exact 53) as (m1 & _ & _ & Hm1 & ->); try lia.
      { apply Zdigits2_unique; [lia|]. rewrite Hmz. simpl (53 - 1). exact Hr. }
      rewrite (Hm1 eq_refl), Hmz. f_equal; [|lia].
      unfold rne. simpl (53 - 53). rewrite Z.pow_0_r, Z.div_1_r, Z.mod_1_r. reflexivity.
  - destruct (d - 53) as [|k|k] eqn:Hk; try lia.
    destruct (binary_round_aux_normal (Z.pos p) 0 loc_Exact d)
      as (m1 & _ & _ & Hm1 & ->); try lia.
    { reflexivity. }
    rewrite (Hm1 eq_refl), Hk. reflexivity.
Qed.

(** The conversion is monotone, before [pack]. *)
Lemma conv_mono (a b : Z) :
  0 < a <= b -> fle (convM a) (convE a) (convM b) (convE b).
Proof.
  intros [Ha Hab]. unfold fle, convE, convM.
  pose proof (Zdigits2_mono a b (conj Ha Hab)) as Hd.
  destruct (Z.eq_dec (Zdigits2 a) (Zdigits2 b)) as [E|N]; [right | left; lia].
  split; [lia|]. rewrite E.
  destruct (Z.leb_spec (Zdigits2 b) 53).
  - apply Z.mul_le_mono_nonneg_r; [apply Z.pow_nonneg; lia | exact Hab].
  - apply rne_mono; lia.
Qed.

(** [pack] is monotone. *)
Lemma pack_mono (m1 e1 m2 e2 : Z) :
  2 ^ 52 <= m1 <= 2 ^ 53 -> 2 ^ 52 <= m2 <= 2 ^ 53 ->
  fle m1 e1 m2 e2 ->
  exists ma ea mb eb,
    pack m1 e1 = S754_finite false ma ea /\
    pack m2 e2 = S754_finite false mb eb /\
    2 ^ 52 <= Z.pos ma < 2 ^ 53 /\ 2 ^ 52 <= Z.pos mb < 2 ^ 53 /\
    e1 <= ea <= e1 + 1 /\ e2 <= eb <= e2 + 1 /\
    fle (Z.pos ma) ea (Z.pos mb) eb.
Proof.
  intros H1 H2 Hle. unfold pack, fle in *.
  destruct (Z.ltb_spec m1 (2 ^ 53)), (Z.ltb_spec m2 (2 ^ 53));
    do 4 eexists; (split; [reflexivity|]); (split; [reflexivity|]);
    rewrite ?Z2Pos.id by lia; lia.
Qed.

End Conversion.

Section Quotient.

Lemma new_location_zero (n : Z) : new_location n 0 = loc_Exact.
Proof.
  unfold new_location, new_location_even, new_location_odd.
  destruct (Z.even n); reflexivity.
Qed.

(** The integer quotient and the location that [SFdiv] rounds, for
    two mantissas of 53 bits. *)
Lemma SFdiv_core_binary_normal (ma mb : positive) (ea eb : Z) :
  2 ^ 52 <= Z.pos ma < 2 ^ 53 -> 2 ^ 52 <= Z.pos mb < 2 ^ 53 ->
  -1000 <= ea - eb ->
  SFdiv_core_binary 53 1024 (Z.pos ma) ea (Z.pos mb) eb =
    (Z.pos ma * 2 ^ 53 / Z.pos mb, ea - eb - 53,
     new_location (Z.pos mb) ((Z.pos ma * 2 ^ 53) mod Z.pos mb)).
Proof.
  intros Ha Hb He. unfold SFdiv_core_binary. cbn [Zdigits2].
  rewrite (digits2_unique ma 53), (digits2_unique mb 53) by (simpl; lia).
  rewrite fexp_normal by lia.
  replace (Z.min (53 + ea - (53 + eb) - 53) (ea - eb)) with (ea - eb - 53) by lia.
  replace (ea - eb - (ea - eb - 53)) with 53 by lia.
  rewrite Z.shiftl_mul_pow2 by lia.
  unfold Z.div, Z.modulo.
  destruct (Z.div_eucl (Z.pos ma * 2 ^ 53) (Z.pos mb)) as [q r]. reflexivity.
Qed.

End Quotient.

Section Percentage.

Lemma pack_cases (m1 e1 : Z) :
  2 ^ 52 <= m1 <= 2 ^ 53 ->
  exists m e,
    pack m1 e1 = S754_finite false m e /\
    2 ^ 52 <= Z.pos m < 2 ^ 53 /\
    ((e = e1 /\ Z.pos m = m1) \/ (e = e1 + 1 /\ Z.pos m = 2 ^ 52 /\ m1 = 2 ^ 53)).
Proof.
  intros H1. unfold pack.
  destruct (Z.ltb_spec m1 (2 ^ 53)); do 2 eexists;
    (split; [reflexivity|]); rewrite ?Z2Pos.id by lia; lia.
Qed.

(** A quotient of two positive normal numbers, the first at most the
    second, is at most one. *)
Lemma f64_div_le_one (ma mb : positive) (ea eb : Z) :
  2 ^ 52 <= Z.pos ma < 2 ^ 53 -> 2 ^ 52 <= Z.pos mb < 2 ^ 53 ->
  -100 <= ea - eb ->
  fle (Z.pos ma) ea (Z.pos mb) eb ->
  exists mq eq,
    Go.f64_div (S754_finite false ma ea) (S754_finite false mb eb)
      = S754_finite false mq eq /\
    2 ^ 52 <= Z.pos mq < 2 ^ 53 /\ -200 <= eq /\
    (eq < -52 \/ (eq = -52 /\ Z.pos mq = 2 ^ 52)).
Proof.
  intros Ha Hb He Hle. unfold fle in Hle.
  unfold Go.f64_div, SFdiv.
  rewrite SFdiv_core_binary_normal by lia. cbn [xorb].
  set (q := Z.pos ma * 2 ^ 53 / Z.pos mb).
  set (r := (Z.pos ma * 2 ^ 53) mod Z.pos mb).
  assert (Hdm : Z.pos ma * 2 ^ 53 = Z.pos mb * q + r) by (apply Z.div_mod; lia).
  assert (Hr : 0 <= r < Z.pos mb) by (apply Z.mod_pos_bound; lia).
  assert (Hq : 2 ^ 52 <= q < 2 ^ 54).
  { split.
    - apply Z.div_le_lower_bound; lia.
    - apply Z.div_lt_upper_bound; lia. }
  assert (Hd : Zdigits2 q = 53 \/ Zdigits2 q = 54).
  { destruct (Z.ltb_spec q (2 ^ 53)); [left | right];
      apply Zdigits2_unique; simpl; lia. }
  assert (Hsame : ea = eb -> q <= 2 ^ 53).
  { intros ->. destruct Hle as [?|[_ Hm]]; [lia|].
    apply Z.div_le_upper_bound; [lia|]. apply Z.mul_le_mono_nonneg_r; lia. }
  destruct (binary_round_aux_normal q (ea - eb - 53)
              (new_location (Z.pos mb) r) (Zdigits2 q))
    as (m1 & Hb1 & Hr1 & Hex & ->); try lia.
  destruct (pack_cases m1 (ea - eb - 53 + (Zdigits2 q - 53)) Hr1)
    as (mq & eq & -> & Hmq & Hcases).
  exists mq, eq. split; [reflexivity|]. split; [exact Hmq|]. split; [lia|].
  destruct Hle as [Hlt|[-> Hm]]; [lia|].
  specialize (Hsame eq_refl).
  destruct Hd as [Hd|Hd]; rewrite Hd in *.
  - simpl (53 - 53) in *. rewrite Z.pow_0_r, Z.div_1_r in Hb1. lia.
  - assert (q = 2 ^ 53) by (destruct (Zdigits2_bounds q); rewrite ?Hd in *; simpl in *; lia).
    assert (r = 0) by nia. subst r.
    assert (Hm1 : m1 = 2 ^ 52).
    { rewrite Hex by (replace ((Z.pos ma * 2 ^ 53) mod Z.pos mb) with 0 by lia;
                      apply new_location_zero).
      replace q with (2 ^ 53) by lia. reflexivity. }
    lia.
Qed.

(** Such a quotient times 100 is at most 100. *)
Lemma f64_mul_100_le (mq : positive) (eq : Z) :
  2 ^ 52 <= Z.pos mq < 2 ^ 53 -> -200 <= eq ->
  (eq < -52 \/ (eq = -52 /\ Z.pos mq = 2 ^ 52)) ->
  exists mr er,
    Go.f64_mul (S754_finite false mq eq) Go.f64_100 = S754_finite false mr er /\
    (er < -46 \/ (er = -46 /\ Z.pos mr <= 7036874417766400)).
Proof.
  intros Hmq Heq Hle.
  unfold Go.f64_mul, Go.f64_100, SFmul. cbn [xorb].
  rewrite Pos2Z.inj_mul.
  set (mx := Z.pos mq * 7036874417766400).
  assert (Hmx : 2 ^ 104 <= mx < 2 ^ 106) by (unfold mx; simpl in *; lia).
  assert (Hd : Zdigits2 mx = 105 \/ Zdigits2 mx = 106).
  { destruct (Z.ltb_spec mx (2 ^ 105)); [left | right];
      apply Zdigits2_unique; simpl; simpl in Hmx; lia. }
  destruct (binary_round_aux_normal mx (eq + -46) loc_Exact (Zdigits2 mx))
    as (m1 & Hb1 & Hr1 & Hex & ->); try lia.
  destruct (pack_cases m1 (eq + -46 + (Zdigits2 mx - 53)) Hr1)
    as (mr & er & -> & Hmr & Hcases).
  exists mr, er. split; [reflexivity|].
  destruct Hle as [Hlt|[-> Hone]].
  - destruct Hd as [Hd|Hd]; rewrite Hd in *; [simpl in *; lia|].
    destruct (Z.eq_dec eq (-53)) as [->|]; [|simpl in *; lia].
    assert (mx / 2 ^ (106 - 53) < 7036874417766400).
    { apply Z.div_lt_upper_bound; [reflexivity|]. unfold mx. simpl in *. lia. }
    simpl in *. lia.
  - assert (Hmxv : mx = 2 ^ 52 * 7036874417766400) by (unfold mx; lia).
    assert (Hd105 : Zdigits2 mx = 105) by (rewrite Hmxv; reflexivity).
    rewrite Hd105 in *.
    assert (Hm1 : m1 = 7036874417766400)
      by (rewrite (Hex eq_refl), Hmxv; vm_compute; reflexivity).
    simpl in *. lia.
Qed.

End Percentage.

Section PercentageLaw.

Lemma SFleb_finite (m1 m2 : positive) (e1 e2 : Z) :
  SFleb (S754_finite false m1 e1) (S754_finite false m2 e2) =
    match e1 ?= e2 with
    | Lt => true
    | Gt => false
    | Eq => match (m1 ?= m2)%positive with Gt => false | _ => true end
    end.
Proof.
  unfold SFleb. cbn [SFcompare]. rewrite Pos.compare_cont_spec.
  destruct (e1 ?= e2); try reflexivity.
  destruct (m1 ?= m2)%positive; reflexivity.
Qed.

Lemma f64_leb_100 (mr : positive) (er : Z) :
  er < -46 \/ (er = -46 /\ Z.pos mr <= 7036874417766400) ->
  Go.f64_leb Go.f64_zero (S754_finite false mr er) = true /\
  Go.f64_leb (S754_finite false mr er) Go.f64_100 = true.
Proof.
  intros Hle. split; [reflexivity|].
  unfold Go.f64_leb, Go.f64_100. rewrite SFleb_finite.
  destruct Hle as [Hlt|[-> Hm]].
  - apply Z.compare_lt_iff in Hlt. rewrite Hlt. reflexivity.
  - rewrite Z.compare_refl.
    destruct (Pos.compare_spec mr 7036874417766400) as [E|L|G];
      [reflexivity | reflexivity | lia].
Qed.

(** The quotient of two converted uint64 values, the first at most the
    second, times 100, lies between 0 and 100. *)
Lemma percentage_in_range (used total : Z) :
  0 <= used <= total -> 0 < total < 2 ^ 64 ->
  let r := Go.f64_mul (Go.f64_div (Go.f64_of_Z used) (Go.f64_of_Z total)) Go.f64_100 in
  Go.f64_leb Go.f64_zero r = true /\ Go.f64_leb r Go.f64_100 = true.
Proof.
  intros [Hu Hut] Ht r. subst r.
  destruct (pack_mono (convM total) (convE total) (convM total) (convE total))
    as (mt & et & _ & _ & Etot & _ & Hmt & _ & Het & _);
    [apply convM_range; lia | apply convM_range; lia | right; lia |].
  rewrite (f64_of_Z_pack total Ht).
  destruct (Z.eq_dec used 0) as [->|Hnz].
  - rewrite Etot. split; reflexivity.
  - destruct (pack_mono (convM used) (convE used) (convM total) (convE total))
      as (ma & ea & mb & eb & Ea & Eb & Hma & Hmb & Hea & Heb & Hle);
      [apply convM_range; lia | apply convM_range; lia | apply conv_mono; lia |].
    rewrite (f64_of_Z_pack used) by lia. rewrite Ea, Eb.
    assert (Hda : 0 < Zdigits2 used <= 64) by (apply Zdigits2_uint64; lia).
    assert (Hdb : 0 < Zdigits2 total <= 64) by (apply Zdigits2_uint64; lia).
    unfold convE in *.
    destruct (f64_div_le_one ma mb ea eb Hma Hmb) as (mq & eq & -> & Hmq & Heq & Hq);
      [lia | exact Hle |].
    destruct (f64_mul_100_le mq eq Hmq Heq Hq) as (mr & er & -> & Hr).
    apply f64_leb_100, Hr.
Qed.

End PercentageLaw.


(** ** calculateNetworkRates *)

Section RateFacts.
Context {P : Type} `{SystemStatsProvider P}.

Import models.NetworkStats.

Lemma rateEntry_sameCounters prevMap timeDelta curr :
  sameCounters curr (rateEntry prevMap timeDelta curr).
Proof.
  unfold rateEntry, sameCounters.
  destruct (prevMap !! Interface curr); simpl; auto.
Qed.

Lemma sameCounters_refl l : Forall2 sameCounters l l.
Proof. induction l; constructor; unfold sameCounters; auto. Qed.

Lemma map_rateEntry_sameCounters prevMap timeDelta l :
  Forall2 sameCounters l (map (rateEntry prevMap timeDelta) l).
Proof.
  induction l as [|x l IH]; simpl; constructor; [|exact IH].
  apply rateEntry_sameCounters.
Qed.

(** The two ways [calculateNetworkRates] returns. *)
Lemma calculateNetworkRates_cases (c : Collector P) now current :
  calculateNetworkRates c now current = current \/
  exists prev,
    prevNet c = Some prev /\ prev <> [] /\
    Go.f64_eqb (Go.Seconds (Go.Since now (prevTime c))) Go.f64_zero = false /\
    calculateNetworkRates c now current =
      Some (map (rateEntry (buildPrevMap prev)
                           (Go.Seconds (Go.Since now (prevTime c))))
                (Go.elems current)).
Proof.
  unfold calculateNetworkRates.
  destruct (prevNet c) as [[|p prev]|] eqn:E; auto.
  destruct (Go.f64_eqb _ _) eqn:Ez; auto.
  right. exists (p :: prev). auto.
Qed.

Lemma calculateNetworkRates_sameCounters (c : Collector P) now current :
  Forall2 sameCounters
    (Go.elems current) (Go.elems (calculateNetworkRates c now current)).
Proof.
  destruct (calculateNetworkRates_cases c now current)
    as [-> | (prev & _ & _ & _ & ->)].
  - apply sameCounters_refl.
  - apply map_rateEntry_sameCounters.
Qed.

(** A positive time difference is not equal to zero. *)
Lemma positive_not_zero (x : Go.float64) :
  Go.f64_ltb Go.f64_zero x = true -> Go.f64_eqb x Go.f64_zero = false.
Proof.
  destruct x as [s|s| |s m e]; try discriminate; destruct s;
    try discriminate; reflexivity.
Qed.

(** With rate state and a positive time difference every entry goes
    through the loop body. *)
Lemma calculateNetworkRates_positive (c : Collector P) now current p prev :
  prevNet c = Some (p :: prev) ->
  Go.f64_ltb Go.f64_zero (Go.Seconds (Go.Since now (prevTime c))) = true ->
  calculateNetworkRates c now current =
    Some (map (rateEntry (buildPrevMap (p :: prev))
                         (Go.Seconds (Go.Since now (prevTime c))))
              (Go.elems current)).
Proof.
  intros Hp Ht. unfold calculateNetworkRates. rewrite Hp.
  rewrite (positive_not_zero _ Ht). reflexivity.
Qed.

(** For an interface found in [prevMap], with a positive time
    difference, both rates are the quotient of the wrapped uint64
    difference: the comparison with 0 that follows never succeeds. *)
Lemma rateEntry_found prevMap timeDelta curr prev :
  prevMap !! Interface curr = Some prev ->
  Go.f64_ltb Go.f64_zero timeDelta = true ->
  rateEntry prevMap timeDelta curr =
    {| Interface := Interface curr;
       BytesSent := BytesSent curr;
       BytesRecv := BytesRecv curr;
       SendRate := Go.f64_div
         (Go.f64_of_Z (Go.sub64 (BytesSent curr) (BytesSent prev))) timeDelta;
       RecvRate := Go.f64_div
         (Go.f64_of_Z (Go.sub64 (BytesRecv curr) (BytesRecv prev))) timeDelta |}.
Proof.
  intros Hl Ht. unfold rateEntry. rewrite Hl.
  rewrite !rate_not_negative; auto; apply wrap64_range.
Qed.

Lemma rateEntry_new prevMap timeDelta curr :
  prevMap !! Interface curr = None -> rateEntry prevMap timeDelta curr = curr.
Proof. intros Hl. unfold rateEntry. rewrite Hl. reflexivity. Qed.

(** [prevMap] keeps, for every interface name, the last entry of
    [prevNet] with that name. *)
Lemma buildPrevMap_snoc prev x :
  buildPrevMap (prev ++ [x]) = <[ Interface x := x ]> (buildPrevMap prev).
Proof. unfold buildPrevMap. rewrite fold_left_app. reflexivity. Qed.

Lemma buildPrevMap_lookup prev name q :
  buildPrevMap prev !! name = Some q <->
  exists l1 l2, prev = l1 ++ q :: l2 /\ Interface q = name /\
                Forall (fun r => Interface r <> name) l2.
Proof.
  induction prev as [|x prev IH] using rev_ind.
  - split; [discriminate|]. intros (l1 & l2 & E & _). destruct l1; discriminate.
  - rewrite buildPrevMap_snoc. split.
    + rewrite lookup_insert. case_decide as Hn.
      * intros [= ->]. exists prev, []. auto.
      * rewrite IH. intros (l1 & l2 & -> & Hq & Hl2).
        exists l1, (l2 ++ [x]). rewrite <- app_assoc. simpl.
        split; [reflexivity|]. split; [exact Hq|].
        apply Forall_app. split; [exact Hl2|]. constructor; [exact Hn|constructor].
    + intros (l1 & l2 & E & Hq & Hl2).
      destruct l2 as [|y l2 _] using rev_ind.
      * apply app_inj_tail in E as [-> ->]. rewrite Hq.
        apply lookup_insert_eq.
      * rewrite app_comm_cons, app_assoc in E.
        apply app_inj_tail in E as [-> ->].
        apply Forall_app in Hl2 as [Hl2 Hy]. inversion Hy; subst.
        rewrite lookup_insert_ne by assumption.
        apply IH. exists l1, l2. auto.
Qed.

End RateFacts.

(** ** The laws of calculateNetworkRates *)

Section RateLaws.

Import models.NetworkStats.

(** C10. [calculateNetworkRates] preserves everything except the
    rates: the returned sequence has the length of the input
    sequence and, entry by entry in the same order, the same
    Interface, BytesSent and BytesRecv; only SendRate and RecvRate
    may differ. *)
Theorem calculateNetworkRates_preserves_counters
    (P : Type) (SP : SystemStatsProvider P)
    (c : Collector P) (now : Go.Time)
    (current : Go.slice models.NetworkStats.t) :
  Go.len (calculateNetworkRates c now current) = Go.len current /\
  Forall2 sameCounters
    (Go.elems current) (Go.elems (calculateNetworkRates c now current)).
Proof.
  pose proof (calculateNetworkRates_sameCounters c now current) as Hsame.
  split; [|exact Hsame].
  unfold Go.len. symmetry. apply (Forall2_length _ _ _ Hsame).
Qed.

(** C5, as amended.  For an interface of the current samples that
    [prevMap] knows (it is present in the previous samples; [prev] is
    the entry kept for it), with a time difference above zero: when
    the sent counter did not decrease, SendRate is
    [(b2 - b1) / timeDelta], and likewise RecvRate for the received
    counter.  When the time difference equals zero the samples are
    returned as they came, so that every rate is the one the source
    supplied. *)
Theorem calculateNetworkRates_rate_law
    (P : Type) (SP : SystemStatsProvider P)
    (c : Collector P) (now : Go.Time)
    (current : Go.slice models.NetworkStats.t)
    (prevs : list models.NetworkStats.t)
    (i : nat) (cur prev : models.NetworkStats.t) :
  prevNet c = Some prevs ->
  buildPrevMap prevs !! Interface cur = Some prev ->
  Go.elems current !! i = Some cur ->
  Go.is_uint64 (BytesSent prev) -> Go.is_uint64 (BytesSent cur) ->
  Go.is_uint64 (BytesRecv prev) -> Go.is_uint64 (BytesRecv cur) ->
  (Go.f64_ltb Go.f64_zero (timeDelta c now) = true ->
   exists out,
     Go.elems (calculateNetworkRates c now current) !! i = Some out /\
     (BytesSent prev <= BytesSent cur ->
      SendRate out =
        Go.f64_div (Go.f64_of_Z (BytesSent cur - BytesSent prev))
                   (timeDelta c now)) /\
     (BytesRecv prev <= BytesRecv cur ->
      RecvRate out =
        Go.f64_div (Go.f64_of_Z (BytesRecv cur - BytesRecv prev))
                   (timeDelta c now))) /\
  (Go.f64_eqb (timeDelta c now) Go.f64_zero = true ->
   calculateNetworkRates c now current = current).
Proof.
  intros Hprev Hlook Hcur Hs1 Hs2 Hr1 Hr2. unfold timeDelta. split.
  - intros Hpos.
    destruct prevs as [|p prevs]; [discriminate Hlook|].
    rewrite (calculateNetworkRates_positive c now current p prevs Hprev Hpos).
    simpl.
    exists (rateEntry (buildPrevMap (p :: prevs))
                      (Go.Seconds (Go.Since now (prevTime c))) cur). split.
    + change (map ?f ?l) with (f <$> l).
      rewrite list_lookup_fmap, Hcur. reflexivity.
    + rewrite (rateEntry_found _ _ _ _ Hlook Hpos). simpl.
      split; intros Hle; rewrite sub64_exact by assumption; reflexivity.
  - intros Hzero. unfold calculateNetworkRates. rewrite Hprev.
    destruct prevs; [reflexivity|]. rewrite Hzero. reflexivity.
Qed.

Lemma calculateNetworkRates_rate_law_witness :
  Go.f64_ltb Go.f64_zero
    (timeDelta (Sample.sampled 1000000 2000000 0) Sample.oneSecond) = true /\
  exists out,
    Go.elems (calculateNetworkRates (Sample.sampled 1000000 2000000 0)
                Sample.oneSecond
                (Some [Sample.eth0 1100000 2000000 Go.f64_zero Go.f64_zero]))
      !! 0%nat = Some out /\
    SendRate out = Sample.f64_100000 /\ RecvRate out = Go.f64_zero.
Proof.
  assert (Hpos : Go.f64_ltb Go.f64_zero
                   (timeDelta (Sample.sampled 1000000 2000000 0) Sample.oneSecond)
                 = true)
    by reflexivity.
  split; [exact Hpos|].
  destruct (calculateNetworkRates_rate_law _ _
              (Sample.sampled 1000000 2000000 0) Sample.oneSecond
              (Some [Sample.eth0 1100000 2000000 Go.f64_zero Go.f64_zero])
              [Sample.eth0 1000000 2000000 Go.f64_zero Go.f64_zero] 0%nat
              (Sample.eth0 1100000 2000000 Go.f64_zero Go.f64_zero)
              (Sample.eth0 1000000 2000000 Go.f64_zero Go.f64_zero))
    as [Hrate _];
    [reflexivity | vm_compute; reflexivity | reflexivity
    | vm_compute; split; [intros [=] | reflexivity] ..
    |].
  destruct (Hrate Hpos) as (out & Hout & Hsend & Hrecv).
  exists out. split; [exact Hout|]. split.
  - rewrite Hsend by (simpl; lia). vm_compute. reflexivity.
  - rewrite Hrecv by (simpl; lia). vm_compute. reflexivity.
Defined.

(** C5, as stated, fails on a zero time difference: the collector
    returns the samples untouched, and the mock source's sample of
    eth0 comes with SendRate 102400. *)
Lemma calculateNetworkRates_zero_delta_counterexample :
  Go.f64_eqb (timeDelta (Sample.sampled 1000000 2000000 5) 5) Go.f64_zero = true /\
  exists out,
    Go.elems (calculateNetworkRates (Sample.sampled 1000000 2000000 5) 5
                (stats.MockStatsProvider.NetStats stats.NewMockStatsProvider))
      !! 0%nat = Some out /\
    SendRate out = stats.lit_102400 /\
    Go.f64_eqb (SendRate out) Go.f64_zero = false.
Proof.
  split; [reflexivity|].
  eexists. split; [vm_compute; reflexivity|]. split; reflexivity.
Qed.

(** C1.  The code at a counter regression: eth0 went from 1000 to 500
    bytes sent (and from 2000 to 2500 received) within one second.
    The uint64 difference wraps to 2^64 - 500 before it is converted,
    the comparison with 0 does not succeed, and SendRate is 2^64
    bytes per second instead of 0. *)
Theorem calculateNetworkRates_regression_wraps :
  calculateNetworkRates (Sample.sampled 1000 2000 0) Sample.oneSecond
    (Some [Sample.eth0 500 2500 Go.f64_zero Go.f64_zero])
  = Some [Sample.eth0 500 2500 Sample.f64_two64 Sample.f64_500] /\
  Go.f64_eqb Sample.f64_two64 Go.f64_zero = false /\
  Go.f64_ltb Go.f64_zero Sample.f64_two64 = true.
Proof. vm_compute. auto. Qed.

(** The same in general: on a regression, with a positive time
    difference, the rate is the quotient of [2^64 + b2 - b1]. *)
Lemma rateEntry_regression prevMap timeDelta cur prev :
  prevMap !! Interface cur = Some prev ->
  Go.f64_ltb Go.f64_zero timeDelta = true ->
  Go.is_uint64 (BytesSent prev) -> Go.is_uint64 (BytesSent cur) ->
  BytesSent cur < BytesSent prev ->
  SendRate (rateEntry prevMap timeDelta cur) =
    Go.f64_div (Go.f64_of_Z (Go.two64 + BytesSent cur - BytesSent prev)) timeDelta.
Proof.
  intros Hl Ht Hp Hc Hlt. rewrite (rateEntry_found _ _ _ _ Hl Ht). simpl.
  destruct (sub64_borrow _ _ Hc Hp Hlt) as [-> _]. reflexivity.
Qed.

End RateLaws.

(** ** Collect *)

Section CollectFacts.
Context {P : Type} `{SystemStatsProvider P}.

(** What a returning cycle does with the answer of the network
    query. *)
Lemma Collect_network_ok (c : Collector P) start now r net :
  Collect c start now = Go.Returned r ->
  networkQuery c = Go.Ok net ->
  let net' := match prevNet c with
              | Some _ => calculateNetworkRates c now net
              | None => net
              end in
  models.Metrics.Network (metrics r) = net' /\
  models.Metrics.Timestamp (metrics r) = start /\
  prevNet (after r) = net' /\
  prevTime (after r) = start /\
  err r = None.
Proof.
  intros Hrun Hnet. run_Collect Hrun; try discriminate Hnet;
    injection Hnet as ->; injection Hrun as <-; simpl; auto.
Qed.

Lemma Collect_network_err (c : Collector P) start now r e :
  Collect c start now = Go.Returned r ->
  networkQuery c = Go.Err e ->
  models.Metrics.Network (metrics r) = None /\
  models.Metrics.Timestamp (metrics r) = start /\
  prevNet (after r) = prevNet c /\
  prevTime (after r) = prevTime c /\
  err r = None.
Proof.
  intros Hrun Hnet. run_Collect Hrun; try discriminate Hnet;
    injection Hrun as <-; simpl; auto.
Qed.

(** [calculateNetworkRates] reads the rate state and nothing else of
    the collector. *)
Lemma calculateNetworkRates_rate_state (c c' : Collector P) now current :
  prevNet c' = prevNet c -> prevTime c' = prevTime c ->
  calculateNetworkRates c' now current = calculateNetworkRates c now current.
Proof. intros Hn Ht. unfold calculateNetworkRates. rewrite Hn, Ht. reflexivity. Qed.

End CollectFacts.

Section CollectLaws.


(** C4, as amended.  On a freshly constructed collector, the first
    cycle whose network query succeeds stores the network sequence
    exactly as the source returned it, rates included; the rates are
    therefore zero for every interface when the source reports zero
    rates. *)
Theorem first_Collect_passes_network_through
    (P : Type) (SP : SystemStatsProvider P)
    (p : P) (created start now : Go.Time) (r : Collected P)
    (net : Go.slice models.NetworkStats.t) :
  Collect (NewCollector p created) start now = Go.Returned r ->
  networkQuery (NewCollector p created) = Go.Ok net ->
  models.Metrics.Network (metrics r) = net /\
  (Forall zeroRates (Go.elems net) ->
   Forall zeroRates (Go.elems (models.Metrics.Network (metrics r)))).
Proof.
  intros Hrun Hnet.
  destruct (Collect_network_ok _ start now r net Hrun Hnet) as (Hn & _).
  simpl in Hn. rewrite Hn. auto.
Qed.

End CollectLaws.

Section MockLaws.

Import stats.MockStatsProvider.


Lemma first_Collect_passes_network_through_witness :
  exists r,
    Collect SampleCycles.fresh 10 11 = Go.Returned r /\
    networkQuery SampleCycles.fresh = Go.Ok (NetStats stats.NewMockStatsProvider) /\
    models.Metrics.Network (metrics r) = NetStats stats.NewMockStatsProvider.
Proof.
  destruct (Collect SampleCycles.fresh 10 11) as [r|] eqn:Hrun;
    [|vm_compute in Hrun; discriminate Hrun].
  exists r. split; [reflexivity|]. split; [reflexivity|].
  apply (first_Collect_passes_network_through _ _
           stats.NewMockStatsProvider 0 10 11 r _ Hrun eq_refl).
Defined.

(** C4, as stated, fails on the repository's own mock source: the
    first cycle of a fresh collector reports eth0 with SendRate
    102400 and RecvRate 204800, the rates the source was configured
    with. *)
Lemma first_Collect_rates_counterexample :
  exists r n,
    Collect SampleCycles.fresh 10 11 = Go.Returned r /\
    networkQuery SampleCycles.fresh = Go.Ok (NetStats stats.NewMockStatsProvider) /\
    Go.elems (models.Metrics.Network (metrics r)) !! 0%nat = Some n /\
    models.NetworkStats.SendRate n = stats.lit_102400 /\
    models.NetworkStats.RecvRate n = stats.lit_204800 /\
    Go.f64_eqb (models.NetworkStats.SendRate n) Go.f64_zero = false /\
    Go.f64_eqb (models.NetworkStats.RecvRate n) Go.f64_zero = false.
Proof.
  eexists. eexists. split; [vm_compute; reflexivity|].
  split; [reflexivity|]. split; [reflexivity|]. repeat split.
Qed.

(** C3, as amended.  Whatever subsystems of the mock source are
    forced to fail, and whatever the rate state, [Collect] returns a
    snapshot and a nil error, provided the mock holds a CPU and a
    memory value for the queries that succeed.  A field whose query
    fails has its zero value.  The CPU, memory and disk fields whose
    query succeeds equal the configured value.  The network field,
    when its query succeeds, is the configured sequence on a
    collector without rate state, and the result of
    [calculateNetworkRates] on the configured sequence otherwise:
    same interfaces and byte counters, rates recomputed. *)
Theorem Collect_partial_failure
    (m : stats.MockStatsProvider.t)
    (prev : Go.slice models.NetworkStats.t) (prevT start now : Go.Time) :
  (CPUError m = None -> is_Some (CPUStats m)) ->
  (MemError m = None -> is_Some (MemStats m)) ->
  exists r,
    Collect (mkCollector m prev prevT) start now = Go.Returned r /\
    err r = None /\
    (CPUError m <> None -> models.Metrics.CPU (metrics r) = models.CPUStats.zero) /\
    (CPUError m = None -> Some (models.Metrics.CPU (metrics r)) = CPUStats m) /\
    (MemError m <> None ->
       models.Metrics.Memory (metrics r) = models.MemoryStats.zero) /\
    (MemError m = None -> Some (models.Metrics.Memory (metrics r)) = MemStats m) /\
    (DiskError m <> None -> models.Metrics.Disk (metrics r) = None) /\
    (DiskError m = None -> models.Metrics.Disk (metrics r) = DiskStats m) /\
    (NetError m <> None -> models.Metrics.Network (metrics r) = None) /\
    (NetError m = None ->
       models.Metrics.Network (metrics r) =
         match prev with
         | None => NetStats m
         | Some _ =>
             calculateNetworkRates (mkCollector m prev prevT) now (NetStats m)
         end /\
       Forall2 sameCounters (Go.elems (NetStats m))
               (Go.elems (models.Metrics.Network (metrics r)))).
Proof.
  intros Hcpu Hmem. set (c := mkCollector m prev prevT). unfold Collect. simpl.
  unfold stats.Mock.GetCPUStats, stats.Mock.GetMemoryStats,
    stats.Mock.GetDiskStats, stats.Mock.GetNetworkStats.
  assert (Hframe : forall net, Forall2 sameCounters (Go.elems net)
            (Go.elems match prev with
                      | Some _ => calculateNetworkRates c now net
                      | None => net
                      end)).
  { intros net. destruct prev; [|apply sameCounters_refl].
    apply calculateNetworkRates_sameCounters. }
  destruct (CPUError m) as [ecpu|];
    [|destruct (Hcpu eq_refl) as [cpu ->]];
    (destruct (MemError m) as [emem|];
     [|destruct (Hmem eq_refl) as [mem ->]]);
    destruct (DiskError m) as [edisk|]; destruct (NetError m) as [enet|];
    simpl; eexists; (split; [reflexivity|]); simpl;
    repeat split; intros; try congruence; auto.
Qed.

End MockLaws.

Section MockWitnesses.

Import stats.MockStatsProvider.

Lemma Collect_partial_failure_witness :
  exists r,
    Collect (mkCollector SampleCycles.cpuFails None 0) 10 11 = Go.Returned r /\
    err r = None /\
    models.Metrics.CPU (metrics r) = models.CPUStats.zero /\
    Some (models.Metrics.Memory (metrics r)) = MemStats SampleCycles.cpuFails /\
    models.Metrics.Disk (metrics r) = DiskStats SampleCycles.cpuFails /\
    models.Metrics.Network (metrics r) = NetStats SampleCycles.cpuFails.
Proof.
  destruct (Collect_partial_failure SampleCycles.cpuFails None 0 10 11)
    as (r & Hrun & Herr & Hcpu & _ & _ & Hmem & _ & Hdisk & _ & Hnet).
  - intros Hnone. discriminate Hnone.
  - intros _. eexists. reflexivity.
  - exists r. split; [exact Hrun|]. split; [exact Herr|].
    split; [apply Hcpu; discriminate|].
    split; [apply Hmem; reflexivity|].
    split; [apply Hdisk; reflexivity|].
    apply Hnet. reflexivity.
Defined.

(** C3, as stated, fails once the collector holds rate state: with
    only the CPU query forced to fail, the second cycle, one second
    after the first, reports eth0 with both rates recomputed to 0,
    not with the configured 102400 and 204800. *)
Lemma Collect_partial_failure_counterexample :
  exists r,
    CPUError SampleCycles.cpuFails <> None /\
    NetError SampleCycles.cpuFails = None /\
    Collect SampleCycles.secondCycle Sample.oneSecond Sample.oneSecond
      = Go.Returned r /\
    models.Metrics.Network (metrics r) =
      Some [Sample.eth0 (1024 * 1024 * 100) (1024 * 1024 * 200)
              Go.f64_zero Go.f64_zero] /\
    models.Metrics.Network (metrics r) <> NetStats SampleCycles.cpuFails.
Proof.
  eexists. split; [discriminate|]. split; [reflexivity|].
  split; [vm_compute; reflexivity|]. split; [reflexivity|].
  simpl. intros Heq. discriminate Heq.
Qed.

End MockWitnesses.

(** ** The Linux source *)

Section LinuxFacts.

Import stats.Linux.

Lemma fold_left_preserves {A B} (f : A -> B -> A) (Inv : A -> Prop) l a :
  (forall x a, x ∈ l -> Inv a -> Inv (f a x)) ->
  Inv a -> Inv (fold_left f l a).
Proof.
  revert a. induction l as [|x l IH]; intros a Hstep Ha; simpl; [exact Ha|].
  apply IH.
  - intros y b Hy. apply Hstep. right. exact Hy.
  - apply Hstep; [left | exact Ha].
Qed.

(** *** /proc/meminfo *)

Lemma memLine_inRange st line : meminfoInRange st -> meminfoInRange (memLine st line).
Proof.
  unfold meminfoInRange, memLine. intros (Ht & Hf & Ha & Hb & Hc).
  destruct (Go.Fields line) as [|f0 [|f1 rest]]; auto.
  pose proof (wrap64_range (parseUint64 f1 * 1024)) as Hv.
  fold (Go.mul64 (parseUint64 f1) 1024) in Hv.
  repeat (destruct (String.eqb _ _); simpl; auto 10).
Qed.

(** Memory: total = used + available in uint64 arithmetic, because
    [used] is computed as [memTotal - available]. *)
Lemma GetMemoryStats_total file m :
  GetMemoryStats file = Go.Ok (Some m) ->
  models.MemoryStats.Total m =
    Go.add64 (models.MemoryStats.Used m) (models.MemoryStats.Available m).
Proof.
  unfold GetMemoryStats. destruct file as [e|lines [e|]]; try discriminate.
  intros [= <-]. simpl. symmetry. apply sub64_add64.
  apply (fold_left_preserves memLine meminfoInRange).
  - intros x a _. apply memLine_inRange.
  - unfold meminfoInRange, Go.is_uint64. simpl. repeat split; reflexivity || lia.
Qed.

(** *** /proc/mounts *)

Lemma diskLine_inv statfs lines st line :
  line ∈ lines -> diskInv lines st -> diskInv lines (diskLine statfs st line).
Proof.
  intros Hin [Hnd Hall]. destruct st as [stats seen]. unfold diskLine.
  destruct (Go.Fields line) as [|dev [|mp [|fstype rest]]] eqn:Hf;
    try (split; assumption).
  destruct (isSpecialFs fstype) eqn:Hsp; [split; assumption|].
  case_bool_decide as Hseen; [split; assumption|].
  simpl in *.
  assert (Hall' : Forall (fun d => models.DiskStats.Mountpoint d ∈ {[mp]} ∪ seen
                                   /\ fromRealFs lines d) (Go.elems stats)).
  { eapply Forall_impl; [exact Hall|]. intros d [Hd Hr]. split; [set_solver|exact Hr]. }
  destruct (statfs mp) as [stat|]; [|split; assumption].
  split; simpl.
  - rewrite map_app. simpl. apply NoDup_app. split; [exact Hnd|].
    split; [|apply NoDup_singleton].
    intros x Hx Hx'. apply list_elem_of_singleton in Hx'. subst x.
    apply Hseen. apply list_elem_of_In, in_map_iff in Hx as (d & <- & Hd).
    apply list_elem_of_In in Hd.
    rewrite Forall_forall in Hall. apply (Hall d Hd).
  - apply Forall_app. split; [exact Hall'|].
    constructor; [|constructor]. simpl. split; [set_solver|].
    exists line, dev, fstype, rest. auto.
Qed.

Lemma GetDiskStats_inv lines scanErr statfs stats :
  GetDiskStats (Opened lines scanErr) statfs = Go.Ok stats ->
  NoDup (map models.DiskStats.Mountpoint (Go.elems stats)) /\
  Forall (fromRealFs lines) (Go.elems stats).
Proof.
  unfold GetDiskStats.
  pose proof (fold_left_preserves (diskLine statfs) (diskInv lines) lines (None, ∅))
    as Hinv.
  destruct (fold_left (diskLine statfs) lines (None, ∅)) as [stats' seen].
  destruct scanErr; [discriminate|]. intros [= <-].
  destruct Hinv as [Hnd Hall].
  - intros x a Hx. apply diskLine_inv, Hx.
  - split; [constructor | constructor].
  - split; [exact Hnd|]. eapply Forall_impl; [exact Hall|]. intros d [_ Hr]. exact Hr.
Qed.

(** *** /proc/net/dev *)

Lemma netLine_names stats line :
  map models.NetworkStats.Interface (Go.elems (netLine stats line)) =
    map models.NetworkStats.Interface (Go.elems stats) ++
    match acceptedName line with
    | Some name => [name]
    | None => []
    end.
Proof.
  unfold netLine, acceptedName.
  destruct (Go.Split line ":") as [|p0 [|p1 [|p2 ps]]];
    try (rewrite app_nil_r; reflexivity).
  destruct (Go.Fields p1) as [|f0 [|f1 [|f2 [|f3 [|f4 [|f5 [|f6 [|f7 [|f8 fs]]]]]]]]];
    try (rewrite app_nil_r; reflexivity).
  cbn [length Nat.ltb Nat.leb].
  destruct (String.eqb (Go.TrimSpace p0) "lo"); [rewrite app_nil_r; reflexivity|].
  cbn [Go.append Go.elems]. rewrite map_app. reflexivity.
Qed.

Lemma netLine_zeroRates stats line :
  Forall zeroRates (Go.elems stats) -> Forall zeroRates (Go.elems (netLine stats line)).
Proof.
  intros Hall. unfold netLine.
  destruct (Go.Split line ":") as [|p0 [|p1 [|p2 ps]]]; auto.
  destruct (Go.Fields p1) as [|f0 [|f1 [|f2 [|f3 [|f4 [|f5 [|f6 [|f7 [|f8 fs]]]]]]]]];
    auto.
  destruct (String.eqb _ _); auto.
  simpl. apply Forall_app. split; [exact Hall|].
  constructor; [split; reflexivity | constructor].
Qed.

(** The loop over /proc/net/dev appends one entry for every line
    that [acceptedName] accepts, in the order of the lines. *)
Lemma fold_netLine_names lines stats :
  map models.NetworkStats.Interface (Go.elems (fold_left netLine lines stats)) =
    map models.NetworkStats.Interface (Go.elems stats) ++ omap acceptedName lines.
Proof.
  revert stats. induction lines as [|line lines IH]; intros stats; cbn [fold_left].
  - cbn. rewrite app_nil_r. reflexivity.
  - rewrite IH, netLine_names, <- app_assoc. f_equal.
    cbn [omap list_omap]. destruct (acceptedName line); reflexivity.
Qed.

Lemma acceptedName_not_lo line name :
  acceptedName line = Some name -> name <> "lo"%string.
Proof.
  unfold acceptedName.
  destruct (Go.Split line ":") as [|p0 [|p1 [|p2 ps]]]; try discriminate.
  destruct (length (Go.Fields p1) <? 9)%nat; [discriminate|].
  destruct (String.eqb_spec (Go.TrimSpace p0) "lo") as [|Hne]; [discriminate|].
  intros [= <-]. exact Hne.
Qed.

Lemma fromRealFs_fromMountLine lines d :
  fromRealFs lines d -> fromMountLine lines d.
Proof.
  intros (line & dev & fstype & rest & Hin & Hf & _).
  exists line, dev, fstype, rest. split; assumption.
Qed.

(** The Linux source reports every interface with both rates zero. *)
Lemma GetNetworkStats_zeroRates netdev stats :
  GetNetworkStats netdev = Go.Ok stats -> Forall zeroRates (Go.elems stats).
Proof.
  unfold GetNetworkStats. destruct netdev as [e|lines [e|]]; try discriminate.
  intros [= <-].
  apply (fold_left_preserves netLine (fun s => Forall zeroRates (Go.elems s))).
  - intros x a _. apply netLine_zeroRates.
  - constructor.
Qed.

End LinuxFacts.

Section LinuxLaws.

Import stats.Linux.

(** For one entry of [GetDiskStats], total = used + available holds, in
    uint64 arithmetic, exactly when the free bytes and the bytes
    available to unprivileged users are the same number. *)
Lemma diskEntry_total mountpoint stat :
  let d := diskEntry mountpoint stat in
  models.DiskStats.Total d =
    Go.add64 (models.DiskStats.Used d) (models.DiskStats.Available d) <->
  Go.mul64 (Bfree stat) (Go.wrap64 (Bsize stat)) =
  Go.mul64 (Bavail stat) (Go.wrap64 (Bsize stat)).
Proof.
  unfold diskEntry. cbn [models.DiskStats.Total models.DiskStats.Used
                         models.DiskStats.Available].
  set (bsize := Go.wrap64 (Bsize stat)).
  pose proof (wrap64_range (Blocks stat * bsize)) as Ht.
  pose proof (wrap64_range (Bfree stat * bsize)) as Hf.
  pose proof (wrap64_range (Bavail stat * bsize)) as Ha.
  fold (Go.mul64 (Blocks stat) bsize) in Ht.
  fold (Go.mul64 (Bfree stat) bsize) in Hf.
  fold (Go.mul64 (Bavail stat) bsize) in Ha.
  set (T := Go.mul64 (Blocks stat) bsize) in *.
  set (F := Go.mul64 (Bfree stat) bsize) in *.
  set (A := Go.mul64 (Bavail stat) bsize) in *.
  unfold Go.is_uint64, Go.add64, Go.sub64, Go.wrap64 in *.
  rewrite Zplus_mod_idemp_l.
  pose proof two64_pos as HM.
  split.
  - intros E.
    pose proof (Z.div_mod (T - F + A) Go.two64) as Hdm.
    rewrite <- E in Hdm. set (q := (T - F + A) / Go.two64) in Hdm.
    assert (Hq : q = 0).
    { destruct (Z.lt_trichotomy q 0) as [Hneg|[Hz|Hpos]]; [exfalso | exact Hz | exfalso].
      - assert (Go.two64 * q <= - Go.two64) by nia. lia.
      - assert (Go.two64 <= Go.two64 * q) by nia. lia. }
    rewrite Hq in Hdm. lia.
  - intros ->. replace (T - A + A) with T by lia. symmetry.
    apply Z.mod_small. exact Ht.
Qed.

(** The list of skipped filesystem types is short: debugfs, for one,
    is enumerated like a disk. *)
Lemma GetDiskStats_keeps_debugfs :
  exists d,
    GetDiskStats SampleOS.mountsDebugfs SampleOS.statfs = Go.Ok (Some [d]) /\
    models.DiskStats.Mountpoint d = "/sys/kernel/debug"%string.
Proof. eexists. split; [vm_compute; reflexivity | reflexivity]. Qed.

(** White space is what [unicode.IsSpace] says: a line of
    /proc/mounts whose mount point holds a no-break space is split
    there, so that statfs is asked about /mnt/a and the third field
    is taken for the filesystem type. *)
Lemma Fields_no_break_space :
  Go.Fields ("/dev/sdb1 /mnt/a" +:+ SampleOS.noBreakSpace
             +:+ "b ext4 rw,relatime 0 0")
  = ["/dev/sdb1"; "/mnt/a"; "b"; "ext4"; "rw,relatime"; "0"; "0"]%string.
Proof. vm_compute. reflexivity. Qed.

Lemma GetDiskStats_no_break_space :
  exists d,
    GetDiskStats SampleOS.mountsNoBreakSpace SampleOS.statfs = Go.Ok (Some [d]) /\
    models.DiskStats.Mountpoint d = "/mnt/a"%string.
Proof. eexists. split; [vm_compute; reflexivity | reflexivity]. Qed.

(** An em space after the interface name is trimmed like a blank: lo
    is skipped and eth0 is reported under its name. *)
Lemma GetNetworkStats_em_space :
  GetNetworkStats SampleOS.netdevEmSpace = Go.Ok (Some [SampleOS.eth0Entry]).
Proof. vm_compute. reflexivity. Qed.

(** C2.  The code on an ext4 filesystem with reserved blocks
    ([Bavail < Bfree]): [Used] is derived from [Bfree], [Available]
    from [Bavail], and total = used + available does not hold. *)
Theorem GetDiskStats_total_not_reconciled :
  GetDiskStats SampleOS.mounts SampleOS.statfs = Go.Ok (Some [SampleOS.rootEntry]) /\
  models.DiskStats.Total SampleOS.rootEntry <>
    Go.add64 (models.DiskStats.Used SampleOS.rootEntry)
             (models.DiskStats.Available SampleOS.rootEntry) /\
  models.DiskStats.Total SampleOS.rootEntry <>
    models.DiskStats.Used SampleOS.rootEntry +
    models.DiskStats.Available SampleOS.rootEntry.
Proof. vm_compute. repeat split; discriminate. Qed.

(** C8, as amended.  A successful [GetDiskStats] returns entries with
    pairwise distinct mountpoints, each mountpoint the second field of
    a line of /proc/mounts.  A successful [GetNetworkStats] returns no
    entry named lo; its interface names are, in the order of the
    file, exactly the names of the lines after the two header lines
    that have one colon, nine fields or more after it and a name
    other than lo, one entry per such line; so they are pairwise
    distinct when no two of these lines carry the same name. *)
Theorem Linux_enumeration
    (mounts netdev : File) (statfs : string -> option Statfs_t)
    (disks : Go.slice models.DiskStats.t)
    (nets : Go.slice models.NetworkStats.t) :
  GetDiskStats mounts statfs = Go.Ok disks ->
  GetNetworkStats netdev = Go.Ok nets ->
  (NoDup (map models.DiskStats.Mountpoint (Go.elems disks)) /\
   Forall (fromMountLine (linesOf mounts)) (Go.elems disks)) /\
  (Forall (fun n => models.NetworkStats.Interface n <> "lo"%string) (Go.elems nets) /\
   map models.NetworkStats.Interface (Go.elems nets)
     = omap acceptedName (drop 2 (linesOf netdev)) /\
   (NoDup (omap acceptedName (drop 2 (linesOf netdev))) ->
    NoDup (map models.NetworkStats.Interface (Go.elems nets)))).
Proof.
  intros Hd Hn.
  destruct mounts as [e|mountLines scanErr]; [discriminate Hd|].
  destruct netdev as [e|netLines [e|]]; try discriminate Hn.
  split.
  { destruct (GetDiskStats_inv _ _ _ _ Hd) as [Hnd Hreal].
    split; [exact Hnd|]. cbn [linesOf].
    eapply Forall_impl; [exact Hreal|]. apply fromRealFs_fromMountLine. }
  unfold GetNetworkStats in Hn. injection Hn as <-. cbn [linesOf].
  pose proof (fold_netLine_names (drop 2 netLines) None) as Heq.
  cbn [Go.elems map app] in Heq.
  split; [|split; [exact Heq | rewrite Heq; trivial]].
  apply Forall_forall. intros n Hin.
  assert (Hname : models.NetworkStats.Interface n
                  ∈ omap acceptedName (drop 2 netLines)).
  { rewrite <- Heq. apply list_elem_of_In, in_map, list_elem_of_In, Hin. }
  apply list_elem_of_omap in Hname as (line & _ & Hacc).
  exact (acceptedName_not_lo _ _ Hacc).
Qed.

Lemma Linux_enumeration_witness :
  GetDiskStats SampleOS.mounts SampleOS.statfs = Go.Ok (Some [SampleOS.rootEntry]) /\
  GetNetworkStats SampleOS.netdev = Go.Ok (Some [SampleOS.eth0Entry]) /\
  omap acceptedName (drop 2 (linesOf SampleOS.netdev)) = ["eth0"%string] /\
  NoDup (map models.DiskStats.Mountpoint [SampleOS.rootEntry]) /\
  NoDup (map models.NetworkStats.Interface [SampleOS.eth0Entry]).
Proof.
  assert (Hd : GetDiskStats SampleOS.mounts SampleOS.statfs
               = Go.Ok (Some [SampleOS.rootEntry])) by (vm_compute; reflexivity).
  assert (Hn : GetNetworkStats SampleOS.netdev = Go.Ok (Some [SampleOS.eth0Entry]))
    by (vm_compute; reflexivity).
  assert (Hacc : omap acceptedName (drop 2 (linesOf SampleOS.netdev))
                 = ["eth0"%string]) by (vm_compute; reflexivity).
  split; [exact Hd|]. split; [exact Hn|]. split; [exact Hacc|].
  destruct (Linux_enumeration _ _ _ _ _ Hd Hn) as [[Hnd _] (_ & _ & Hnn)].
  split; [exact Hnd|]. apply Hnn.
  rewrite Hacc. apply NoDup_singleton.
Defined.

(** C8, as stated, fails for the network query: the code has no
    check for names already seen, and a file that lists eth0 twice
    yields two entries named eth0. *)
Lemma GetNetworkStats_repeats_counterexample :
  GetNetworkStats SampleOS.netdevRepeated
    = Go.Ok (Some [SampleOS.eth0Entry; SampleOS.eth0Entry]) /\
  ~ NoDup (map models.NetworkStats.Interface [SampleOS.eth0Entry; SampleOS.eth0Entry]).
Proof.
  split; [vm_compute; reflexivity|].
  intros Hnd. apply NoDup_cons in Hnd as [Hnotin _].
  apply Hnotin. left.
Qed.

End LinuxLaws.

(** ** ValidateConfig *)

Section ConfigLaws.

Import config.

(** Comparing the other way round gives the opposite answer. *)
Lemma SFcompare_swap (x y : spec_float) :
  SFcompare y x = option_map CompOpp (SFcompare x y).
Proof.
  destruct x as [sx|sx| |sx mx ex], y as [sy|sy| |sy my ey];
    try reflexivity; try (destruct sx; reflexivity);
    try (destruct sy; reflexivity);
    try (destruct sx, sy; reflexivity).
  destruct sx, sy; try reflexivity; cbn [SFcompare option_map];
    rewrite (Z.compare_antisym ey ex); destruct (ey ?= ex); cbn [CompOpp];
    try reflexivity;
    rewrite (Pos.compare_cont_antisym mx my Eq); cbn [CompOpp];
    destruct (Pos.compare_cont Eq mx my); reflexivity.
Qed.

Lemma SFcompare_None (x y : spec_float) :
  SFcompare x y = None -> x = S754_nan \/ y = S754_nan.
Proof.
  destruct x as [sx|sx| |sx mx ex], y as [sy|sy| |sy my ey];
    cbn [SFcompare]; auto; try discriminate;
    try (destruct sx; discriminate); try (destruct sy; discriminate).
Qed.

(** [validateThreshold] accepts the values in range, and not-a-number. *)
Lemma validateThreshold_accepts name v :
  validateThreshold name v = None <-> thresholdInRange v \/ isNaN v.
Proof.
  unfold validateThreshold, thresholdInRange, isNaN,
    Go.f64_ltb, Go.f64_leb, SFltb, SFleb.
  rewrite (SFcompare_swap v Go.f64_zero), (SFcompare_swap v Go.f64_100).
  destruct (SFcompare v Go.f64_zero) as [c0|] eqn:H0.
  - destruct (SFcompare v Go.f64_100) as [c1|] eqn:H1.
    + assert (Hv : v <> S754_nan) by (intros ->; discriminate H0).
      destruct c0, c1; cbn [option_map CompOpp orb]; split;
        try discriminate; auto;
        intros [[Ha Hb]|Hn]; try discriminate; contradiction.
    + apply SFcompare_None in H1 as [->|Hn]; discriminate.
  - apply SFcompare_None in H0 as [->|Hn]; [|discriminate].
    cbn [SFcompare option_map orb]. split; auto.
Qed.

(** What [ValidateConfig] accepts, exactly. *)
Lemma ValidateConfig_accepts cfg :
  ValidateConfig cfg = None <->
  0 < Config.Interval cfg <= Go.Hour /\
  (thresholdInRange (Thresholds.CPU (Config.Thresholds cfg)) \/
   isNaN (Thresholds.CPU (Config.Thresholds cfg))) /\
  (thresholdInRange (Thresholds.Memory (Config.Thresholds cfg)) \/
   isNaN (Thresholds.Memory (Config.Thresholds cfg))) /\
  (thresholdInRange (Thresholds.Disk (Config.Thresholds cfg)) \/
   isNaN (Thresholds.Disk (Config.Thresholds cfg))).
Proof.
  unfold ValidateConfig.
  pose proof (validateThreshold_accepts "CPU"
                (Thresholds.CPU (Config.Thresholds cfg))) as Hc.
  pose proof (validateThreshold_accepts "Memory"
                (Thresholds.Memory (Config.Thresholds cfg))) as Hm.
  pose proof (validateThreshold_accepts "Disk"
                (Thresholds.Disk (Config.Thresholds cfg))) as Hd.
  rewrite Z.mul_1_l.
  destruct (Z.leb_spec (Config.Interval cfg) 0);
    [split; [discriminate | lia]|].
  destruct (Z.ltb_spec Go.Hour (Config.Interval cfg));
    [split; [discriminate | lia]|].
  destruct (validateThreshold "CPU" _);
    [split; [discriminate | intros (_ & Hx & _); apply Hc in Hx; discriminate]|].
  destruct (validateThreshold "Memory" _);
    [split; [discriminate | intros (_ & _ & Hx & _); apply Hm in Hx; discriminate]|].
  destruct (validateThreshold "Disk" _);
    [split; [discriminate | intros (_ & _ & _ & Hx); apply Hd in Hx; discriminate]|].
  split; [|reflexivity]. intros _.
  split; [lia|]. split; [apply Hc; reflexivity|].
  split; [apply Hm | apply Hd]; reflexivity.
Qed.

(** C9.  The code on a CPU threshold that is not a number: both
    comparisons of [validateThreshold] are false, and the
    configuration is accepted although the threshold is not in
    [0, 100]. *)
Theorem ValidateConfig_accepts_NaN :
  ValidateConfig nanConfig = None /\
  ~ thresholdInRange (Thresholds.CPU (Config.Thresholds nanConfig)).
Proof.
  split; [reflexivity|]. unfold thresholdInRange. simpl.
  intros [Hlo _]. discriminate Hlo.
Qed.

End ConfigLaws.

(** ** CalculatePercentage *)

Section PercentageTheorem.

(** C7.  For unsigned 64-bit [used] and [total]: when [total] is 0 the
    result is exactly 0; when [total > 0] and [used <= total] the
    result is [float64(used) / float64(total) * 100] and lies in
    [0, 100]. *)
Theorem CalculatePercentage_law (used total : Z) :
  Go.is_uint64 used -> Go.is_uint64 total ->
  (total = 0 -> models.CalculatePercentage used total = Go.f64_zero) /\
  (0 < total -> used <= total ->
   models.CalculatePercentage used total =
     Go.f64_mul (Go.f64_div (Go.f64_of_Z used) (Go.f64_of_Z total)) Go.f64_100 /\
   Go.f64_leb Go.f64_zero (models.CalculatePercentage used total) = true /\
   Go.f64_leb (models.CalculatePercentage used total) Go.f64_100 = true).
Proof.
  unfold Go.is_uint64. intros Hu Ht. unfold models.CalculatePercentage. split.
  - intros ->. reflexivity.
  - intros Hpos Hle. destruct (Z.eqb_spec total 0) as [|_]; [lia|].
    split; [reflexivity|]. apply percentage_in_range; unfold Go.two64 in *; lia.
Qed.

Lemma CalculatePercentage_law_witness :
  Go.is_uint64 8589934592 /\ Go.is_uint64 17179869184 /\
  models.CalculatePercentage 8589934592 17179869184 = stats.lit_50 /\
  Go.f64_leb Go.f64_zero (models.CalculatePercentage 8589934592 17179869184) = true /\
  Go.f64_leb (models.CalculatePercentage 8589934592 17179869184) Go.f64_100 = true.
Proof.
  assert (Hu : Go.is_uint64 8589934592) by (unfold Go.is_uint64, Go.two64; lia).
  assert (Ht : Go.is_uint64 17179869184) by (unfold Go.is_uint64, Go.two64; lia).
  split; [exact Hu|]. split; [exact Ht|].
  destruct (CalculatePercentage_law 8589934592 17179869184 Hu Ht) as [_ Hlaw].
  destruct Hlaw as (Heq & Hlo & Hhi); [lia | lia |].
  split; [rewrite Heq; vm_compute; reflexivity|]. split; [exact Hlo | exact Hhi].
Defined.

End PercentageTheorem.

(* ================================================================== *)
(** * Further properties *)
(* ================================================================== *)

(** ** MergeWithFlags *)

Section MergeFacts.

Import config.

Lemma ValidateConfig_None (cfg : Config.t) :
  ValidateConfig cfg = None <->
  0 < Config.Interval cfg <= Go.Hour /\
  validateThreshold "CPU" (Thresholds.CPU (Config.Thresholds cfg)) = None /\
  validateThreshold "Memory" (Thresholds.Memory (Config.Thresholds cfg)) = None /\
  validateThreshold "Disk" (Thresholds.Disk (Config.Thresholds cfg)) = None.
Proof.
  unfold ValidateConfig. rewrite Z.mul_1_l.
  destruct (Z.leb_spec (Config.Interval cfg) 0); [split; [discriminate | lia]|].
  destruct (Z.ltb_spec Go.Hour (Config.Interval cfg)); [split; [discriminate | lia]|].
  destruct (validateThreshold "CPU" _);
    [split; [discriminate | intros (_ & Hx & _); discriminate Hx]|].
  destruct (validateThreshold "Memory" _);
    [split; [discriminate | intros (_ & _ & Hx & _); discriminate Hx]|].
  destruct (validateThreshold "Disk" _);
    [split; [discriminate | intros (_ & _ & _ & Hx); discriminate Hx]|].
  split; [|reflexivity]. intros _. split; [lia | auto].
Qed.

(** The name only labels the error. *)
Lemma validateThreshold_name (n1 n2 : string) (v : Go.float64) :
  validateThreshold n1 v = None -> validateThreshold n2 v = None.
Proof.
  unfold validateThreshold. destruct (_ || _); [discriminate | reflexivity].
Qed.

Lemma positive_not_negative (x : Go.float64) :
  Go.f64_ltb Go.f64_zero x = true -> Go.f64_ltb x Go.f64_zero = false.
Proof.
  destruct x as [s|s| |s m e]; try discriminate; destruct s;
    try discriminate; reflexivity.
Qed.

Lemma mergedThreshold_valid (name : string) (flag old : Go.float64) :
  flagAtMost100 flag -> validateThreshold name old = None ->
  validateThreshold name (mergedThreshold flag old) = None.
Proof.
  unfold flagAtMost100, mergedThreshold. intros Hflag Hold.
  destruct (Go.f64_ltb Go.f64_zero flag) eqn:Hpos; [|exact Hold].
  unfold validateThreshold. rewrite (positive_not_negative _ Hpos), Hflag.
  reflexivity.
Qed.

End MergeFacts.

Section MergeLaws.

Import config.

(** X1.  On a configuration that validates, with an interval flag of
    at most one hour and threshold flags not above 100,
    [MergeWithFlags] succeeds; the result validates again; the interval
    and each threshold are the flag when the flag is above zero and
    the configuration's value otherwise (a zero, negative or
    not-a-number flag changes nothing), JSONMode is the flag, the log
    file is the flag unless it is empty, and ConfigFile is kept. *)
Theorem MergeWithFlags_succeeds
    (cfg : Config.t) (interval : Go.Duration) (jsonMode : bool)
    (logFile : string) (cpu mem disk : Go.float64) :
  ValidateConfig cfg = None ->
  interval <= Go.Hour ->
  flagAtMost100 cpu -> flagAtMost100 mem -> flagAtMost100 disk ->
  exists merged,
    MergeWithFlags cfg interval jsonMode logFile cpu mem disk = inl merged /\
    ValidateConfig merged = None /\
    Config.Interval merged =
      (if 0 <? interval then interval else Config.Interval cfg) /\
    Config.JSONMode merged = jsonMode /\
    Config.LogFile merged =
      (if Go.isEmpty logFile then Config.LogFile cfg else logFile) /\
    Config.ConfigFile merged = Config.ConfigFile cfg /\
    Thresholds.CPU (Config.Thresholds merged) =
      mergedThreshold cpu (Thresholds.CPU (Config.Thresholds cfg)) /\
    Thresholds.Memory (Config.Thresholds merged) =
      mergedThreshold mem (Thresholds.Memory (Config.Thresholds cfg)) /\
    Thresholds.Disk (Config.Thresholds merged) =
      mergedThreshold disk (Thresholds.Disk (Config.Thresholds cfg)).
Proof.
  intros Hcfg Hint Hcpu Hmem Hdisk.
  apply ValidateConfig_None in Hcfg as (Hi & Hc & Hm & Hd).
  unfold MergeWithFlags.
  fold (mergedThreshold cpu (Thresholds.CPU (Config.Thresholds cfg))).
  fold (mergedThreshold mem (Thresholds.Memory (Config.Thresholds cfg))).
  fold (mergedThreshold disk (Thresholds.Disk (Config.Thresholds cfg))).
  match goal with
  | |- context [ValidateConfig ?m] =>
      assert (Hv : ValidateConfig m = None)
  end.
  { apply ValidateConfig_None. cbn [Config.Interval Config.Thresholds
      Thresholds.CPU Thresholds.Memory Thresholds.Disk].
    split; [destruct (Z.ltb_spec 0 interval); lia|].
    split; [|split]; apply mergedThreshold_valid; assumption. }
  rewrite Hv. eexists. split; [reflexivity|]. split; [exact Hv|].
  cbn. repeat split; reflexivity.
Qed.

Lemma MergeWithFlags_succeeds_witness :
  ValidateConfig NewDefaultConfig = None /\
  exists merged,
    MergeWithFlags NewDefaultConfig (500 * 1000000) true "" lit_90
      (SFopp lit_80) Go.f64_zero = inl merged /\
    Config.Interval merged = 500 * 1000000 /\
    Thresholds.CPU (Config.Thresholds merged) = lit_90 /\
    Thresholds.Memory (Config.Thresholds merged) = lit_85 /\
    Thresholds.Disk (Config.Thresholds merged) = lit_90.
Proof.
  assert (Hv : ValidateConfig NewDefaultConfig = None) by reflexivity.
  split; [exact Hv|].
  destruct (MergeWithFlags_succeeds NewDefaultConfig (500 * 1000000) true ""
              lit_90 (SFopp lit_80) Go.f64_zero Hv)
    as (merged & Hm & _ & Hi & _ & _ & _ & Hc & Hme & Hd);
    [unfold Go.Hour, Go.Second; lia | reflexivity | reflexivity | reflexivity |].
  exists merged. split; [exact Hm|]. split; [exact Hi|].
  split; [exact Hc|]. split; [exact Hme | exact Hd].
Defined.

(** X2.  Merging is idempotent: merging the result with the same flags
    again returns the same configuration. *)
Theorem MergeWithFlags_idempotent
    (cfg merged : Config.t) (interval : Go.Duration) (jsonMode : bool)
    (logFile : string) (cpu mem disk : Go.float64) :
  MergeWithFlags cfg interval jsonMode logFile cpu mem disk = inl merged ->
  MergeWithFlags merged interval jsonMode logFile cpu mem disk = inl merged.
Proof.
  unfold MergeWithFlags.
  destruct (ValidateConfig _) as [e|] eqn:Hv; [discriminate|].
  intros [= <-]. cbn [Config.Interval Config.JSONMode Config.LogFile
    Config.ConfigFile Config.Thresholds Thresholds.CPU Thresholds.Memory
    Thresholds.Disk].
  match goal with
  | |- match ValidateConfig ?m with _ => _ end = inl ?m' =>
      assert (Heq : m = m')
  end.
  { destruct (0 <? interval), (Go.isEmpty logFile),
      (Go.f64_ltb Go.f64_zero cpu), (Go.f64_ltb Go.f64_zero mem),
      (Go.f64_ltb Go.f64_zero disk); reflexivity. }
  rewrite Heq, Hv. reflexivity.
Qed.

Lemma MergeWithFlags_idempotent_witness :
  exists merged,
    MergeWithFlags NewDefaultConfig 0 true "sysmon.log" lit_90 Go.f64_zero
      Go.f64_zero = inl merged /\
    MergeWithFlags merged 0 true "sysmon.log" lit_90 Go.f64_zero Go.f64_zero
      = inl merged.
Proof.
  eexists. split; [reflexivity|].
  apply (MergeWithFlags_idempotent NewDefaultConfig). reflexivity.
Defined.

(** X3.  Whatever the configuration, an interval flag above one hour
    is rejected with the interval error; and when the merged interval
    is fine, a CPU threshold flag above 100 is rejected with the CPU
    threshold error. *)
Theorem MergeWithFlags_rejects
    (cfg : Config.t) (interval : Go.Duration) (jsonMode : bool)
    (logFile : string) (cpu mem disk : Go.float64) :
  (Go.Hour < interval ->
   MergeWithFlags cfg interval jsonMode logFile cpu mem disk =
     inr (IntervalTooLarge interval)) /\
  (0 < (if 0 <? interval then interval else Config.Interval cfg) <= Go.Hour ->
   Go.f64_ltb Go.f64_100 cpu = true ->
   MergeWithFlags cfg interval jsonMode logFile cpu mem disk =
     inr (ThresholdOutOfRange "CPU" cpu)).
Proof.
  split.
  - intros Hbig. unfold MergeWithFlags, ValidateConfig.
    cbn [Config.Interval]. rewrite Z.mul_1_l.
    assert (Hpos : 0 < interval) by (unfold Go.Hour, Go.Second in Hbig; lia).
    destruct (Z.ltb_spec 0 interval); [|lia].
    destruct (Z.leb_spec interval 0); [lia|].
    destruct (Z.ltb_spec Go.Hour interval); [reflexivity | lia].
  - intros Hint Hcpu. unfold MergeWithFlags, ValidateConfig.
    cbn [Config.Interval Config.Thresholds Thresholds.CPU]. rewrite Z.mul_1_l.
    assert (Hi : exists i, (if 0 <? interval then interval else Config.Interval cfg) = i
                           /\ 0 < i <= Go.Hour)
      by (destruct (0 <? interval); eexists; (split; [reflexivity | exact Hint])).
    destruct Hi as (i & Ei & Hi). rewrite Ei.
    destruct (Z.leb_spec i 0); [lia|].
    destruct (Z.ltb_spec Go.Hour i); [lia|].
    assert (Hpos : Go.f64_ltb Go.f64_zero cpu = true).
    { destruct cpu as [s|s| |s m e]; try discriminate Hcpu;
        destruct s; try discriminate Hcpu; reflexivity. }
    rewrite Hpos. unfold validateThreshold.
    rewrite Hcpu, orb_true_r. reflexivity.
Qed.

Lemma MergeWithFlags_rejects_witness :
  Go.Hour < 2 * Go.Hour /\
  MergeWithFlags NewDefaultConfig (2 * Go.Hour) false "" Go.f64_zero
    Go.f64_zero Go.f64_zero = inr (IntervalTooLarge (2 * Go.Hour)).
Proof.
  assert (Hbig : Go.Hour < 2 * Go.Hour) by (unfold Go.Hour, Go.Second; lia).
  split; [exact Hbig|].
  apply (MergeWithFlags_rejects NewDefaultConfig (2 * Go.Hour) false ""
           Go.f64_zero Go.f64_zero Go.f64_zero). exact Hbig.
Defined.

End MergeLaws.

(** ** More about the cycle *)

Section CycleFacts.
Context {P : Type} `{SystemStatsProvider P}.

Lemma clampRate_not_negative (rate : Go.float64) :
  Go.f64_ltb (clampRate rate) Go.f64_zero = false.
Proof.
  unfold clampRate. destruct (Go.f64_ltb rate Go.f64_zero) eqn:E;
    [reflexivity | exact E].
Qed.

Lemma ratesNotNegative_rateEntry prevMap timeDelta curr :
  ratesNotNegative curr -> ratesNotNegative (rateEntry prevMap timeDelta curr).
Proof.
  intros Hc. unfold rateEntry.
  destruct (prevMap !! models.NetworkStats.Interface curr); [|exact Hc].
  unfold ratesNotNegative. cbn [models.NetworkStats.SendRate models.NetworkStats.RecvRate].
  split.
  - destruct (Go.f64_ltb (Go.f64_div _ timeDelta) Go.f64_zero) eqn:E;
      [reflexivity | exact E].
  - destruct (Go.f64_ltb
                (Go.f64_div (Go.f64_of_Z (Go.sub64 (models.NetworkStats.BytesRecv curr) _)) timeDelta)
                Go.f64_zero) eqn:E; [reflexivity | exact E].
Qed.

(** A source whose successful CPU and memory answers are never nil
    cannot make [Collect] panic. *)
Lemma Collect_returns (c : Collector P) start now :
  (forall p, (GetCPUStats p).1 <> Go.Ok None) ->
  (forall p, (GetMemoryStats p).1 <> Go.Ok None) ->
  exists r, Collect c start now = Go.Returned r.
Proof.
  intros Hcpu Hmem. unfold Collect, andThen, deref.
  pose proof (Hcpu (provider c)) as H1.
  destruct (GetCPUStats (provider c)) as [[[?cpu|]|?e] p1]; cbn [fst] in H1;
    try (elim H1; reflexivity);
    pose proof (Hmem p1) as H2;
    destruct (GetMemoryStats p1) as [[[?mem|]|?e] p2]; cbn [fst] in H2;
    try (elim H2; reflexivity);
    destruct (GetDiskStats p2) as [[?disk|?e] p3];
    destruct (GetNetworkStats p3) as [[?net|?e] p4]; eexists; reflexivity.
Qed.

End CycleFacts.

Section CycleLaws.

(** X4.  What [calculateNetworkRates] does to every sample, whatever
    the clock does.  Without an earlier sample, or with a time
    difference equal to zero, the samples are returned as they came.
    Otherwise a sample whose interface has an earlier sample keeps
    its counters and gets as rates the quotients of the counter
    differences and the time difference or, where a quotient is below
    zero, 0, so that neither rate is below zero; a sample of an
    unknown interface is passed on unchanged.  Hence no rate below
    zero is reported for samples that come without one. *)
Theorem calculateNetworkRates_never_negative
    (P : Type) (SP : SystemStatsProvider P)
    (c : Collector P) (now : Go.Time)
    (current : Go.slice models.NetworkStats.t) :
  (computesRates c now = false ->
   calculateNetworkRates c now current = current) /\
  (computesRates c now = true ->
   Forall2
     (fun curr out =>
        match buildPrevMap (Go.elems (prevNet c))
                !! models.NetworkStats.Interface curr with
        | Some prev =>
            ratedAgainst (timeDelta c now) prev curr out /\ ratesNotNegative out
        | None => out = curr
        end)
     (Go.elems current) (Go.elems (calculateNetworkRates c now current))) /\
  (Forall ratesNotNegative (Go.elems current) ->
   Forall ratesNotNegative (Go.elems (calculateNetworkRates c now current))).
Proof.
  unfold computesRates, calculateNetworkRates, timeDelta.
  destruct (prevNet c) as [[|p prev]|] eqn:Hprev;
    try (split; [reflexivity | split; [discriminate | trivial]]).
  destruct (Go.f64_eqb _ Go.f64_zero) eqn:Hz; cbn [negb];
    [split; [reflexivity | split; [discriminate | trivial]]|].
  split; [discriminate|]. cbn [Go.elems]. split.
  - intros _. induction (Go.elems current) as [|x l IH]; [constructor|].
    cbn [map]. constructor; [|exact IH].
    unfold rateEntry.
    destruct (buildPrevMap (p :: prev) !! models.NetworkStats.Interface x)
      as [q|]; [|reflexivity].
    split; [split; [repeat split; reflexivity | split; reflexivity]|].
    split; apply clampRate_not_negative.
  - intros Hcur. induction Hcur as [|x l Hx _ IH]; cbn [map]; constructor;
      [apply ratesNotNegative_rateEntry, Hx | exact IH].
Qed.

Lemma calculateNetworkRates_never_negative_witness :
  computesRates (Sample.sampled 1000 2000 (2 * Sample.oneSecond))
    Sample.oneSecond = true /\
  exists out,
    calculateNetworkRates (Sample.sampled 1000 2000 (2 * Sample.oneSecond))
      Sample.oneSecond
      (Some [Sample.eth0 1500 2500 Sample.f64_500 Sample.f64_500])
    = Some [out] /\
    models.NetworkStats.SendRate out = Go.f64_zero /\
    models.NetworkStats.RecvRate out = Go.f64_zero /\
    ratesNotNegative out.
Proof.
  assert (Hc : computesRates (Sample.sampled 1000 2000 (2 * Sample.oneSecond))
                 Sample.oneSecond = true) by (vm_compute; reflexivity).
  split; [exact Hc|].
  destruct (calculateNetworkRates_never_negative _ _
              (Sample.sampled 1000 2000 (2 * Sample.oneSecond)) Sample.oneSecond
              (Some [Sample.eth0 1500 2500 Sample.f64_500 Sample.f64_500]))
    as (_ & Hrated & _).
  specialize (Hrated Hc).
  destruct (calculateNetworkRates _ _ _) as [[|out [|out' outs]]|] eqn:Hout;
    try (vm_compute in Hout; discriminate Hout).
  exists out. split; [reflexivity|].
  cbn [Go.elems] in Hrated. apply Forall2_cons in Hrated as [Hx _].
  assert (Hl : buildPrevMap
                 (Go.elems (prevNet (Sample.sampled 1000 2000 (2 * Sample.oneSecond))))
                 !! models.NetworkStats.Interface
                      (Sample.eth0 1500 2500 Sample.f64_500 Sample.f64_500)
               = Some (Sample.eth0 1000 2000 Go.f64_zero Go.f64_zero))
    by (vm_compute; reflexivity).
  rewrite Hl in Hx. destruct Hx as [(_ & Hs & Hr) Hnn].
  split; [rewrite Hs; vm_compute; reflexivity|].
  split; [rewrite Hr; vm_compute; reflexivity | exact Hnn].
Defined.

(** X5.  A cycle whose network query fails is transparent to the rate
    computation: the next cycle that gets network data, on whatever
    the source has become, computes its rates against the sample and
    the time the collector held before the failed cycle. *)
Theorem failed_cycle_keeps_baseline
    (P : Type) (SP : SystemStatsProvider P)
    (c : Collector P) (start now start' now' : Go.Time)
    (r r' : Collected P) (e : Go.error) (p' : P)
    (net : Go.slice models.NetworkStats.t) :
  Collect c start now = Go.Returned r ->
  networkQuery c = Go.Err e ->
  Collect (mkCollector p' (prevNet (after r)) (prevTime (after r))) start' now'
    = Go.Returned r' ->
  networkQuery (mkCollector p' (prevNet (after r)) (prevTime (after r)))
    = Go.Ok net ->
  models.Metrics.Network (metrics r') =
    match prevNet c with
    | Some _ => calculateNetworkRates c now' net
    | None => net
    end /\
  timeDelta (mkCollector p' (prevNet (after r)) (prevTime (after r))) now'
    = timeDelta c now'.
Proof.
  intros Hrun Herr Hrun' Hok.
  destruct (Collect_network_err c start now r e Hrun Herr)
    as (_ & _ & Hpn & Hpt & _).
  destruct (Collect_network_ok _ start' now' r' net Hrun' Hok) as (Hnet & _).
  cbn [prevNet] in Hnet.
  assert (Hcalc :
    calculateNetworkRates
      (mkCollector p' (prevNet (after r)) (prevTime (after r))) now' net
    = calculateNetworkRates c now' net)
    by (apply calculateNetworkRates_rate_state; cbn [prevNet prevTime]; assumption).
  rewrite Hnet, Hcalc, Hpn. split; [reflexivity|].
  unfold timeDelta. cbn [prevTime]. rewrite Hpt. reflexivity.
Qed.

Lemma failed_cycle_keeps_baseline_witness :
  exists r r',
    Collect SampleFailures.sampled Sample.oneSecond Sample.oneSecond
      = Go.Returned r /\
    networkQuery SampleFailures.sampled = Go.Err "network unavailable"%string /\
    Collect (mkCollector stats.NewMockStatsProvider
               (prevNet (after r)) (prevTime (after r)))
      (2 * Sample.oneSecond) (2 * Sample.oneSecond) = Go.Returned r' /\
    models.Metrics.Network (metrics r') =
      Some [Sample.eth0 (1024 * 1024 * 100) (1024 * 1024 * 200)
              SampleFailures.f64_MiB SampleFailures.f64_2MiB].
Proof.
  destruct (Collect SampleFailures.sampled Sample.oneSecond Sample.oneSecond)
    as [r|] eqn:Hrun; [|vm_compute in Hrun; discriminate Hrun].
  destruct (Collect (mkCollector stats.NewMockStatsProvider
                       (prevNet (after r)) (prevTime (after r)))
              (2 * Sample.oneSecond) (2 * Sample.oneSecond))
    as [r'|] eqn:Hrun'.
  - exists r, r'. split; [reflexivity|]. split; [reflexivity|].
    split; [exact Hrun'|].
    destruct (failed_cycle_keeps_baseline _ _ SampleFailures.sampled
                Sample.oneSecond Sample.oneSecond
                (2 * Sample.oneSecond) (2 * Sample.oneSecond) r r'
                "network unavailable"%string stats.NewMockStatsProvider
                (stats.MockStatsProvider.NetStats stats.NewMockStatsProvider)
                Hrun eq_refl Hrun' eq_refl) as [Hnet _].
    rewrite Hnet. vm_compute. reflexivity.
  - exfalso. unfold Collect in Hrun'. cbn in Hrun'. discriminate Hrun'.
Defined.

(** X6.  A returning cycle asks the four queries once each, in the
    order CPU, memory, disk, network, each on the source as the
    previous query left it; it logs one warning line for every query
    that failed, in that order, and nothing else. *)
Theorem Collect_queries_and_log
    (P : Type) (SP : SystemStatsProvider P)
    (c : Collector P) (start now : Go.Time) (r : Collected P) :
  Collect c start now = Go.Returned r ->
  logged r =
    warningOf "CPU" (GetCPUStats (provider c)).1 ++
    warningOf "Memory" (GetMemoryStats (providerAtMemory c)).1 ++
    warningOf "Disk" (GetDiskStats (providerAtDisk c)).1 ++
    warningOf "Network" (networkQuery c) /\
  provider (after r) = (GetNetworkStats (providerAtNetwork c)).2.
Proof.
  intros Hrun.
  unfold networkQuery, providerAtNetwork, providerAtDisk, providerAtMemory in *.
  unfold Collect, andThen, deref in Hrun.
  destruct (GetCPUStats _) as [[[?cpu|]|?e] ?p]; cbn [fst snd] in *;
    try discriminate Hrun;
    destruct (GetMemoryStats _) as [[[?mem|]|?e] ?p]; cbn [fst snd] in *;
    try discriminate Hrun;
    destruct (GetDiskStats _) as [[?disk|?e] ?p]; cbn [fst snd] in *;
    destruct (GetNetworkStats _) as [[?net|?e] ?p]; cbn [fst snd] in *;
    injection Hrun as <-; cbn [logged after provider warningOf app];
    rewrite ?app_nil_r; split; reflexivity.
Qed.

Lemma Collect_queries_and_log_witness :
  exists r,
    Collect (mkCollector SampleCycles.cpuFails None 0) 10 11 = Go.Returned r /\
    logged r = ["Warning: CPU collection failed: cpu unavailable"%string] /\
    provider (after r) = SampleCycles.cpuFails.
Proof.
  destruct (Collect (mkCollector SampleCycles.cpuFails None 0) 10 11)
    as [r|] eqn:Hrun; [|vm_compute in Hrun; discriminate Hrun].
  exists r. split; [reflexivity|].
  destruct (Collect_queries_and_log _ _ _ 10 11 r Hrun) as [Hlog Hp].
  split; [rewrite Hlog; reflexivity | rewrite Hp; reflexivity].
Defined.

End CycleLaws.

(** ** More about the Linux source *)

Section LinuxSourceFacts.

Import stats.Linux.

Lemma add64_exact (a b : Z) :
  0 <= a -> 0 <= b -> a + b < Go.two64 -> Go.add64 a b = a + b.
Proof.
  intros Ha Hb Hlt. unfold Go.add64. apply wrap64_small.
  unfold Go.is_uint64. lia.
Qed.

Lemma zero_thresholdInRange : thresholdInRange Go.f64_zero.
Proof. split; reflexivity. Qed.

Lemma CalculatePercentage_in_range (used total : Z) :
  0 <= used <= total -> total < Go.two64 ->
  thresholdInRange (models.CalculatePercentage used total).
Proof.
  intros Hu Ht. unfold models.CalculatePercentage.
  destruct (Z.eqb_spec total 0) as [_|Hnz]; [apply zero_thresholdInRange|].
  apply percentage_in_range; unfold Go.two64 in *; lia.
Qed.

(** *** /proc/stat *)

Lemma totalTime_exact (t : cpuTime) :
  0 <= user t -> 0 <= nice t -> 0 <= system t -> 0 <= idle t ->
  0 <= iowait t -> 0 <= irq t -> 0 <= softirq t ->
  user t + nice t + system t + idle t + iowait t + irq t + softirq t < Go.two64 ->
  totalTime t =
    user t + nice t + system t + idle t + iowait t + irq t + softirq t /\
  idleTime t = idle t + iowait t.
Proof.
  intros. unfold totalTime, idleTime.
  rewrite (add64_exact (user t) (nice t)) by lia.
  rewrite (add64_exact _ (system t)) by lia.
  rewrite (add64_exact _ (idle t)) by lia.
  rewrite (add64_exact _ (iowait t)) by lia.
  rewrite (add64_exact _ (irq t)) by lia.
  rewrite (add64_exact _ (softirq t)) by lia.
  rewrite (add64_exact (idle t) (iowait t)) by lia.
  split; reflexivity.
Qed.

Lemma appendAll_elems {A} (s : Go.slice A) (l : list A) :
  Go.elems (appendAll s l) = Go.elems s ++ l.
Proof.
  unfold appendAll. revert s. induction l as [|x l IH]; intros s; simpl.
  - rewrite app_nil_r. reflexivity.
  - rewrite IH. simpl. rewrite <- app_assoc. reflexivity.
Qed.

(** The ways [GetCPUStats] ends: an error and the provider as it
    was, or a value and the provider holding the samples just read. *)
Lemma GetCPUStats_cases (p : LinuxStatsProvider.t) (statFile : File) :
  (exists e, GetCPUStats p statFile = (Go.Err e, p)) \/
  (exists v c0 cs,
     GetCPUStats p statFile =
       (Go.Ok (Some v), {| LinuxStatsProvider.prevCPUTimes := Some (c0 :: cs) |}) /\
     Go.elems (fold_left cpuLine (linesOf statFile) None) = c0 :: cs /\
     length (Go.elems (models.CPUStats.PerCore v)) = length cs /\
     (LinuxStatsProvider.prevCPUTimes p = None ->
      models.CPUStats.Overall v = Go.f64_zero /\
      Forall (fun x => x = Go.f64_zero) (Go.elems (models.CPUStats.PerCore v)))).
Proof.
  unfold GetCPUStats. destruct statFile as [e|lines [e|]]; [eauto | eauto |].
  cbn [linesOf].
  destruct (fold_left cpuLine lines None) as [[|c0 cs]|] eqn:Hcur; cbn [Go.elems];
    [eauto | | eauto].
  right. eexists _, c0, cs. split; [reflexivity|]. split; [reflexivity|].
  destruct (LinuxStatsProvider.prevCPUTimes p) as [[|p0 ps]|] eqn:Hprev.
  - cbn [models.CPUStats.PerCore models.CPUStats.Overall].
    rewrite appendAll_elems. simpl. rewrite length_map.
    split; [reflexivity|]. intros Hnil; discriminate Hnil.
  - destruct (Nat.eqb_spec (length ps) (length cs)) as [Hlen|Hlen];
      cbn [models.CPUStats.PerCore models.CPUStats.Overall];
      rewrite appendAll_elems; simpl.
    + rewrite length_zip_with, Hlen, Nat.min_id.
      split; [reflexivity|]. intros Hnil; discriminate Hnil.
    + rewrite length_map. split; [reflexivity|]. intros Hnil; discriminate Hnil.
  - cbn [models.CPUStats.PerCore models.CPUStats.Overall].
    rewrite appendAll_elems. simpl. rewrite length_map.
    split; [reflexivity|]. intros _. split; [reflexivity|].
    apply Forall_forall. intros x Hx.
    apply list_elem_of_In, in_map_iff in Hx as (y & <- & _). reflexivity.
Qed.

Lemma GetCPUStats_not_nil (p : LinuxStatsProvider.t) (statFile : File) :
  (GetCPUStats p statFile).1 <> Go.Ok None.
Proof.
  destruct (GetCPUStats_cases p statFile) as [(e & ->) | (v & c0 & cs & -> & _)];
    discriminate.
Qed.

Lemma GetMemoryStats_not_nil (meminfoFile : File) :
  GetMemoryStats meminfoFile <> Go.Ok None.
Proof. unfold GetMemoryStats. destruct meminfoFile as [e|lines [e|]]; discriminate. Qed.

(** *** /proc/meminfo *)

Lemma memValue_snoc key lines line :
  memValue key (lines ++ [line]) =
    match memValueOf key line with
    | Some v => v
    | None => memValue key lines
    end.
Proof.
  unfold memValue. rewrite omap_app. simpl.
  destruct (memValueOf key line) as [v|]; simpl.
  - rewrite last_snoc. reflexivity.
  - rewrite app_nil_r. reflexivity.
Qed.

(** The loop over /proc/meminfo keeps, for each of its five keys, the
    value of the last line that carries it. *)
Lemma fold_memLine lines :
  fold_left memLine lines (mkMeminfo 0 0 0 0 0) =
    mkMeminfo (memValue "MemTotal" lines) (memValue "MemFree" lines)
      (memValue "MemAvailable" lines) (memValue "Buffers" lines)
      (memValue "Cached" lines).
Proof.
  induction lines as [|line lines IH] using rev_ind; [reflexivity|].
  rewrite fold_left_app, IH. cbn [fold_left]. rewrite !memValue_snoc.
  unfold memLine, memValueOf, memEntry.
  cbn [memTotal memFree memAvailable buffers cached].
  destruct (Go.Fields line) as [|f0 [|f1 rest]]; try reflexivity.
  destruct (String.eqb_spec (Go.TrimSuffix f0 ":") "MemTotal") as [->|_];
    [reflexivity|].
  destruct (String.eqb_spec (Go.TrimSuffix f0 ":") "MemFree") as [->|_];
    [reflexivity|].
  destruct (String.eqb_spec (Go.TrimSuffix f0 ":") "MemAvailable") as [->|_];
    [reflexivity|].
  destruct (String.eqb_spec (Go.TrimSuffix f0 ":") "Buffers") as [->|_];
    [reflexivity|].
  destruct (String.eqb (Go.TrimSuffix f0 ":") "Cached"); reflexivity.
Qed.

Lemma fold_memLine_inRange lines :
  meminfoInRange (fold_left memLine lines (mkMeminfo 0 0 0 0 0)).
Proof.
  apply (fold_left_preserves memLine meminfoInRange).
  - intros x a _. apply memLine_inRange.
  - unfold meminfoInRange, Go.is_uint64. simpl. repeat split; reflexivity || lia.
Qed.

(** *** /proc/mounts *)

Lemma diskLine_complete statfs st line :
  diskComplete statfs st ->
  diskComplete statfs (diskLine statfs st line) /\
  st.2 ⊆ (diskLine statfs st line).2 /\
  (forall mp, mountOf line = Some mp -> mp ∈ (diskLine statfs st line).2).
Proof.
  destruct st as [stats seen]. intros [Hsound Hcompl].
  unfold diskLine, mountOf. cbn [fst snd] in *.
  destruct (Go.Fields line) as [|dev [|mp [|fstype rest]]];
    try (split; [split; assumption|]; split; [reflexivity | discriminate]).
  destruct (isSpecialFs fstype);
    [split; [split; assumption|]; split; [reflexivity | discriminate]|].
  case_bool_decide as Hseen.
  { split; [split; assumption|]. split; [reflexivity|].
    intros mp' [= <-]. exact Hseen. }
  destruct (statfs mp) as [stat|] eqn:Hstat; cbn [fst snd].
  - split; [split|split; [set_solver | intros mp' [= <-]; set_solver]].
    + cbn [Go.append Go.elems]. apply Forall_app. split; [exact Hsound|].
      constructor; [|constructor]. exists stat. split; [exact Hstat | reflexivity].
    + intros mp' stat' Hin Hstat'. cbn [fst snd Go.append Go.elems] in *.
      apply elem_of_app. apply elem_of_union in Hin as [Hin|Hin].
      * apply elem_of_singleton in Hin. subst mp'.
        rewrite Hstat in Hstat'. injection Hstat' as <-. right. left.
      * left. apply (Hcompl mp' stat' Hin Hstat').
  - split; [split|split; [set_solver | intros mp' [= <-]; set_solver]].
    + exact Hsound.
    + intros mp' stat' Hin Hstat'. cbn [fst snd] in *.
      apply elem_of_union in Hin as [Hin|Hin].
      * apply elem_of_singleton in Hin. subst mp'. congruence.
      * apply (Hcompl mp' stat' Hin Hstat').
Qed.

Lemma fold_diskLine_complete statfs lines st :
  diskComplete statfs st ->
  diskComplete statfs (fold_left (diskLine statfs) lines st) /\
  st.2 ⊆ (fold_left (diskLine statfs) lines st).2 /\
  (forall line mp, line ∈ lines -> mountOf line = Some mp ->
     mp ∈ (fold_left (diskLine statfs) lines st).2).
Proof.
  revert st. induction lines as [|l lines IH]; intros st Hst; cbn [fold_left].
  - split; [exact Hst|]. split; [reflexivity|].
    intros line mp Hin. apply elem_of_nil in Hin. destruct Hin.
  - destruct (diskLine_complete statfs st l Hst) as (Hst1 & Hsub1 & Hl).
    destruct (IH _ Hst1) as (Hst2 & Hsub2 & Hrest).
    split; [exact Hst2|]. split; [etrans; [exact Hsub1 | exact Hsub2]|].
    intros line mp Hin Hmp. apply elem_of_cons in Hin as [->|Hin].
    + apply Hsub2, Hl, Hmp.
    + apply (Hrest line mp Hin Hmp).
Qed.

Lemma GetDiskStats_complete mounts statfs disks :
  GetDiskStats mounts statfs = Go.Ok disks ->
  Forall (fromStatfs statfs) (Go.elems disks) /\
  (forall line mp stat,
     line ∈ linesOf mounts -> mountOf line = Some mp -> statfs mp = Some stat ->
     diskEntry mp stat ∈ Go.elems disks).
Proof.
  unfold GetDiskStats. destruct mounts as [e|lines scanErr]; [discriminate|].
  cbn [linesOf].
  destruct (fold_diskLine_complete statfs lines (None, ∅))
    as ([Hsound Hcompl] & _ & Hseen).
  { split; [constructor|]. intros mp stat Hin. set_solver. }
  destruct (fold_left (diskLine statfs) lines (None, ∅)) as [stats seen].
  destruct scanErr; [discriminate|]. intros [= <-]. cbn [fst snd] in *.
  split; [exact Hsound|].
  intros line mp stat Hin Hmp Hstat. apply (Hcompl mp stat); [|exact Hstat].
  apply (Hseen line mp Hin Hmp).
Qed.

Lemma diskEntry_plausible mountpoint stat :
  plausible stat ->
  let d := diskEntry mountpoint stat in
  models.DiskStats.Total d = Blocks stat * Bsize stat /\
  models.DiskStats.Used d = (Blocks stat - Bfree stat) * Bsize stat /\
  thresholdInRange (models.DiskStats.Percent d).
Proof.
  intros (Hbs & Hfree & Hfit). unfold diskEntry.
  cbn [models.DiskStats.Total models.DiskStats.Used models.DiskStats.Percent].
  assert (Hmax : Go.maxInt64 < Go.two64) by reflexivity.
  rewrite (wrap64_small (Bsize stat)) by (unfold Go.is_uint64; lia).
  assert (Hff : 0 <= Bfree stat * Bsize stat <= Blocks stat * Bsize stat)
    by (split; [apply Z.mul_nonneg_nonneg; lia
               | apply Z.mul_le_mono_nonneg_r; lia]).
  unfold Go.mul64.
  rewrite (wrap64_small (Blocks stat * Bsize stat)) by (unfold Go.is_uint64; lia).
  rewrite (wrap64_small (Bfree stat * Bsize stat)) by (unfold Go.is_uint64; lia).
  rewrite sub64_exact by (unfold Go.is_uint64; lia).
  replace (Blocks stat * Bsize stat - Bfree stat * Bsize stat)
    with ((Blocks stat - Bfree stat) * Bsize stat) by lia.
  split; [reflexivity|]. split; [reflexivity|].
  apply CalculatePercentage_in_range; lia.
Qed.

End LinuxSourceFacts.

Section LinuxSourceLaws.

Import stats.Linux.

(** X7.  [GetCPUStats] replaces the samples the provider keeps only
    when it succeeds: after an error the provider is as it was; after
    a success the value is not nil, the provider holds the samples
    just read, there is at least one, and one percentage is reported
    for every sample after the first. *)
Theorem GetCPUStats_state (p : LinuxStatsProvider.t) (statFile : File) :
  match (GetCPUStats p statFile).1 with
  | Go.Err _ => (GetCPUStats p statFile).2 = p
  | Go.Ok v =>
      exists stats c0 cs,
        v = Some stats /\
        Go.elems (fold_left cpuLine (linesOf statFile) None) = c0 :: cs /\
        LinuxStatsProvider.prevCPUTimes (GetCPUStats p statFile).2 = Some (c0 :: cs) /\
        Go.len (models.CPUStats.PerCore stats) = length cs
  end.
Proof.
  destruct (GetCPUStats_cases p statFile)
    as [(e & ->) | (v & c0 & cs & -> & Hcur & Hlen & _)]; cbn [fst snd].
  - reflexivity.
  - exists v, c0, cs. repeat split; assumption.
Qed.

(** X8.  Between two samples whose counters did not go back and add
    up without overflow, [calculateCPUPercent] lies in [0, 100]. *)
Theorem calculateCPUPercent_in_range (prev curr : cpuTime) :
  countersAdvance prev curr ->
  thresholdInRange (calculateCPUPercent prev curr).
Proof.
  intros [(Hu & Hn & Hs & Hi & Hw & Hq & Hsq) Hsum].
  destruct (totalTime_exact curr) as [Htc Hic]; try lia.
  destruct (totalTime_exact prev) as [Htp Hip]; try lia.
  unfold calculateCPUPercent. cbv zeta. rewrite Htc, Htp, Hic, Hip.
  set (Tc := user curr + nice curr + system curr + idle curr + iowait curr +
             irq curr + softirq curr) in *.
  set (Tp := user prev + nice prev + system prev + idle prev + iowait prev +
             irq prev + softirq prev) in *.
  assert (HTp : 0 <= Tp <= Tc) by (subst Tc Tp; lia).
  rewrite (sub64_exact Tc Tp) by (unfold Go.is_uint64; lia).
  rewrite (sub64_exact (idle curr + iowait curr) (idle prev + iowait prev))
    by (unfold Go.is_uint64; subst Tc; lia).
  assert (Hid : idle curr + iowait curr - (idle prev + iowait prev) <= Tc - Tp)
    by (subst Tc Tp; lia).
  rewrite (sub64_exact (Tc - Tp)) by (unfold Go.is_uint64; lia).
  destruct (Z.eqb_spec (Tc - Tp) 0) as [_|Hnz]; [apply zero_thresholdInRange|].
  apply percentage_in_range; unfold Go.two64 in *; lia.
Qed.

Lemma calculateCPUPercent_in_range_witness :
  countersAdvance SampleCPU.before SampleCPU.later /\
  calculateCPUPercent SampleCPU.before SampleCPU.later = SampleCPU.f64_20 /\
  thresholdInRange (calculateCPUPercent SampleCPU.before SampleCPU.later).
Proof.
  assert (Hadv : countersAdvance SampleCPU.before SampleCPU.later)
    by (unfold countersAdvance, Go.two64; simpl; lia).
  split; [exact Hadv|]. split; [vm_compute; reflexivity|].
  apply (calculateCPUPercent_in_range SampleCPU.before SampleCPU.later Hadv).
Defined.

(** X9.  [GetMemoryStats] reads every one of its five keys from the
    last line of /proc/meminfo that carries it, whatever the order of
    the lines, and takes 0 for a key that no line carries; the
    available memory is the value of MemAvailable or, when that is 0,
    the sum of MemFree, Buffers and Cached in uint64 arithmetic. *)
Theorem GetMemoryStats_reads_last_lines
    (meminfoFile : File) (m : models.MemoryStats.t) :
  GetMemoryStats meminfoFile = Go.Ok (Some m) ->
  let value key := memValue key (linesOf meminfoFile) in
  models.MemoryStats.Total m = value "MemTotal"%string /\
  models.MemoryStats.Available m =
    (if value "MemAvailable"%string =? 0
     then Go.add64 (Go.add64 (value "MemFree"%string) (value "Buffers"%string))
                   (value "Cached"%string)
     else value "MemAvailable"%string).
Proof.
  unfold GetMemoryStats. destruct meminfoFile as [e|lines [e|]]; try discriminate.
  rewrite fold_memLine. intros [= <-]. cbn [linesOf]. split; reflexivity.
Qed.

Lemma GetMemoryStats_reads_last_lines_witness :
  exists m,
    GetMemoryStats SampleCPU.meminfoOld = Go.Ok (Some m) /\
    models.MemoryStats.Total m = 16000000 * 1024 /\
    models.MemoryStats.Available m = 4000000 * 1024.
Proof.
  destruct (GetMemoryStats SampleCPU.meminfoOld) as [[m|]|e] eqn:Hget;
    try (vm_compute in Hget; discriminate Hget).
  exists m. split; [reflexivity|].
  destruct (GetMemoryStats_reads_last_lines SampleCPU.meminfoOld m Hget)
    as [Htotal Havail].
  split; [rewrite Htotal | rewrite Havail]; vm_compute; reflexivity.
Defined.

(** X10.  When the available memory that [GetMemoryStats] reports
    does not exceed the total, the used memory is their difference
    and the percentage lies in [0, 100]. *)
Theorem GetMemoryStats_in_range
    (meminfoFile : File) (m : models.MemoryStats.t) :
  GetMemoryStats meminfoFile = Go.Ok (Some m) ->
  models.MemoryStats.Available m <= models.MemoryStats.Total m ->
  models.MemoryStats.Used m =
    models.MemoryStats.Total m - models.MemoryStats.Available m /\
  thresholdInRange (models.MemoryStats.Percent m).
Proof.
  unfold GetMemoryStats. destruct meminfoFile as [e|lines [e|]]; try discriminate.
  pose proof (fold_memLine_inRange lines) as (Ht & Hf & Ha & Hb & Hc).
  set (st := fold_left memLine lines (mkMeminfo 0 0 0 0 0)) in *.
  intros [= <-].
  cbn [models.MemoryStats.Total models.MemoryStats.Used
       models.MemoryStats.Available models.MemoryStats.Percent].
  set (available := if memAvailable st =? 0
                    then Go.add64 (Go.add64 (memFree st) (buffers st)) (cached st)
                    else memAvailable st).
  assert (Hav : Go.is_uint64 available).
  { subst available. destruct (memAvailable st =? 0); [apply wrap64_range | exact Ha]. }
  intros Hle. rewrite (sub64_exact _ _ Ht Hav Hle). split; [reflexivity|].
  unfold Go.is_uint64 in *. apply CalculatePercentage_in_range; lia.
Qed.

Lemma GetMemoryStats_in_range_witness :
  exists m,
    GetMemoryStats SampleCPU.meminfo = Go.Ok (Some m) /\
    models.MemoryStats.Available m <= models.MemoryStats.Total m /\
    models.MemoryStats.Used m = 12000000 * 1024 /\
    models.MemoryStats.Percent m = SampleCPU.lit_75 /\
    thresholdInRange (models.MemoryStats.Percent m).
Proof.
  destruct (GetMemoryStats SampleCPU.meminfo) as [[m|]|e] eqn:Hget;
    try (vm_compute in Hget; discriminate Hget).
  exists m. split; [reflexivity|].
  assert (Hm : Some m = Some
            {| models.MemoryStats.Total := 16384000000;
               models.MemoryStats.Used := 12288000000;
               models.MemoryStats.Available := 4096000000;
               models.MemoryStats.Percent := SampleCPU.lit_75 |}).
  { assert (Hv : GetMemoryStats SampleCPU.meminfo = Go.Ok (Some
            {| models.MemoryStats.Total := 16384000000;
               models.MemoryStats.Used := 12288000000;
               models.MemoryStats.Available := 4096000000;
               models.MemoryStats.Percent := SampleCPU.lit_75 |}))
      by (vm_compute; reflexivity).
    rewrite Hget in Hv. injection Hv as ->. reflexivity. }
  injection Hm as Hm.
  assert (Hle : models.MemoryStats.Available m <= models.MemoryStats.Total m)
    by (rewrite Hm; simpl; lia).
  split; [exact Hle|].
  destruct (GetMemoryStats_in_range SampleCPU.meminfo m Hget Hle) as [Hused Hrange].
  split; [rewrite Hused, Hm; reflexivity|].
  split; [rewrite Hm; reflexivity | exact Hrange].
Defined.

(** X11.  A successful [GetDiskStats] follows /proc/mounts and
    statfs: every entry is the one computed from the answer of statfs
    for its mount point, which a line of /proc/mounts offers; and
    every mount point that a line of /proc/mounts offers and statfs
    answers for has its entry. *)
Theorem GetDiskStats_follows_statfs
    (mounts : File) (statfs : string -> option Statfs_t)
    (disks : Go.slice models.DiskStats.t) :
  GetDiskStats mounts statfs = Go.Ok disks ->
  Forall (fun d =>
            fromStatfs statfs d /\
            exists line,
              line ∈ linesOf mounts /\
              mountOf line = Some (models.DiskStats.Mountpoint d))
         (Go.elems disks) /\
  (forall line mp stat,
     line ∈ linesOf mounts -> mountOf line = Some mp -> statfs mp = Some stat ->
     diskEntry mp stat ∈ Go.elems disks).
Proof.
  intros Hget. destruct (GetDiskStats_complete _ _ _ Hget) as [Hsound Hcompl].
  split; [|exact Hcompl].
  destruct mounts as [e|lines scanErr]; [discriminate Hget|].
  destruct (GetDiskStats_inv _ _ _ _ Hget) as [_ Hreal]. cbn [linesOf].
  rewrite Forall_forall in Hsound, Hreal. apply Forall_forall. intros d Hd.
  split; [exact (Hsound d Hd)|].
  destruct (Hreal d Hd) as (line & dev & fstype & rest & Hin & Hf & Hsp).
  exists line. split; [exact Hin|]. unfold mountOf. rewrite Hf, Hsp. reflexivity.
Qed.

Lemma GetDiskStats_follows_statfs_witness :
  exists disks,
    GetDiskStats SampleOS.mountsNoBreakSpace SampleOS.statfs = Go.Ok disks /\
    diskEntry "/mnt/a" {| Bsize := 4096; Blocks := 100; Bfree := 50; Bavail := 45 |}
      ∈ Go.elems disks.
Proof.
  destruct (GetDiskStats SampleOS.mountsNoBreakSpace SampleOS.statfs)
    as [disks|e] eqn:Hget; [|vm_compute in Hget; discriminate Hget].
  exists disks. split; [reflexivity|].
  destruct (GetDiskStats_follows_statfs _ _ _ Hget) as [_ Hall].
  apply (Hall ("/dev/sdb1 /mnt/a" +:+ SampleOS.noBreakSpace
               +:+ "b ext4 rw,relatime 0 0")%string).
  - cbn [linesOf SampleOS.mountsNoBreakSpace]. left.
  - vm_compute. reflexivity.
  - reflexivity.
Defined.

(** X12.  When every answer of statfs has a block size that is not
    negative, no more free blocks than blocks and a size that fits a
    uint64, every entry of a successful [GetDiskStats] reports the
    size and the used bytes of its filesystem exactly, and a
    percentage in [0, 100]. *)
Theorem GetDiskStats_in_range
    (mounts : File) (statfs : string -> option Statfs_t)
    (disks : Go.slice models.DiskStats.t) :
  (forall mp stat, statfs mp = Some stat -> plausible stat) ->
  GetDiskStats mounts statfs = Go.Ok disks ->
  Forall (fun d =>
            exists stat,
              statfs (models.DiskStats.Mountpoint d) = Some stat /\
              models.DiskStats.Total d = Blocks stat * Bsize stat /\
              models.DiskStats.Used d = (Blocks stat - Bfree stat) * Bsize stat /\
              thresholdInRange (models.DiskStats.Percent d))
         (Go.elems disks).
Proof.
  intros Hpl Hget. destruct (GetDiskStats_complete _ _ _ Hget) as [Hsound _].
  eapply Forall_impl; [exact Hsound|].
  intros d (stat & Hstat & Hd). exists stat. split; [exact Hstat|].
  rewrite Hd. apply diskEntry_plausible, (Hpl _ _ Hstat).
Qed.

Lemma GetDiskStats_in_range_witness :
  exists d,
    GetDiskStats SampleOS.mounts SampleOS.statfs = Go.Ok (Some [d]) /\
    models.DiskStats.Total d = 100 * 4096 /\
    models.DiskStats.Used d = (100 - 50) * 4096 /\
    thresholdInRange (models.DiskStats.Percent d).
Proof.
  exists SampleOS.rootEntry.
  assert (Hget : GetDiskStats SampleOS.mounts SampleOS.statfs
                 = Go.Ok (Some [SampleOS.rootEntry])) by (vm_compute; reflexivity).
  split; [exact Hget|].
  assert (Hpl : forall mp stat, SampleOS.statfs mp = Some stat -> plausible stat).
  { intros mp stat [= <-]. unfold plausible, Go.maxInt64, Go.two64. simpl. lia. }
  pose proof (GetDiskStats_in_range _ _ _ Hpl Hget) as Hall.
  apply Forall_inv in Hall. destruct Hall as (stat & Hstat & Ht & Hu & Hr).
  injection Hstat as <-. cbn [Blocks Bsize Bfree] in Ht, Hu.
  split; [exact Ht|]. split; [exact Hu | exact Hr].
Defined.

End LinuxSourceLaws.

(** ** A cycle over the Linux source *)

Section LinuxCycleLaws.

Import stats.Linux.

(** X13.  Over the Linux source [Collect] always returns: neither the
    CPU nor the memory query ever answers with a nil pointer and no
    error, so the dereferences of [Collect] cannot panic, whatever
    the files under /proc contain. *)
Theorem Linux_Collect_returns
    (c : Collector Host) (start now : Go.Time) :
  exists r, Collect c start now = Go.Returned r.
Proof.
  apply Collect_returns.
  - intros h. cbn [collector.GetCPUStats LinuxProvider].
    pose proof (GetCPUStats_not_nil (self h) (procStat (os h))) as Hnn.
    destruct (stats.Linux.GetCPUStats (self h) (procStat (os h))) as [r p].
    exact Hnn.
  - intros h. cbn [collector.GetMemoryStats LinuxProvider fst].
    apply GetMemoryStats_not_nil.
Qed.

(** X14.  The first cycle of a collector over a new Linux provider
    reports an overall CPU percentage of 0, a per-core percentage of
    0 for every core, and both rates 0 for every interface, on any
    machine. *)
Theorem Linux_first_cycle
    (machine : OS) (t0 start now : Go.Time) :
  exists r,
    Collect (NewCollector (mkHost machine NewLinuxStatsProvider) t0) start now
      = Go.Returned r /\
    models.CPUStats.Overall (models.Metrics.CPU (metrics r)) = Go.f64_zero /\
    allZero (models.CPUStats.PerCore (models.Metrics.CPU (metrics r))) /\
    Forall zeroRates (Go.elems (models.Metrics.Network (metrics r))).
Proof.
  unfold Collect, andThen, deref, NewCollector, allZero.
  cbn [provider prevNet prevTime collector.GetCPUStats collector.GetMemoryStats
       collector.GetDiskStats collector.GetNetworkStats LinuxProvider os self].
  pose proof (GetMemoryStats_not_nil (procMeminfo machine)) as Hmem.
  pose proof (GetNetworkStats_zeroRates (procNetDev machine)) as Hnet.
  destruct (GetCPUStats_cases NewLinuxStatsProvider (procStat machine))
    as [(e & ->) | (v & c0 & cs & -> & _ & _ & Hfirst)];
    [|destruct (Hfirst eq_refl) as [Hov Hpc]];
    cbn [collector.GetCPUStats collector.GetMemoryStats collector.GetDiskStats
         collector.GetNetworkStats LinuxProvider os self];
    (destruct (stats.Linux.GetMemoryStats (procMeminfo machine)) as [[mem|]|e'];
     [| elim Hmem; reflexivity |]);
    destruct (stats.Linux.GetDiskStats (procMounts machine) (statfsCall machine))
      as [disk|e''];
    (destruct (stats.Linux.GetNetworkStats (procNetDev machine)) as [net|e'''];
     [specialize (Hnet net eq_refl)|]);
    eexists; (split; [reflexivity|]);
    cbn [metrics models.Metrics.CPU models.Metrics.Network
         models.CPUStats.Overall models.CPUStats.PerCore models.CPUStats.zero
         Go.elems];
    repeat split; try assumption; try reflexivity; constructor.
Qed.

End LinuxCycleLaws.

(** ** formatBytes *)

Section FormatFacts.

Import render.

Lemma scaleLoop_spec (fuel : nat) :
  forall n div exp,
    0 < div -> 0 <= n -> div * n < Go.two64 -> n < 1024 ^ (Z.of_nat fuel + 1) ->
    exists j : nat,
      (j <= fuel)%nat /\
      scaleLoop (S fuel) n div exp
        = Some (div * 1024 ^ Z.of_nat j, exp + Z.of_nat j) /\
      n / 1024 ^ Z.of_nat j < 1024 /\
      (1024 ^ Z.of_nat j <= n \/ j = 0%nat).
Proof.
  assert (Hstop : forall f n div exp, n < 1024 ->
            exists j : nat,
              (j <= f)%nat /\
              scaleLoop (S f) n div exp
                = Some (div * 1024 ^ Z.of_nat j, exp + Z.of_nat j) /\
              n / 1024 ^ Z.of_nat j < 1024 /\
              (1024 ^ Z.of_nat j <= n \/ j = 0%nat)).
  { intros f n div exp Hsmall. exists 0%nat. split; [lia|].
    cbn [scaleLoop]. unfold unit.
    destruct (Z.leb_spec 1024 n) as [|_]; [lia|]. simpl.
    rewrite Z.mul_1_r, Z.add_0_r, Z.div_1_r.
    split; [reflexivity|]. split; [exact Hsmall | right; reflexivity]. }
  induction fuel as [|fuel IH]; intros n div exp Hdiv Hn Hfit Hlt.
  - apply Hstop. simpl in Hlt. lia.
  - destruct (Z.lt_ge_cases n 1024) as [Hsmall|Hge]; [apply Hstop, Hsmall|].
    assert (Hstep : scaleLoop (S (S fuel)) n div exp
                    = scaleLoop (S fuel) (n / 1024) (div * 1024) (exp + 1)).
    { change (scaleLoop (S (S fuel)) n div exp)
        with (if unit <=? n
              then scaleLoop (S fuel) (n / unit) (Go.mul64 div unit) (exp + 1)
              else Some (div, exp)).
      unfold unit. destruct (Z.leb_spec 1024 n) as [_|]; [|lia].
      f_equal. unfold Go.mul64. apply wrap64_small. unfold Go.is_uint64.
      assert (div * 1024 <= div * n) by (apply Z.mul_le_mono_nonneg_l; lia).
      lia. }
    rewrite Hstep.
    assert (Hq : 0 <= n / 1024) by (apply Z.div_pos; lia).
    assert (Hqn : 1024 * (n / 1024) <= n) by (apply Z.mul_div_le; lia).
    destruct (IH (n / 1024) (div * 1024) (exp + 1)) as (j & Hj & Hrun & Hhi & Hlo).
    + lia.
    + exact Hq.
    + assert (div * (1024 * (n / 1024)) <= div * n)
        by (apply Z.mul_le_mono_nonneg_l; lia).
      lia.
    + apply Z.div_lt_upper_bound; [lia|].
      rewrite Nat2Z.inj_succ in Hlt.
      replace (Z.succ (Z.of_nat fuel) + 1) with (Z.succ (Z.of_nat fuel + 1)) in Hlt
        by lia.
      rewrite Z.pow_succ_r in Hlt by lia. exact Hlt.
    + exists (S j). split; [lia|].
      rewrite Nat2Z.inj_succ, Z.pow_succ_r by lia.
      split; [rewrite Hrun; f_equal; f_equal; lia|].
      split.
      * rewrite <- Z.div_div by lia. exact Hhi.
      * left. destruct Hlo as [Hlo| ->]; [lia|]. simpl. lia.
Qed.

Lemma letters_get (k : nat) :
  (k <= 5)%nat -> exists letter, String.get k "KMGTPE" = Some letter.
Proof.
  intros Hk. do 6 (destruct k as [|k]; [eexists; reflexivity|]). lia.
Qed.

End FormatFacts.

Section FormatLaws.

Import render.

(** X15.  For every uint64, [formatBytes] ends and does not panic:
    below 1024 it prints the number of bytes; from 1024 on it divides
    by [1024^(k+1)] and prints letter [k] of KMGTPE, where [k <= 5]
    is the one index with [1024^(k+1) <= bytes < 1024^(k+2)]. *)
Theorem formatBytes_unit (bytes : Z) :
  Go.is_uint64 bytes ->
  (bytes < 1024 -> formatBytes bytes = Some (Go.Returned (Bytes bytes))) /\
  (1024 <= bytes ->
   exists (k : nat) (letter : ascii),
     (k <= 5)%nat /\
     String.get k "KMGTPE" = Some letter /\
     1024 ^ (Z.of_nat k + 1) <= bytes < 1024 ^ (Z.of_nat k + 2) /\
     formatBytes bytes =
       Some (Go.Returned
               (Scaled (Go.f64_div (Go.f64_of_Z bytes)
                                   (Go.f64_of_Z (1024 ^ (Z.of_nat k + 1))))
                       letter))).
Proof.
  intros [Hlo Hhi]. unfold formatBytes, unit. split.
  - intros Hsmall. destruct (Z.ltb_spec bytes 1024); [reflexivity | lia].
  - intros Hbig. destruct (Z.ltb_spec bytes 1024) as [|_]; [lia|].
    assert (Hq : 1024 * (bytes / 1024) <= bytes) by (apply Z.mul_div_le; lia).
    assert (Hq1 : 1 <= bytes / 1024) by (apply Z.div_le_lower_bound; lia).
    destruct (scaleLoop_spec 6 (bytes / 1024) 1024 0)
      as (j & Hj & Hrun & Hup & Hdown); [lia | lia | lia | |].
    { apply Z.div_lt_upper_bound; [lia|]. unfold Go.two64 in Hhi.
      change (1024 ^ (Z.of_nat 6 + 1)) with (2 ^ 70). lia. }
    assert (Hpos : 0 < 1024 ^ Z.of_nat j) by (apply Z.pow_pos_nonneg; lia).
    assert (Hbelow : 1024 ^ (Z.of_nat j + 1) <= bytes).
    { rewrite Z.pow_add_r, Z.pow_1_r by lia.
      destruct Hdown as [Hd| ->]; [nia | simpl; lia]. }
    assert (Habove : bytes < 1024 ^ (Z.of_nat j + 2)).
    { rewrite Z.div_div in Hup by lia.
      replace (1024 ^ (Z.of_nat j + 2)) with (1024 * 1024 ^ Z.of_nat j * 1024)
        by (rewrite Z.pow_add_r by lia; change (1024 ^ 2) with (1024 * 1024); lia).
      destruct (Z.lt_ge_cases bytes (1024 * 1024 ^ Z.of_nat j * 1024))
        as [Hlt|Hge]; [exact Hlt | exfalso].
      assert (1024 <= bytes / (1024 * 1024 ^ Z.of_nat j))
        by (apply Z.div_le_lower_bound; lia).
      lia. }
    assert (Hk : (j <= 5)%nat).
    { destruct (Nat.le_gt_cases j 5) as [Hle|Hgt]; [exact Hle | exfalso].
      assert (1024 ^ 7 <= 1024 ^ (Z.of_nat j + 1))
        by (apply Z.pow_le_mono_r; lia).
      unfold Go.two64 in Hhi. change (1024 ^ 7) with (2 ^ 70) in *. lia. }
    destruct (letters_get j Hk) as (letter & Hletter).
    exists j, letter. split; [exact Hk|]. split; [exact Hletter|].
    split; [split; assumption|].
    rewrite Hrun. rewrite Z.add_0_l.
    destruct (Z.ltb_spec (Z.of_nat j) 0) as [|_]; [lia|].
    rewrite Nat2Z.id, Hletter.
    replace (1024 * 1024 ^ Z.of_nat j) with (1024 ^ (Z.of_nat j + 1))
      by (rewrite Z.pow_add_r, Z.pow_1_r by lia; lia).
    reflexivity.
Qed.

Lemma formatBytes_unit_witness :
  Go.is_uint64 SampleSizes.bytes /\
  formatBytes SampleSizes.bytes =
    Some (Go.Returned (Scaled SampleSizes.f64_1_5 "M"%char)).
Proof.
  assert (Hu : Go.is_uint64 SampleSizes.bytes)
    by (unfold Go.is_uint64, Go.two64, SampleSizes.bytes; lia).
  split; [exact Hu|].
  destruct (formatBytes_unit SampleSizes.bytes Hu) as [_ Hbig].
  destruct Hbig as (k & letter & Hk & Hletter & [Hlo Hhi] & _);
    [unfold SampleSizes.bytes; lia|].
  vm_compute. reflexivity.
Defined.

End FormatLaws.

(** ** The macOS source *)

Section DarwinLaws.

Import stats.Linux.

(** X16.  [GetDiskStats] of the macOS source fails exactly when
    statfs fails on both of its mount points; otherwise it returns,
    in the order / then /System/Volumes/Data, the entry of every
    mount point that statfs answers for. *)
Theorem Darwin_GetDiskStats_cases (statfs : string -> option Statfs_t) :
  match stats.Darwin.GetDiskStats statfs with
  | Go.Err e =>
      e = "no disk stats available"%string /\
      Forall (fun mp => statfs mp = None) stats.Darwin.mountpoints
  | Go.Ok disks =>
      disks = Some (omap (fun mp => diskEntry mp <$> statfs mp)
                         stats.Darwin.mountpoints) /\
      Exists (fun mp => statfs mp <> None) stats.Darwin.mountpoints
  end.
Proof.
  unfold stats.Darwin.GetDiskStats, stats.Darwin.mountpoints.
  cbn [fold_left omap list_omap]. unfold stats.Darwin.diskMount.
  destruct (statfs "/"%string) as [s1|] eqn:H1;
    destruct (statfs "/System/Volumes/Data"%string) as [s2|] eqn:H2;
    cbn; (split; [reflexivity|]).
  - left. rewrite H1. discriminate.
  - left. rewrite H1. discriminate.
  - right. left. rewrite H2. discriminate.
  - repeat constructor; assumption.
Qed.

End DarwinLaws.
